(** * node-backend: organization context, bucket scoping and RAG handlers

    A shallow embedding of the decision logic of the gateway:

    - [Auth]    : the Supabase authentication middleware
                  ([authenticateSupabaseUser]) and the in-memory store of
                  organization-switching sessions
                  ([setOrganizationSession], [getOrganizationSession], ...);
    - [GroundX] : the [/buckets], [/rag] and [/search] route handlers and
                  the [extractBestScore] helper they share.

    The external services (Supabase, GroundX, OpenAI) are inputs of the
    model: records of functions that say what each call answers.  Every
    handler is a function from the request and these services to the HTTP
    response it sends, together with the list of network calls it made. *)

From Stdlib Require Import ZArith QArith Ascii String List Bool Lia.
From stdpp Require Import gmap strings.

Open Scope string_scope.

(** ** The JavaScript primitives the handlers rely on *)

Module JS.

(** A JavaScript number, as far as the handlers look at it: they test
    [typeof], [isNaN] and truthiness and never compute with the finite
    values, which are carried here as rationals. *)
Inductive Number : Type :=
| NaN
| PosInfinity
| NegInfinity
| Finite (q : Q).

(** Primitive values found in a JSON body or in a result record. *)
Inductive Value : Type :=
| Undefined
| Null
| Bool (b : bool)
| Num (n : Number)
| Str (s : string).

Definition isNaN (n : Number) : bool :=
  match n with NaN => true | _ => false end.

Definition isFinite (n : Number) : bool :=
  match n with Finite _ => true | _ => false end.

Definition isZero (n : Number) : bool :=
  match n with Finite q => (Qnum q =? 0)%Z | _ => false end.

Definition truthyString (s : string) : bool :=
  match s with EmptyString => false | String _ _ => true end.

(** ToBoolean: [undefined], [null], [false], [0], [NaN] and [""] are
    falsy, everything else is truthy. *)
Definition truthy (v : Value) : bool :=
  match v with
  | Undefined | Null => false
  | Bool b => b
  | Num n => negb (isNaN n || isZero n)
  | Str s => truthyString s
  end.

(** [a || b] on optional strings ([undefined] and [""] are falsy). *)
Definition orElse (a b : option string) : option string :=
  match a with
  | Some s => if truthyString s then a else b
  | None => b
  end.

(** [a || ''] *)
Definition orEmpty (a : option string) : string :=
  match a with Some s => s | None => "" end.

(** [s.startsWith(p)] *)
Fixpoint startsWith (s p : string) {struct p} : bool :=
  match p with
  | EmptyString => true
  | String c p' =>
      match s with
      | EmptyString => false
      | String d s' => Ascii.eqb d c && startsWith s' p'
      end
  end.

(** [s.includes(p)]: [p] starts at some position of [s]. *)
Fixpoint includes (s p : string) : bool :=
  startsWith s p ||
  match s with
  | EmptyString => false
  | String _ s' => includes s' p
  end.

(** [s.substring(n)] *)
Fixpoint substringFrom (n : nat) (s : string) : string :=
  match n, s with
  | O, _ => s
  | S n', String _ s' => substringFrom n' s'
  | S _, EmptyString => EmptyString
  end.

Definition lowerChar (c : ascii) : ascii :=
  let n := N_of_ascii c in
  if ((65 <=? n) && (n <=? 90)
      || (192 <=? n) && (n <=? 222) && negb (n =? 215))%N
  then ascii_of_N (n + 32) else c.

(** [s.toLowerCase()].  Strings are sequences of 8-bit (Latin-1)
    characters here; the capital letters are the ones that change. *)
Fixpoint toLowerCase (s : string) : string :=
  match s with
  | EmptyString => EmptyString
  | String c s' => String (lowerChar c) (toLowerCase s')
  end.

(** *** [parseInt(string)] with no radix argument *)

Definition isWhiteSpace (c : ascii) : bool :=
  let n := N_of_ascii c in
  ((9 <=? n) && (n <=? 13) || (n =? 32) || (n =? 160))%N.

Fixpoint trimStart (s : string) : string :=
  match s with
  | String c s' => if isWhiteSpace c then trimStart s' else s
  | EmptyString => EmptyString
  end.

(** The value of [c] as a digit of the given radix, if it is one. *)
Definition digitValue (radix : N) (c : ascii) : option N :=
  let n := N_of_ascii c in
  let v :=
    if ((48 <=? n) && (n <=? 57))%N then Some (n - 48)%N
    else if ((97 <=? n) && (n <=? 122))%N then Some (n - 87)%N
    else if ((65 <=? n) && (n <=? 90))%N then Some (n - 55)%N
    else None in
  match v with
  | Some d => if (d <? radix)%N then Some d else None
  | None => None
  end.

(** Reads the longest prefix of digits; [acc] is [None] until a digit
    has been seen. *)
Fixpoint readDigits (radix : N) (acc : option N) (s : string) : option N :=
  match s with
  | EmptyString => acc
  | String c s' =>
      match digitValue radix c with
      | Some d =>
          readDigits radix
            (Some (match acc with Some a => a * radix + d | None => d end)%N) s'
      | None => acc
      end
  end.

Definition stripSign (s : string) : bool * string :=
  match s with
  | String "-" s' => (true, s')
  | String "+" s' => (false, s')
  | _ => (false, s)
  end.

Definition stripHexPrefix (s : string) : N * string :=
  match s with
  | String "0" (String "x" s') => (16%N, s')
  | String "0" (String "X" s') => (16%N, s')
  | _ => (10%N, s)
  end.

(** The integer is kept exact: a digit string beyond 2^53 is not rounded
    to a double. *)
Definition parseIntString (s : string) : Number :=
  let '(negative, s1) := stripSign (trimStart s) in
  let '(radix, s2) := stripHexPrefix s1 in
  match readDigits radix None s2 with
  | None => NaN
  | Some n =>
      Finite (inject_Z (if negative then - Z.of_N n else Z.of_N n))
  end.

(** [parseInt(v)] converts [v] to a string first.  [undefined], [null],
    booleans, [NaN] and the infinities print as words with no leading
    digit.  A finite number in positional notation (magnitude from 1e-6
    up to 1e21, or zero) prints its integer part first, so the result is
    the number truncated towards zero; numbers printed in exponent
    notation are outside this model and are truncated likewise. *)
Definition parseInt (v : Value) : Number :=
  match v with
  | Str s => parseIntString s
  | Num (Finite q) => Finite (inject_Z (Z.quot (Qnum q) (Zpos (Qden q))))
  | _ => NaN
  end.

End JS.

(** ** The authentication middleware and the session store *)

Module Auth.
Import JS.

(** The user the identity provider returns for a token. *)
Record SupabaseUser : Type := {
  user_id : string;
  user_email : option string
}.

(** The columns of a [client_configurations] row the middleware reads;
    a [None] is a [null] column. *)
Record ClientConfig : Type := {
  organization_id : option string;
  client_name : option string;
  client_type : option string
}.

(** The [{ data, error }] pair every Supabase call resolves to. *)
Record QueryResult (A : Type) : Type := {
  data : option A;
  error : bool
}.
Arguments data {A} _.
Arguments error {A} _.

Record Supabase : Type := {
  (** [auth.getUser(token)] *)
  getUser : string -> QueryResult SupabaseUser;
  (** [from('client_configurations') .eq('created_by', id)
      .eq('is_active', true) .limit(1)] *)
  configsCreatedBy : string -> QueryResult (list ClientConfig);
  (** [... .eq('organization_id', id) .eq('is_active', true) .limit(1)
      .single()] *)
  configOfOrganization : string -> QueryResult ClientConfig
}.

Record OrgInfo : Type := {
  id : option string;
  name : option string;
  type : option string
}.

Record OrganizationContext : Type := {
  userOrganizationId : string;
  userOrganizationName : string;
  activeOrganizationId : string;
  activeOrganizationName : string;
  isQIGAdmin : bool;
  canAccessOrganization : string -> bool
}.

(** [req.user] *)
Record RequestUser : Type := {
  ru_id : string;
  ru_email : string;
  ru_organization : option OrgInfo;
  ru_isQIG : bool
}.

(** An entry of [organizationSessions]. *)
Record OrgSession : Type := {
  sessionOrganizationId : string;
  timestamp : Z
}.

Definition sessionLifetime : Z := 24 * 60 * 60 * 1000.

(** [!!(user.email && (user.email.includes('@qig.') ||
      user.email.includes('@qualityimprovementgroup.')))] *)
Definition isQIG (email : option string) : bool :=
  match email with
  | Some e =>
      truthyString e &&
      (includes e "@qig." || includes e "@qualityimprovementgroup.")
  | None => false
  end.

Definition qigOrganization : OrgInfo :=
  {| id := Some "qig-org"; name := Some "QIG"; type := Some "enterprise" |}.

Definition orgOfConfig (c : ClientConfig) : OrgInfo :=
  {| id := organization_id c; name := client_name c; type := client_type c |}.

(** The home organization: fixed for a QIG user, otherwise the first
    active client configuration the user created, if the query answers
    one. *)
Definition userOrganizationInfo (sb : Supabase) (u : SupabaseUser)
  : option OrgInfo :=
  if isQIG (user_email u) then Some qigOrganization
  else
    let r := configsCreatedBy sb (user_id u) in
    if error r then None
    else match data r with
         | Some (config :: _) => Some (orgOfConfig config)
         | _ => None
         end.

(** The organization the user acts as, and the session store afterwards
    (an expired session is removed when it is seen). *)
Definition activeOrganization (sb : Supabase) (now : Z) (u : SupabaseUser)
    (home : option OrgInfo) (sessions : gmap string OrgSession)
  : option OrgInfo * gmap string OrgSession :=
  match isQIG (user_email u), home with
  | true, Some _ =>
      match sessions !! user_id u with
      | Some orgSession =>
          if (now - timestamp orgSession <? sessionLifetime)%Z then
            let r := configOfOrganization sb (sessionOrganizationId orgSession) in
            match data r, error r with
            | Some switchedOrg, false => (Some (orgOfConfig switchedOrg), sessions)
            | _, _ => (home, sessions)
            end
          else (home, delete (user_id u) sessions)
      | None => (home, sessions)
      end
  | _, _ => (home, sessions)
  end.

Definition idOf (o : option OrgInfo) : option string :=
  match o with Some i => id i | None => None end.

Definition nameOf (o : option OrgInfo) : option string :=
  match o with Some i => name i | None => None end.

(** [orgId === userOrganizationInfo?.id] *)
Definition strictEqualsId (orgId : string) (i : option string) : bool :=
  match i with
  | Some s => String.eqb orgId s
  | None => false
  end.

Definition organizationContext (qig : bool) (home active : option OrgInfo)
  : OrganizationContext :=
  {| userOrganizationId := orEmpty (idOf home);
     userOrganizationName := orEmpty (nameOf home);
     activeOrganizationId := orEmpty (idOf active);
     activeOrganizationName := orEmpty (nameOf active);
     isQIGAdmin := qig;
     canAccessOrganization := fun orgId => qig || strictEqualsId orgId (idOf home) |}.

(** What the middleware does with the request: answer it, or hand it on
    with [req.user] and [req.organizationContext] set. *)
Inductive Outcome : Type :=
| Respond (status : nat) (errorMessage : string)
| Next (user : RequestUser) (context : OrganizationContext).

(** [supabase] is [None] when [SUPABASE_URL] or [SUPABASE_ANON_KEY] is
    not set: [getSupabaseClient] throws and the [catch] answers 500. *)
Definition authenticateSupabaseUser (supabase : option Supabase) (now : Z)
    (authorization : option string) (sessions : gmap string OrgSession)
  : Outcome * gmap string OrgSession :=
  match authorization with
  | None => (Respond 401 "Missing or invalid authorization header", sessions)
  | Some authHeader =>
      if negb (truthyString authHeader && startsWith authHeader "Bearer ")
      then (Respond 401 "Missing or invalid authorization header", sessions)
      else
        let token := substringFrom 7 authHeader in
        match supabase with
        | None => (Respond 500 "Authentication failed", sessions)
        | Some sb =>
            let r := getUser sb token in
            match error r, data r with
            | false, Some user =>
                let qig := isQIG (user_email user) in
                let home := userOrganizationInfo sb user in
                let '(active, sessions') :=
                  activeOrganization sb now user home sessions in
                (Next {| ru_id := user_id user;
                         ru_email := orEmpty (user_email user);
                         ru_organization := active;
                         ru_isQIG := qig |}
                      (organizationContext qig home active),
                 sessions')
            | _, _ => (Respond 401 "Invalid or expired token", sessions)
            end
        end
  end.

(** *** Session helpers *)

Definition setOrganizationSession (now : Z) (userId organizationId : string)
    (sessions : gmap string OrgSession) : gmap string OrgSession :=
  <[userId := {| sessionOrganizationId := organizationId; timestamp := now |}]>
    sessions.

Definition clearOrganizationSession (userId : string)
    (sessions : gmap string OrgSession) : gmap string OrgSession :=
  delete userId sessions.

Definition getOrganizationSession (now : Z) (userId : string)
    (sessions : gmap string OrgSession)
  : option OrgSession * gmap string OrgSession :=
  match sessions !! userId with
  | Some session =>
      if (now - timestamp session <? sessionLifetime)%Z
      then (Some session, sessions)
      else (None, delete userId sessions)
  | None => (None, sessions)
  end.

(** *** The other middlewares *)

(** What [optionalSupabaseAuth] does with the request: hand it on with no
    user, or whatever [authenticateSupabaseUser] does with it. *)
Inductive OptionalOutcome : Type :=
| Anonymous
| Checked (o : Outcome).

(** [authenticateSupabaseUser] catches every error itself, so the [catch]
    of [optionalSupabaseAuth] around it is never entered. *)
Definition optionalSupabaseAuth (supabase : option Supabase) (now : Z)
    (authorization : option string) (sessions : gmap string OrgSession)
  : OptionalOutcome * gmap string OrgSession :=
  match authorization with
  | Some authHeader =>
      if negb (truthyString authHeader && startsWith authHeader "Bearer ")
      then (Anonymous, sessions)
      else
        let '(o, sessions') :=
          authenticateSupabaseUser supabase now authorization sessions in
        (Checked o, sessions')
  | None => (Anonymous, sessions)
  end.

(** [requireQIGUser]: the answer it sends, or [None] when it calls
    [next()]. *)
Definition requireQIGUser (user : option RequestUser) : option (nat * string) :=
  match user with
  | None => Some (401%nat, "Authentication required")
  | Some u =>
      if ru_isQIG u then None else Some (403%nat, "QIG access required")
  end.

(** [{ ...organization }]: the fields of the organization, none for
    [null]. *)
Definition spreadOrganization (o : option OrgInfo) : OrgInfo :=
  match o with
  | Some i => i
  | None => {| id := None; name := None; type := None |}
  end.

(** [handleOrganizationOverride]: [req.user] afterwards, and the
    [override_id] written into its organization, if any. *)
Definition handleOrganizationOverride (organizationOverride : option string)
    (user : option RequestUser) : option RequestUser * option string :=
  match organizationOverride, user with
  | Some h, Some u =>
      if truthyString h && ru_isQIG u then
        (Some {| ru_id := ru_id u;
                 ru_email := ru_email u;
                 ru_organization := Some (spreadOrganization (ru_organization u));
                 ru_isQIG := ru_isQIG u |},
         Some h)
      else (user, None)
  | _, _ => (user, None)
  end.

(** [getOrganizationFilterPattern] *)
Definition getOrganizationFilterPattern (user : option RequestUser) : string :=
  match user with
  | Some {| ru_organization := Some organization |} =>
      match orElse (id organization) (name organization) with
      | Some (String c r) =>
          let orgIdentifier := String c r in
          let orgLower := toLowerCase orgIdentifier in
          if includes orgLower "austin" || String.eqb orgLower "ai"
          then "Austin Industries"
          else if includes orgLower "qig" || includes orgLower "quality improvement"
          then "*"
          else if includes orgLower "spinakr" || includes orgLower "spinaker"
                  || String.eqb orgLower "spnkr"
          then "Spinakr"
          else orEmpty (orElse (name organization) (Some orgIdentifier))
      | _ => "unknown-org"
      end
  | _ => "unknown-org"
  end.

End Auth.

(** ** The GroundX routes *)

Module GroundX.
Import JS.

(** *** Result records and score extraction *)

(** A result record of the search service.  [metadata] and [searchData]
    are objects used as maps; [highlight] holds [highlight.text]. *)
Record SearchResultItem : Type := {
  documentId : option string;
  fileName : option string;
  score : Value;
  relevanceScore : Value;
  rankingScore : Value;
  text : option string;
  suggestedText : option string;
  metadata : option (gmap string Value);
  searchData : option (gmap string Value);
  highlight : option (option (list string))
}.

(** [obj?.key] *)
Definition optionalProperty (obj : option (gmap string Value)) (key : string)
  : Value :=
  match obj with
  | Some o => default Undefined (o !! key)
  | None => Undefined
  end.

Record BestScore : Type := {
  bestScore : Number;
  source : string
}.

(** The entries of [scoreFields], in insertion order. *)
Definition scoreFields (result : SearchResultItem) : list (string * Value) :=
  [ ("primaryScore", score result);
    ("relevanceScore", relevanceScore result);
    ("rankingScore", rankingScore result);
    ("metadataScore", optionalProperty (metadata result) "score");
    ("searchDataScore", optionalProperty (searchData result) "score") ].

(** [typeof score === 'number' && !isNaN(score)] *)
Definition usableScore (v : Value) : option Number :=
  match v with
  | Num n => if isNaN n then None else Some n
  | _ => None
  end.

Fixpoint firstUsable (fields : list (string * Value)) : option BestScore :=
  match fields with
  | [] => None
  | (src, v) :: rest =>
      match usableScore v with
      | Some n => Some {| bestScore := n; source := src |}
      | None => firstUsable rest
      end
  end.

Definition extractBestScore (result : SearchResultItem) : BestScore :=
  default {| bestScore := Finite 0; source := "default" |}
          (firstUsable (scoreFields result)).

(** *** Responses, network calls and the handler monad *)

Record Bucket : Type := {
  b_bucket_id : Value;
  b_bucketId : Value;
  b_id : Value;
  b_bId : Value;
  b_name : option string;
  b_title : option string;
  b_bucketName : option string;
  b_documentCount : Value;
  b_count : Value;
  b_documents : Value
}.

(** The name of a processed bucket: one of the bucket's own names, or
    the text [Bucket <id>] built from the value shown. *)
Inductive BucketLabel : Type :=
| Named (s : string)
| Numbered (idOrUnknown : Value).

Record ProcessedBucket : Type := {
  pb_id : Value;
  pb_name : BucketLabel;
  pb_documentCount : Number
}.

(** An entry of [searchResults.sources] (the fields copied unchanged
    from the result record are left out, [metadata] apart). *)
Record Source : Type := {
  src_id : option string;
  src_fileName : option string;
  src_text : option string;
  src_metadata : option (gmap string Value);
  src_score : Number;
  src_rawScore : Number;
  src_scoreSource : string;
  src_highlights : list string
}.

(** An entry of the [/search] answer. *)
Record SearchHit : Type := {
  hit_documentId : option string;
  hit_fileName : option string;
  hit_text : option string;
  hit_score : Number;
  hit_metadata : option (gmap string Value);
  hit_highlights : list string
}.

Record ExecutionTime : Type := {
  totalMs : Z;
  searchMs : Z;
  llmMs : Z
}.

(** The [thoughts] line is a template; it is kept as the three values
    the template prints. *)
Record Thoughts : Type := {
  searchedThrough : nat;
  aboutQuery : Value;
  consideredConversation : bool
}.

Record RagResponse : Type := {
  rag_query : Value;
  rag_response : string;
  rag_thoughts : option Thoughts;
  rag_count : nat;
  rag_sources : list Source;
  rag_executionTime : ExecutionTime
}.

(** The JSON body of an answer; [success] is [false] exactly for
    [Failure].  Time stamps and the echo of the received fields are left
    out. *)
Inductive Body : Type :=
| Failure (error : string)
| BucketList (buckets : list ProcessedBucket) (organization : option string)
| SearchResults (results : list SearchHit) (count : nat)
| RagAnswer (r : RagResponse).

Record Response : Type := {
  status : nat;
  body : Body
}.

Definition success (r : Response) : bool :=
  match body r with Failure _ => false | _ => true end.

Record Message : Type := {
  role : string;
  content : string
}.

(** A turn sent to the completion service.  The system prompt is a fixed
    text followed by the context block, kept as the [(fileName, text)]
    pairs it numbers. *)
Inductive ChatMessage : Type :=
| SystemPrompt (context : list (option string * option string))
| Turn (r : string) (c : Value).

Record ChatRequest : Type := {
  model : string;
  chatMessages : list ChatMessage;
  chatTemperature : Value;
  max_tokens : nat
}.

Inductive Call : Type :=
| ListBuckets
| ContentSearch (collection : Number) (searchQuery : Value) (n : Value)
| CreateCompletion (request : ChatRequest).

(** How an awaited call settles. *)
Inductive Answer (A : Type) : Type :=
| Resolved (a : A)
| Rejected (message : string).
Arguments Resolved {A} _.
Arguments Rejected {A} _.

Record BucketsResponse : Type := {
  (** [None]: no [buckets] field, or one that is not an array *)
  responseBuckets : option (list Bucket)
}.

Record SearchEnvelope : Type := {
  results : option (list SearchResultItem)
}.

Record SearchResponse : Type := {
  search : option SearchEnvelope
}.

Record GroundXClient : Type := {
  bucketsList : Answer (option BucketsResponse);
  searchContent : Number -> Value -> Value -> Answer (option SearchResponse)
}.

(** A completion: [None] when the answer has no [choices] array, else the
    [message.content] of each choice. *)
Record OpenAIClient : Type := {
  createCompletion : ChatRequest -> Answer (option (list (option string)))
}.

(** The clients are [None] when their API key is not configured. *)
Record Services : Type := {
  groundx : option GroundXClient;
  openai : option OpenAIClient
}.

(** A step of a handler: go on with a value, answer the request and
    stop ([return res.status(..).json(..)]), or throw. *)
Inductive Step (A : Type) : Type :=
| Continue (a : A)
| Reply (r : Response)
| Throw (message : string).
Arguments Continue {A} _.
Arguments Reply {A} _.
Arguments Throw {A} _.

(** Handlers thread the list of network calls made so far. *)
Definition Handler (A : Type) : Type := list Call -> Step A * list Call.

Definition pure {A} (a : A) : Handler A := fun calls => (Continue a, calls).

Definition bind {A B} (h : Handler A) (k : A -> Handler B) : Handler B :=
  fun calls =>
    match h calls with
    | (Continue a, calls') => k a calls'
    | (Reply r, calls') => (Reply r, calls')
    | (Throw m, calls') => (Throw m, calls')
    end.

Notation "x <- h ;; k" := (bind h (fun x => k))
  (at level 100, h at next level, right associativity).
Notation "h ;;; k" := (bind h (fun _ => k))
  (at level 100, right associativity).

Definition reply {A} (st : nat) (b : Body) : Handler A :=
  fun calls => (Reply {| status := st; body := b |}, calls).

Definition throw {A} (message : string) : Handler A :=
  fun calls => (Throw message, calls).

(** [if (cond) return res.status(st).json(b)] *)
Definition replyIf (cond : bool) (st : nat) (b : Body) : Handler unit :=
  if cond then reply st b else pure tt.

(** [await] of a network call: it is recorded, then resolves or throws. *)
Definition await {A} (c : Call) (a : Answer A) : Handler A :=
  fun calls =>
    match a with
    | Resolved v => (Continue v, (calls ++ [c])%list)
    | Rejected m => (Throw m, (calls ++ [c])%list)
    end.

(** [error.message || 'Unknown error'] *)
Definition messageOrUnknown (m : string) : string :=
  if truthyString m then m else "Unknown error".

(** The [try { ... } catch] around a handler body: a thrown error is
    answered with status 500. *)
Definition runHandler (h : Handler Response) : Response * list Call :=
  match h [] with
  | (Continue r, calls) => (r, calls)
  | (Reply r, calls) => (r, calls)
  | (Throw m, calls) =>
      ({| status := 500; body := Failure (messageOrUnknown m) |}, calls)
  end.

Definition getGroundXClient (s : Services) : Handler GroundXClient :=
  match groundx s with
  | Some c => pure c
  | None => throw "GROUNDX_API_KEY environment variable is required"
  end.

Definition getOpenAIClient (s : Services) : Handler OpenAIClient :=
  match openai s with
  | Some c => pure c
  | None => throw "OPENAI_API_KEY environment variable is required"
  end.

(** *** GET /buckets *)

Definition orgToBucketMapping : gmap string (list string) :=
  <["Austin Industries" := ["Austin Industries"; "Austin"; "AI"]]>
  (<["QIG" := ["QIG"; "Quality Improvement Group"]]>
  (<["Spinakr" := ["Spinakr"; "Spinaker"; "Spnkr"]]> ∅)).

(** [orgToBucketMapping] is an object literal, so indexing it also finds
    the properties every object inherits from [Object.prototype].  Their
    values are functions (an object for [__proto__]): truthy, and not
    arrays. *)
Definition objectPrototypeNames : list string :=
  [ "constructor"; "hasOwnProperty"; "isPrototypeOf";
    "propertyIsEnumerable"; "toLocaleString"; "toString"; "valueOf";
    "__defineGetter__"; "__defineSetter__"; "__lookupGetter__";
    "__lookupSetter__"; "__proto__" ].

Inductive Patterns : Type :=
| PatternArray (patterns : list string)
| NotAnArray.

(** [orgToBucketMapping[organizationName] || [organizationName]] *)
Definition bucketPatterns (organizationName : string) : Patterns :=
  match orgToBucketMapping !! organizationName with
  | Some patterns => PatternArray patterns
  | None =>
      if existsb (String.eqb organizationName) objectPrototypeNames
      then NotAnArray
      else PatternArray [organizationName]
  end.

(** [bucket.name || bucket.title || bucket.bucketName || ''] *)
Definition bucketDisplayName (b : Bucket) : string :=
  orEmpty (orElse (orElse (b_name b) (b_title b)) (b_bucketName b)).

(** [name.toLowerCase().includes(pattern.toLowerCase())] *)
Definition matchesPattern (name pattern : string) : bool :=
  includes (toLowerCase name) (toLowerCase pattern).

Definition keepBucket (patterns : list string) (b : Bucket) : bool :=
  existsb (matchesPattern (bucketDisplayName b)) patterns.

(** The filtering step.  [bucketPatterns.some] is called once per bucket:
    when the patterns are not an array the first call throws. *)
Definition filterBuckets (isQIG : bool) (organizationName : option string)
    (buckets : list Bucket) : Handler (list Bucket) :=
  if negb isQIG && truthyString (orEmpty organizationName) then
    match bucketPatterns (orEmpty organizationName) with
    | PatternArray patterns => pure (List.filter (keepBucket patterns) buckets)
    | NotAnArray =>
        match buckets with
        | [] => pure []
        | _ :: _ => throw "bucketPatterns.some is not a function"
        end
    end
  else pure buckets.

Definition orValue (a b : Value) : Value := if truthy a then a else b.

Definition numberOr (v : Value) (otherwise : Number) : Number :=
  match v with Num n => n | _ => otherwise end.

Definition processBucket (b : Bucket) : ProcessedBucket :=
  {| pb_id := orValue (orValue (orValue (b_bucket_id b) (b_bucketId b)) (b_id b))
                      (b_bId b);
     pb_name :=
       match orElse (orElse (b_name b) (b_title b)) (b_bucketName b) with
       | Some (String c s) => Named (String c s)
       | _ => Numbered (orValue (orValue (b_bucket_id b) (b_id b)) (Str "Unknown"))
       end;
     pb_documentCount :=
       numberOr (b_documentCount b)
         (numberOr (b_count b) (numberOr (b_documents b) (Finite 0))) |}.

(** [req.user?.organization?.name] *)
Definition organizationNameOf (user : option Auth.RequestUser) : option string :=
  match user with
  | Some u => Auth.nameOf (Auth.ru_organization u)
  | None => None
  end.

(** [req.user?.isQIG], as the condition [!isQIG] sees it *)
Definition isQIGOf (user : option Auth.RequestUser) : bool :=
  match user with
  | Some u => Auth.ru_isQIG u
  | None => false
  end.

Definition bucketsHandler (s : Services) (user : option Auth.RequestUser)
  : Handler Response :=
  client <- getGroundXClient s ;;
  response <- await ListBuckets (bucketsList client) ;;
  match response with
  | Some {| responseBuckets := Some buckets |} =>
      let organizationName := organizationNameOf user in
      filteredBuckets <- filterBuckets (isQIGOf user) organizationName buckets ;;
      pure {| status := 200;
              body := BucketList (map processBucket filteredBuckets)
                                 organizationName |}
  | _ => reply 500 (Failure "Invalid response structure from GroundX API")
  end.

(** *** POST /rag and POST /search *)

(** [messages] in the body: absent (the default [[]] applies), [null], or
    an array. *)
Inductive MessagesField : Type :=
| NoMessages
| NullMessages
| MessageArray (l : list Message).

Record RequestBody : Type := {
  query : Value;
  bucketId : Value;
  messages : MessagesField;
  limit : Value;
  includeThoughts : Value;
  temperature : Value;
  conversationContext : Value
}.

(** The five readings of [Date.now()] of a RAG request. *)
Record Clock : Type := {
  startTime : Z;
  searchStartTime : Z;
  searchEndTime : Z;
  llmStartTime : Z;
  llmEndTime : Z
}.

(** A destructuring default: it applies to [undefined] only. *)
Definition withDefault (v d : Value) : Value :=
  match v with Undefined => d | _ => v end.

(** [searchResponse?.search?.results] *)
Definition resultsOf (r : option SearchResponse)
  : option (list SearchResultItem) :=
  match r with
  | Some {| search := Some {| results := rs |} |} => rs
  | _ => None
  end.

Definition highlightsOf (result : SearchResultItem) : list string :=
  match highlight result with
  | Some (Some l) => l
  | _ => []
  end.

Definition toSource (result : SearchResultItem) : Source :=
  let scoreData := extractBestScore result in
  {| src_id := documentId result;
     src_fileName := fileName result;
     src_text := orElse (text result) (suggestedText result);
     src_metadata := metadata result;
     src_score := bestScore scoreData;
     src_rawScore := bestScore scoreData;
     src_scoreSource := source scoreData;
     src_highlights := highlightsOf result |}.

Definition toHit (result : SearchResultItem) : SearchHit :=
  let scoreData := extractBestScore result in
  {| hit_documentId := documentId result;
     hit_fileName := fileName result;
     hit_text := orElse (text result) (suggestedText result);
     hit_score := bestScore scoreData;
     hit_metadata := metadata result;
     hit_highlights := highlightsOf result |}.

Definition isUserOrAssistant (m : Message) : bool :=
  String.eqb (role m) "user" || String.eqb (role m) "assistant".

(** The turns sent to the model: system prompt, then (with conversation
    context and more than one message) the earlier user and assistant
    messages, then the query. *)
Definition openaiMessages (sources : list Source) (b : RequestBody)
    (msgs : list Message) : list ChatMessage :=
  let context := map (fun s => (src_fileName s, src_text s)) sources in
  let previous :=
    if truthy (withDefault (conversationContext b) (Bool false))
       && (1 <? length msgs)%nat
    then map (fun m => Turn (role m) (Str (content m)))
             (List.filter isUserOrAssistant (removelast msgs))
    else [] in
  (SystemPrompt context :: previous ++ [Turn "user" (query b)])%list.

Definition completionRequest (sources : list Source) (b : RequestBody)
    (msgs : list Message) : ChatRequest :=
  {| model := "gpt-4-turbo";
     chatMessages := openaiMessages sources b msgs;
     chatTemperature := withDefault (temperature b) (Num (Finite (3 # 10)));
     max_tokens := 1500 |}.

(** The array [messages.length] is read from. *)
Definition messageList (b : RequestBody) : list Message :=
  match messages b with
  | MessageArray l => l
  | _ => []
  end.

(** [completion.choices[0]?.message?.content || 'No response generated'] *)
Definition aiResponseOf (choices : list (option string)) : string :=
  match choices with
  | Some (String c r) :: _ => String c r
  | _ => "No response generated"
  end.

Definition ragResponse (clock : Clock) (b : RequestBody)
    (sources : list Source) (aiResponse : string) : RagResponse :=
  {| rag_query := query b;
     rag_response := aiResponse;
     rag_thoughts :=
       if truthy (withDefault (includeThoughts b) (Bool false))
       then Some {| searchedThrough := length sources;
                    aboutQuery := query b;
                    consideredConversation :=
                      truthy (withDefault (conversationContext b) (Bool false)) |}
       else None;
     rag_count := length sources;
     rag_sources := sources;
     rag_executionTime :=
       {| totalMs := llmEndTime clock - startTime clock;
          searchMs := searchEndTime clock - searchStartTime clock;
          llmMs := llmEndTime clock - llmStartTime clock |} |}.

Definition ragHandler (s : Services) (clock : Clock)
    (user : option Auth.RequestUser) (reqBody : option RequestBody)
  : Handler Response :=
  replyIf (negb (bool_decide (is_Some user))) 401
          (Failure "Authentication required") ;;;
  match reqBody with
  | None => reply 400 (Failure "Request body is missing or empty")
  | Some b =>
      msgs <- match messages b with
              | NullMessages =>
                  throw "Cannot read properties of null (reading 'length')"
              | _ => pure (messageList b)
              end ;;
      replyIf (negb (truthy (query b)) || negb (truthy (bucketId b))) 400
              (Failure "Query and bucketId are required") ;;;
      client <- getGroundXClient s ;;
      let collection := parseInt (bucketId b) in
      let n := withDefault (limit b) (Num (Finite 10)) in
      searchResponse <- await (ContentSearch collection (query b) n)
                              (searchContent client collection (query b) n) ;;
      found <- match resultsOf searchResponse with
               | Some rs => pure rs
               | None => throw "No search results from GroundX"
               end ;;
      let sources := map toSource found in
      let request := completionRequest sources b msgs in
      openaiClient <- getOpenAIClient s ;;
      completion <- await (CreateCompletion request)
                          (createCompletion openaiClient request) ;;
      choices <- match completion with
                 | Some cs => pure cs
                 | None =>
                     throw "Cannot read properties of undefined (reading 'choices')"
                 end ;;
      pure {| status := 200;
              body := RagAnswer (ragResponse clock b sources (aiResponseOf choices)) |}
  end.

Definition searchHandler (s : Services) (reqBody : option RequestBody)
  : Handler Response :=
  match reqBody with
  | None =>
      throw "Cannot destructure property 'query' of 'req.body' as it is undefined."
  | Some b =>
      replyIf (negb (truthy (query b)) || negb (truthy (bucketId b))) 400
              (Failure "Query and bucketId are required") ;;;
      client <- getGroundXClient s ;;
      let collection := parseInt (bucketId b) in
      let n := withDefault (limit b) (Num (Finite 10)) in
      searchResponse <- await (ContentSearch collection (query b) n)
                              (searchContent client collection (query b) n) ;;
      match resultsOf searchResponse with
      | None => pure {| status := 200; body := SearchResults [] 0 |}
      | Some rs =>
          let hits := map toHit rs in
          pure {| status := 200; body := SearchResults hits (length hits) |}
      end
  end.

End GroundX.

(** ** Vocabulary of the specification *)

Module Spec.
Import JS.

(** [p] occurs in [s]. *)
Definition occursIn (p s : string) : Prop :=
  exists pre post, s = pre +:+ p +:+ post.

(** The names of the administrative domains. *)
Definition administrativeDomains : list string :=
  ["qig"; "qualityimprovementgroup"].

(** The test of the code: [@d.], the marker of the domain named [d],
    occurs in the email. *)
Definition belongsTo (email d : string) : Prop :=
  occursIn ("@" +:+ d +:+ ".") email.

(** The domain part of an address: what follows its last [@]. *)
Fixpoint domainOf (email : string) : option string :=
  match email with
  | EmptyString => None
  | String c rest =>
      match domainOf rest with
      | Some d => Some d
      | None => if Ascii.eqb c "@" then Some rest else None
      end
  end.

(** A top-level label: not empty, and no dot in it. *)
Definition topLevel (label : string) : bool :=
  truthyString label && negb (includes label ".").

(** Belonging to an administrative domain in the words of the
    specification: the domain part of the address is an administrative
    name, a dot and a top-level label, as [qig.example] or [qig.com] are
    for the name [qig].  A domain of somebody else that merely starts with
    the name, as [qig.evil.example] does, is none. *)
Definition administrativeDomain (domain : string) : Prop :=
  exists d tld,
    In d administrativeDomains /\ domain = d +:+ "." +:+ tld
    /\ topLevel tld = true.

Definition inAdministrativeDomain (email : string) : Prop :=
  exists domain, domainOf email = Some domain /\ administrativeDomain domain.

(** [p] occurs in [s] when letter case is ignored. *)
Definition occursInIgnoringCase (p s : string) : Prop :=
  occursIn (toLowerCase p) (toLowerCase s).

Definition twentyFourHours : Z := 86400000.

(** A value that is a number other than [NaN]; the infinities count. *)
Definition numberOtherThanNaN (v : Value) : Prop :=
  exists n, v = Num n /\ n <> NaN.

(** Score extraction in the words of the specification: the first
    candidate field that is a finite number, else [0] and ["default"]. *)
Fixpoint firstFinite (fields : list (string * Value))
  : option GroundX.BestScore :=
  match fields with
  | [] => None
  | (src, Num (Finite q)) :: _ =>
      Some {| GroundX.bestScore := Finite q; GroundX.source := src |}
  | _ :: rest => firstFinite rest
  end.

Definition extractFirstFinite (result : GroundX.SearchResultItem)
  : GroundX.BestScore :=
  default {| GroundX.bestScore := Finite 0; GroundX.source := "default" |}
          (firstFinite (GroundX.scoreFields result)).

(** The patterns of an organization in the words of the specification:
    its entry of the table, or its own display name alone. *)
Definition patternsFor (organizationName : string) : list string :=
  default [organizationName] (GroundX.orgToBucketMapping !! organizationName).

End Spec.

(** ** Sample data *)

Module Examples.
Import JS Auth GroundX.

Definition noReply {A} : QueryResult A := {| data := None; error := true |}.

Definition answer {A} (a : A) : QueryResult A := {| data := Some a; error := false |}.

(** An identity provider with three users: a QIG administrator, a member
    of Austin Industries, and a newcomer with no client configuration. *)
Definition supabase : Supabase :=
  {| getUser := fun token =>
       if String.eqb token "admin-token" then
         answer {| user_id := "U1"; user_email := Some "admin@qig.example" |}
       else if String.eqb token "austin-token" then
         answer {| user_id := "U2"; user_email := Some "pat@austin.example" |}
       else if String.eqb token "newcomer-token" then
         answer {| user_id := "U3"; user_email := Some "sam@nowhere.example" |}
       else noReply;
     configsCreatedBy := fun userId =>
       if String.eqb userId "U2" then
         answer [ {| organization_id := Some "org-7";
                     client_name := Some "Austin Industries";
                     client_type := Some "premium" |} ]
       else answer [];
     configOfOrganization := fun orgId =>
       if String.eqb orgId "org-42" then
         answer {| organization_id := Some "org-42";
                   client_name := Some "Spinakr";
                   client_type := Some "default" |}
       else noReply |}.

(** The administrator [U1] after [switch("org-42")] at time 1000. *)
Definition adminRun (now : Z) :=
  authenticateSupabaseUser (Some supabase) now (Some "Bearer admin-token")
    (setOrganizationSession 1000 "U1" "org-42" ∅).

Definition newcomerRun :=
  authenticateSupabaseUser (Some supabase) 1000 (Some "Bearer newcomer-token") ∅.

Definition austinUser : RequestUser :=
  {| ru_id := "U2";
     ru_email := "pat@austin.example";
     ru_organization :=
       Some {| id := Some "org-7"; name := Some "Austin Industries";
               type := Some "premium" |};
     ru_isQIG := false |}.

Definition newcomerUser : RequestUser :=
  {| ru_id := "U3"; ru_email := "sam@nowhere.example";
     ru_organization := None; ru_isQIG := false |}.

Definition adminUser : RequestUser :=
  {| ru_id := "U1"; ru_email := "admin@qig.example";
     ru_organization := Some qigOrganization; ru_isQIG := true |}.

Definition plainResult : SearchResultItem :=
  {| documentId := Some "doc1"; fileName := Some "contract.pdf";
     score := Undefined; relevanceScore := Undefined; rankingScore := Undefined;
     text := Some "Payment terms shall be net 30 days.";
     suggestedText := None; metadata := None; searchData := None;
     highlight := None |}.

(** Primary score 0.2 and [metadata.score] 0.9. *)
Definition twoScores : SearchResultItem :=
  {| documentId := Some "doc1"; fileName := Some "contract.pdf";
     score := Num (Finite (2 # 10)); relevanceScore := Undefined;
     rankingScore := Undefined;
     text := Some "Payment terms shall be net 30 days.";
     suggestedText := None;
     metadata := Some {[ "score" := Num (Finite (9 # 10)) ]};
     searchData := None; highlight := None |}.

(** An infinite primary score (JSON [1e999]) and relevance score 0.5. *)
Definition infiniteScore : SearchResultItem :=
  {| documentId := Some "doc2"; fileName := Some "terms.pdf";
     score := Num PosInfinity; relevanceScore := Num (Finite (1 # 2));
     rankingScore := Undefined; text := None; suggestedText := None;
     metadata := None; searchData := None; highlight := None |}.

(** A regular user whose organization is named like a property every
    object inherits. *)
Definition constructorUser : RequestUser :=
  {| ru_id := "U4"; ru_email := "lee@builders.example";
     ru_organization :=
       Some {| id := Some "org-9"; name := Some "constructor";
               type := Some "default" |};
     ru_isQIG := false |}.

Definition bucketNamed (n : string) : Bucket :=
  {| b_bucket_id := Undefined; b_bucketId := Undefined; b_id := Undefined;
     b_bId := Undefined; b_name := Some n; b_title := None;
     b_bucketName := None; b_documentCount := Undefined;
     b_count := Undefined; b_documents := Undefined |}.

(** Services whose bucket listing, content search and completion answer
    as given. *)
Definition services (listing : Answer (option BucketsResponse))
    (found : Answer (option SearchResponse))
    (completion : Answer (option (list (option string)))) : Services :=
  {| groundx := Some {| bucketsList := listing;
                        searchContent := fun _ _ _ => found |};
     openai := Some {| createCompletion := fun _ => completion |} |}.

Definition listing (buckets : list Bucket) : Services :=
  services (Resolved (Some {| responseBuckets := Some buckets |}))
           (Rejected "not used") (Rejected "not used").

Definition searching (found : option SearchResponse) : Services :=
  services (Rejected "not used") (Resolved found)
           (Resolved (Some [Some "The contract is net 30."])).

Definition body (q bucket : Value) : RequestBody :=
  {| query := q; bucketId := bucket; messages := NoMessages;
     limit := Undefined; includeThoughts := Undefined;
     temperature := Undefined; conversationContext := Undefined |}.

Definition clock : Clock :=
  {| startTime := 0; searchStartTime := 1; searchEndTime := 40;
     llmStartTime := 41; llmEndTime := 900 |}.

Definition emptyResults : option SearchResponse :=
  Some {| search := Some {| results := Some [] |} |}.

(** [{ search: null }] *)
Definition noResults : option SearchResponse := Some {| search := None |}.


Definition unparsableRun : Response * list Call :=
  runHandler (ragHandler (searching emptyResults) clock (Some austinUser)
                         (Some (body (Str "net 30") (Str "abc")))).

Definition switched : gmap string OrgSession :=
  setOrganizationSession 1000 "U1" "org-42" ∅.

Definition threeBuckets : list Bucket :=
  [ bucketNamed "Austin Industries Contracts"; bucketNamed "QIG Internal";
    bucketNamed "Spinakr Ads" ].

End Examples.

(** ** The organization routes *)

Module Organizations.
Import JS Auth.

(** The two queries the routes make on [client_configurations]. *)
Record Directory : Type := {
  (** [.eq('is_active', true) .order('client_name')] *)
  activeOrganizations : QueryResult (list ClientConfig);
  (** [.eq('organization_id', id) .eq('is_active', true) .single()] *)
  findOrganization : string -> QueryResult ClientConfig
}.

(** What the routes read of the request.  [req_body] is [None] when
    [req.body] is undefined, and holds [body.organizationId] otherwise. *)
Record Request : Type := {
  req_user : option RequestUser;
  req_context : option OrganizationContext;
  req_body : option (option string)
}.

(** [currentContext] in an answer. *)
Record ContextView : Type := {
  view_userOrganization : string * string;
  view_activeOrganization : string * string;
  view_isQIGAdmin : bool
}.

(** The answers of the routes (the [message] texts are left out). *)
Inductive Answer : Type :=
| Failed (status : nat) (error : string)
| Listed (organizations : list OrgInfo) (currentContext : ContextView)
| Switched (activeOrganization : OrgInfo) (userOrganization : string * string)
| ResetTo (activeOrganization : string * string)
| Current (currentContext : ContextView) (isActingAsOtherOrg : bool).


Definition viewOf (ctx : OrganizationContext) : ContextView :=
  {| view_userOrganization := (userOrganizationId ctx, userOrganizationName ctx);
     view_activeOrganization := (activeOrganizationId ctx, activeOrganizationName ctx);
     view_isQIGAdmin := isQIGAdmin ctx |}.

Definition internalError : Answer := Failed 500 "Internal server error".

(** GET /organizations.  [directory] is [None] when the Supabase
    environment is not set. *)
Definition listHandler (directory : option Directory) (req : Request) : Answer :=
  match req_context req with
  | Some ctx =>
      if negb (isQIGAdmin ctx)
      then Failed 403 "Only QIG administrators can list organizations"
      else
        match directory with
        | None => internalError
        | Some d =>
            let r := activeOrganizations d in
            if error r then Failed 500 "Failed to fetch organizations"
            else Listed (map orgOfConfig (default [] (data r))) (viewOf ctx)
        end
  | None => Failed 403 "Only QIG administrators can list organizations"
  end.

(** POST /organizations/switch *)
Definition switchHandler (directory : option Directory) (now : Z)
    (req : Request) (sessions : gmap string OrgSession)
  : Answer * gmap string OrgSession :=
  match req_body req with
  | None => (internalError, sessions)
  | Some organizationId =>
      match req_context req with
      | Some ctx =>
          if negb (isQIGAdmin ctx) then
            (Failed 403 "Only QIG administrators can switch organizations", sessions)
          else if negb (truthyString (orEmpty organizationId)) then
            (Failed 400 "Organization ID is required", sessions)
          else
            match directory with
            | None => (internalError, sessions)
            | Some d =>
                let r := findOrganization d (orEmpty organizationId) in
                match error r, data r with
                | false, Some targetOrg =>
                    match req_user req with
                    | Some user =>
                        (Switched (orgOfConfig targetOrg)
                                  (userOrganizationId ctx, userOrganizationName ctx),
                         setOrganizationSession now (ru_id user)
                                                (orEmpty organizationId) sessions)
                    | None => (internalError, sessions)
                    end
                | _, _ => (Failed 404 "Organization not found", sessions)
                end
            end
      | None =>
          (Failed 403 "Only QIG administrators can switch organizations", sessions)
      end
  end.

(** POST /organizations/reset *)
Definition resetHandler (req : Request) (sessions : gmap string OrgSession)
  : Answer * gmap string OrgSession :=
  match req_context req with
  | Some ctx =>
      if negb (isQIGAdmin ctx) then
        (Failed 403 "Only QIG administrators can reset organizations", sessions)
      else
        match req_user req with
        | Some user =>
            (ResetTo (userOrganizationId ctx, userOrganizationName ctx),
             clearOrganizationSession (ru_id user) sessions)
        | None => (internalError, sessions)
        end
  | None => (Failed 403 "Only QIG administrators can reset organizations", sessions)
  end.

(** GET /organizations/current *)
Definition currentHandler (req : Request) : Answer :=
  match req_context req with
  | None => Failed 401 "Authentication required"
  | Some ctx =>
      Current (viewOf ctx)
              (negb (String.eqb (activeOrganizationId ctx) (userOrganizationId ctx)))
  end.

(** The request as the authentication middleware hands it on. *)
Definition requestOf (o : Outcome) (organizationId : option (option string))
  : Request :=
  match o with
  | Next user ctx =>
      {| req_user := Some user; req_context := Some ctx; req_body := organizationId |}
  | Respond _ _ =>
      {| req_user := None; req_context := None; req_body := organizationId |}
  end.

End Organizations.

(** ** The client configuration service *)

Module ConfigService.
Import JS.

Record BackendConfig : Type := {
  api_url : option string
}.

Record AzureConfig : Type := {
  tenant_id : option string;
  client_id : option string;
  client_secret : option string
}.

Record Features : Type := {
  hands_free_chat : option bool;
  document_analysis : option bool;
  contract_search : option bool;
  custom_branding : option bool;
  advanced_analytics : option bool
}.

Record Limits : Type := {
  requests_per_minute : option N;
  requests_per_day : option N;
  max_file_size_mb : option N;
  max_concurrent_sessions : option N
}.

Inductive ClientType : Type := TDefault | TPremium | TEnterprise | TCustom.

(** A configuration row, with the rows of [client_secrets] joined to it
    as pairs of [secret_name] and [encrypted_value]. *)
Record ClientConfiguration : Type := {
  organization_id : option string;
  client_name : option string;
  client_type : ClientType;
  backend_config : option BackendConfig;
  azure_config : option AzureConfig;
  features : Features;
  limits : Limits;
  created_by : option string;
  client_secrets : option (list (string * string))
}.

(** *** Defaults and creation *)

Definition defaultFeatures : Features :=
  {| hands_free_chat := Some false; document_analysis := Some true;
     contract_search := Some true; custom_branding := Some false;
     advanced_analytics := Some false |}.

Definition fullFeatures : Features :=
  {| hands_free_chat := Some true; document_analysis := Some true;
     contract_search := Some true; custom_branding := Some true;
     advanced_analytics := Some true |}.

Definition defaultLimits : Limits :=
  {| requests_per_minute := Some 60%N; requests_per_day := Some 1000%N;
     max_file_size_mb := Some 10%N; max_concurrent_sessions := Some 5%N |}.

Definition premiumLimits : Limits :=
  {| requests_per_minute := Some 120%N; requests_per_day := Some 5000%N;
     max_file_size_mb := Some 50%N; max_concurrent_sessions := Some 20%N |}.

Definition enterpriseLimits : Limits :=
  {| requests_per_minute := Some 300%N; requests_per_day := Some 25000%N;
     max_file_size_mb := Some 100%N; max_concurrent_sessions := Some 100%N |}.

(** [DEFAULT_CLIENT_CONFIGS[clientType] || DEFAULT_CLIENT_CONFIGS.default] *)
Definition defaultConfig (t : ClientType) : Features * Limits :=
  match t with
  | TDefault | TCustom => (defaultFeatures, defaultLimits)
  | TPremium => (fullFeatures, premiumLimits)
  | TEnterprise => (fullFeatures, enterpriseLimits)
  end.

(** An optional property of a custom object: the object does not have
    it, or has it, with the value [undefined] ([None]) or a value. *)
Inductive Property (A : Type) : Type :=
| Absent
| Present (v : option A).
Arguments Absent {A}.
Arguments Present {A} _.

(** A field of [{ ...a, ...b }]: that of [b] when [b] has the property,
    whatever its value, [undefined] included. *)
Definition spread {A} (a : option A) (b : Property A) : option A :=
  match b with
  | Absent => a
  | Present v => v
  end.

(** [customConfig.features] and [customConfig.limits], every property
    optional. *)
Record CustomFeatures : Type := {
  given_hands_free_chat : Property bool;
  given_document_analysis : Property bool;
  given_contract_search : Property bool;
  given_custom_branding : Property bool;
  given_advanced_analytics : Property bool
}.

Record CustomLimits : Type := {
  given_requests_per_minute : Property N;
  given_requests_per_day : Property N;
  given_max_file_size_mb : Property N;
  given_max_concurrent_sessions : Property N
}.

(** [{ ...defaultConfig.features, ...customConfig?.features }] *)
Definition spreadFeatures (a : Features) (b : option CustomFeatures) : Features :=
  match b with
  | None => a
  | Some f =>
      {| hands_free_chat := spread (hands_free_chat a) (given_hands_free_chat f);
         document_analysis :=
           spread (document_analysis a) (given_document_analysis f);
         contract_search := spread (contract_search a) (given_contract_search f);
         custom_branding := spread (custom_branding a) (given_custom_branding f);
         advanced_analytics :=
           spread (advanced_analytics a) (given_advanced_analytics f) |}
  end.

(** [{ ...defaultConfig.limits, ...customConfig?.limits }] *)
Definition spreadLimits (a : Limits) (b : option CustomLimits) : Limits :=
  match b with
  | None => a
  | Some l =>
      {| requests_per_minute :=
           spread (requests_per_minute a) (given_requests_per_minute l);
         requests_per_day := spread (requests_per_day a) (given_requests_per_day l);
         max_file_size_mb := spread (max_file_size_mb a) (given_max_file_size_mb l);
         max_concurrent_sessions :=
           spread (max_concurrent_sessions a) (given_max_concurrent_sessions l) |}
  end.

(** The parts of [customConfig] that [createClientConfig] reads. *)
Record CustomConfig : Type := {
  custom_backend_config : option BackendConfig;
  custom_azure_config : option AzureConfig;
  custom_features : option CustomFeatures;
  custom_limits : option CustomLimits
}.

(** [process.env.DEFAULT_BACKEND_URL || 'http://localhost:3001'] *)
Definition backendUrl (env : option string) : string :=
  match env with
  | Some (String c r) => String c r
  | _ => "http://localhost:3001"
  end.

(** The row [createClientConfig] inserts. *)
Definition newConfig (env : option string) (organizationId clientName : string)
    (clientType : ClientType) (customConfig : option CustomConfig)
  : ClientConfiguration :=
  let '(dFeatures, dLimits) := defaultConfig clientType in
  let custom {A} (f : CustomConfig -> option A) : option A :=
    match customConfig with Some c => f c | None => None end in
  {| organization_id := Some organizationId;
     client_name := Some clientName;
     client_type := clientType;
     backend_config :=
       Some (default {| api_url := Some (backendUrl env) |}
                     (custom custom_backend_config));
     azure_config :=
       Some (default {| tenant_id := Some ""; client_id := Some "";
                        client_secret := None |}
                     (custom custom_azure_config));
     features := spreadFeatures dFeatures (custom custom_features);
     limits := spreadLimits dLimits (custom custom_limits);
     created_by := Some organizationId;
     client_secrets := None |}.

(** *** Validation *)

Definition missing (field : option string) : bool :=
  negb (truthyString (orEmpty field)).

Definition apiUrlOf (c : ClientConfiguration) : option string :=
  match backend_config c with Some b => api_url b | None => None end.

Definition tenantIdOf (c : ClientConfiguration) : option string :=
  match azure_config c with Some a => tenant_id a | None => None end.

Definition clientIdOf (c : ClientConfiguration) : option string :=
  match azure_config c with Some a => client_id a | None => None end.

(** [if (!field) errors.push(message)] *)
Definition pushIf (cond : bool) (message : string) (errors : list string)
  : list string :=
  if cond then (errors ++ [message])%list else errors.

(** [validateConfig]: [valid] and [errors]. *)
Definition validateConfig (config : ClientConfiguration) : bool * list string :=
  let errors :=
    pushIf (missing (clientIdOf config)) "Azure client ID is required"
      (pushIf (missing (tenantIdOf config)) "Azure tenant ID is required"
        (pushIf (missing (apiUrlOf config)) "Backend API URL is required"
          (pushIf (missing (client_name config)) "Client name is required"
            (pushIf (missing (organization_id config))
                    "Organization ID is required" [])))) in
  ((length errors =? 0)%nat, errors).

(** *** The cache *)

Record Cache : Type := {
  configCache : gmap string ClientConfiguration;
  cacheExpiry : gmap string Z
}.

Definition emptyCache : Cache := {| configCache := ∅; cacheExpiry := ∅ |}.

Definition CACHE_TTL : Z := 5 * 60 * 1000.

Definition clearCache (organizationId : string) (c : Cache) : Cache :=
  {| configCache := delete organizationId (configCache c);
     cacheExpiry := delete organizationId (cacheExpiry c) |}.

Definition setCache (now : Z) (organizationId : string)
    (config : ClientConfiguration) (c : Cache) : Cache :=
  {| configCache := <[organizationId := config]> (configCache c);
     cacheExpiry := <[organizationId := (now + CACHE_TTL)%Z]> (cacheExpiry c) |}.

(** [expiry && Date.now() > expiry]: an expiry of zero is falsy. *)
Definition expired (now : Z) (expiry : option Z) : bool :=
  match expiry with
  | Some e => negb (e =? 0)%Z && (e <? now)%Z
  | None => false
  end.

Definition getFromCache (now : Z) (organizationId : string) (c : Cache)
  : option ClientConfiguration * Cache :=
  if expired now (cacheExpiry c !! organizationId)
  then (None, clearCache organizationId c)
  else (configCache c !! organizationId, c).

(** *** Reading and writing configurations *)

(** How a query settles: with a [{ data, error }] pair, or by throwing. *)
Inductive Settled : Type :=
| Answered (r : Auth.QueryResult ClientConfiguration)
| Thrown.

Record Database : Type := {
  (** [.select(..) .eq('organization_id', id) .eq('is_active', true)
      .single()] *)
  selectConfig : string -> Settled;
  (** [.insert([row]) .select() .single()] *)
  insertConfig : ClientConfiguration -> Settled;
  (** [.update(..) .eq('organization_id', id) .select() .single()] *)
  updateConfig : string -> Settled
}.

(** The value the loop of [processConfigWithSecrets] leaves in
    [secrets.client_secret]: the decoding of the last secret of that
    name. *)
Fixpoint decodedClientSecret (decode : string -> string)
    (secrets : list (string * string)) (found : option string) : option string :=
  match secrets with
  | [] => found
  | (secretName, encrypted) :: rest =>
      decodedClientSecret decode rest
        (if String.eqb secretName "client_secret" then Some (decode encrypted)
         else found)
  end.

Definition withClientSecret (a : option AzureConfig) (secret : string)
  : AzureConfig :=
  {| tenant_id := match a with Some x => tenant_id x | None => None end;
     client_id := match a with Some x => client_id x | None => None end;
     client_secret := Some secret |}.

(** [processConfigWithSecrets]; [decode] stands for
    [Buffer.from(_, 'base64').toString()]. *)
Definition processConfigWithSecrets (decode : string -> string)
    (row : ClientConfiguration) : ClientConfiguration :=
  match client_secrets row with
  | Some secrets =>
      match decodedClientSecret decode secrets None with
      | Some (String c r) =>
          {| organization_id := organization_id row;
             client_name := client_name row;
             client_type := client_type row;
             backend_config := backend_config row;
             azure_config := Some (withClientSecret (azure_config row) (String c r));
             features := features row;
             limits := limits row;
             created_by := created_by row;
             client_secrets := client_secrets row |}
      | _ => row
      end
  | None => row
  end.

(** [getClientConfig]: the configuration, the cache afterwards and the
    organization ids looked up in the database.  [now] is the clock when
    the cache is read, [fetchedAt] when the answer is stored. *)
Definition getClientConfig (decode : string -> string) (db : Database)
    (now fetchedAt : Z) (organizationId : string) (c : Cache)
  : option ClientConfiguration * Cache * list string :=
  match getFromCache now organizationId c with
  | (Some cached, c') => (Some cached, c', [])
  | (None, c') =>
      match selectConfig db organizationId with
      | Thrown => (None, c', [organizationId])
      | Answered r =>
          if Auth.error r then (None, c', [organizationId])
          else
            match Auth.data r with
            | Some row =>
                let config := processConfigWithSecrets decode row in
                (Some config, setCache fetchedAt organizationId config c',
                 [organizationId])
            | None => (None, c', [organizationId])
            end
      end
  end.

(** The part [createClientConfig] and [updateClientConfig] share once the
    query has settled: the row and the cache afterwards. *)
Definition afterWrite (organizationId : string) (settled : Settled) (c : Cache)
  : option ClientConfiguration * Cache :=
  match settled with
  | Thrown => (None, c)
  | Answered r =>
      if Auth.error r then (None, c)
      else (Auth.data r, clearCache organizationId c)
  end.

Definition createClientConfig (db : Database) (env : option string)
    (organizationId clientName : string) (clientType : ClientType)
    (customConfig : option CustomConfig) (c : Cache)
  : option ClientConfiguration * Cache :=
  afterWrite organizationId
    (insertConfig db (newConfig env organizationId clientName clientType customConfig))
    c.

Definition updateClientConfig (db : Database) (organizationId : string) (c : Cache)
  : option ClientConfiguration * Cache :=
  afterWrite organizationId (updateConfig db organizationId) c.

End ConfigService.

(** ** More vocabulary *)

Module Vocabulary.

(** Every cached configuration has an expiry time, and a positive one. *)
Definition timed (c : ConfigService.Cache) : Prop :=
  forall k cfg,
    ConfigService.configCache c !! k = Some cfg ->
    exists e, ConfigService.cacheExpiry c !! k = Some e /\ (0 < e)%Z.

(** The fields of a configuration other than [azure_config.client_secret]. *)
Definition sameButSecret (a b : ConfigService.ClientConfiguration) : Prop :=
  ConfigService.organization_id a = ConfigService.organization_id b
  /\ ConfigService.client_name a = ConfigService.client_name b
  /\ ConfigService.client_type a = ConfigService.client_type b
  /\ ConfigService.backend_config a = ConfigService.backend_config b
  /\ ConfigService.tenantIdOf a = ConfigService.tenantIdOf b
  /\ ConfigService.clientIdOf a = ConfigService.clientIdOf b
  /\ ConfigService.features a = ConfigService.features b
  /\ ConfigService.limits a = ConfigService.limits b
  /\ ConfigService.created_by a = ConfigService.created_by b
  /\ ConfigService.client_secrets a = ConfigService.client_secrets b.

(** The five feature flags and the four limits of a row, in the order of
    the source, and the properties a custom configuration gives for
    them (none when it has no such object). *)
Definition flagsOf (f : ConfigService.Features) : list (option bool) :=
  [ ConfigService.hands_free_chat f; ConfigService.document_analysis f;
    ConfigService.contract_search f; ConfigService.custom_branding f;
    ConfigService.advanced_analytics f ].

Definition limitsOf (l : ConfigService.Limits) : list (option N) :=
  [ ConfigService.requests_per_minute l; ConfigService.requests_per_day l;
    ConfigService.max_file_size_mb l; ConfigService.max_concurrent_sessions l ].

Definition givenFlags (customConfig : option ConfigService.CustomConfig)
  : list (ConfigService.Property bool) :=
  match customConfig with
  | Some {| ConfigService.custom_features := Some f |} =>
      [ ConfigService.given_hands_free_chat f;
        ConfigService.given_document_analysis f;
        ConfigService.given_contract_search f;
        ConfigService.given_custom_branding f;
        ConfigService.given_advanced_analytics f ]
  | _ => replicate 5 ConfigService.Absent
  end.

Definition givenLimits (customConfig : option ConfigService.CustomConfig)
  : list (ConfigService.Property N) :=
  match customConfig with
  | Some {| ConfigService.custom_limits := Some l |} =>
      [ ConfigService.given_requests_per_minute l;
        ConfigService.given_requests_per_day l;
        ConfigService.given_max_file_size_mb l;
        ConfigService.given_max_concurrent_sessions l ]
  | _ => replicate 4 ConfigService.Absent
  end.

(** The field [r] of the inserted row against the property [p] the
    custom object gives and the default [d]: the custom one wins when it
    is there, whatever its value; the field is unset exactly when the
    property is there with the value [undefined]. *)
Definition overridden {A} (p : ConfigService.Property A) (d r : option A) : Prop :=
  (forall v, p = ConfigService.Present v -> r = v)
  /\ (p = ConfigService.Absent -> r = d /\ is_Some r)
  /\ (r = None <-> p = ConfigService.Present None).

Fixpoint allOverridden {A} (ps : list (ConfigService.Property A))
    (ds rs : list (option A)) : Prop :=
  match ps, ds, rs with
  | [], [], [] => True
  | p :: ps', d :: ds', r :: rs' => overridden p d r /\ allOverridden ps' ds' rs'
  | _, _, _ => False
  end.

(** The secret of a configuration, if it has one. *)
Definition secretOf (c : ConfigService.ClientConfiguration) : option string :=
  match ConfigService.azure_config c with
  | Some a => ConfigService.client_secret a
  | None => None
  end.

End Vocabulary.

(** ** More sample data *)

Module Samples.
Import JS Auth.

(** The directory the organization routes see: the same rows as
    [Examples.supabase]. *)
Definition directory : Organizations.Directory :=
  {| Organizations.activeOrganizations :=
       Examples.answer
         [ {| organization_id := Some "org-7";
              client_name := Some "Austin Industries";
              client_type := Some "premium" |};
           {| organization_id := Some "org-42";
              client_name := Some "Spinakr";
              client_type := Some "default" |} ];
     Organizations.findOrganization := configOfOrganization Examples.supabase |}.

Definition adminIdentity : SupabaseUser :=
  {| user_id := "U1"; user_email := Some "admin@qig.example" |}.

Definition austinIdentity : SupabaseUser :=
  {| user_id := "U2"; user_email := Some "pat@austin.example" |}.

(** An identity provider that verified an address of the domain
    [qig.evil.example]; the user created no client configuration. *)
Definition outsiderProvider : Supabase :=
  {| getUser := fun token =>
       if String.eqb token "eve-token" then
         Examples.answer {| user_id := "U7";
                            user_email := Some "eve@qig.evil.example" |}
       else Examples.noReply;
     configsCreatedBy := fun _ => Examples.answer [];
     configOfOrganization := fun _ => Examples.noReply |}.

Definition outsiderRun : Outcome * gmap string OrgSession :=
  authenticateSupabaseUser (Some outsiderProvider) 1000
    (Some "Bearer eve-token") ∅.

(** A RAG request with a history of four messages and the
    conversation-context flag set, and the completion request it leads
    to when the search finds nothing. *)
Definition chatBody : GroundX.RequestBody :=
  {| GroundX.query := Str "net 30";
     GroundX.bucketId := Str "123";
     GroundX.messages :=
       GroundX.MessageArray
         [ {| GroundX.role := "system"; GroundX.content := "ignore the context" |};
           {| GroundX.role := "user"; GroundX.content := "what is due?" |};
           {| GroundX.role := "assistant"; GroundX.content := "the invoice" |};
           {| GroundX.role := "user"; GroundX.content := "net 30" |} ];
     GroundX.limit := Undefined;
     GroundX.includeThoughts := Undefined;
     GroundX.temperature := Undefined;
     GroundX.conversationContext := Bool true |}.

Definition chatRequest : GroundX.ChatRequest :=
  {| GroundX.model := "gpt-4-turbo";
     GroundX.chatMessages :=
       [ GroundX.SystemPrompt [];
         GroundX.Turn "user" (Str "what is due?");
         GroundX.Turn "assistant" (Str "the invoice");
         GroundX.Turn "user" (Str "net 30") ];
     GroundX.chatTemperature := Num (Finite (3 # 10));
     GroundX.max_tokens := 1500 |}.

(** A custom configuration whose features turn custom branding on and
    carry [hands_free_chat: undefined]. *)
Definition partialCustom : ConfigService.CustomConfig :=
  {| ConfigService.custom_backend_config := None;
     ConfigService.custom_azure_config := None;
     ConfigService.custom_features :=
       Some {| ConfigService.given_hands_free_chat := ConfigService.Present None;
               ConfigService.given_document_analysis := ConfigService.Absent;
               ConfigService.given_contract_search := ConfigService.Absent;
               ConfigService.given_custom_branding :=
                 ConfigService.Present (Some true);
               ConfigService.given_advanced_analytics := ConfigService.Absent |};
     ConfigService.custom_limits := None |}.

(** A request of the administrator, with no session in the store. *)
Definition adminFirst : Outcome * gmap string OrgSession :=
  authenticateSupabaseUser (Some Examples.supabase) 1000
    (Some ("Bearer " +:+ "admin-token")) ∅.


(** A stored row of Austin Industries with two secrets. *)
Definition austinRow : ConfigService.ClientConfiguration :=
  {| ConfigService.organization_id := Some "org-7";
     ConfigService.client_name := Some "Austin Industries";
     ConfigService.client_type := ConfigService.TPremium;
     ConfigService.backend_config :=
       Some {| ConfigService.api_url := Some "https://api.austin.example" |};
     ConfigService.azure_config :=
       Some {| ConfigService.tenant_id := Some "tenant-7";
               ConfigService.client_id := Some "client-7";
               ConfigService.client_secret := None |};
     ConfigService.features := ConfigService.fullFeatures;
     ConfigService.limits := ConfigService.premiumLimits;
     ConfigService.created_by := Some "U2";
     ConfigService.client_secrets :=
       Some [("client_secret", "b2xk"); ("api_key", "a2V5");
             ("client_secret", "bmV3")] |}.

(** A stand-in for the base64 decoder: it knows the three texts above. *)
Definition decode (encoded : string) : string :=
  if String.eqb encoded "b2xk" then "old"
  else if String.eqb encoded "bmV3" then "new"
  else if String.eqb encoded "a2V5" then "key"
  else "".

Definition database : ConfigService.Database :=
  {| ConfigService.selectConfig := fun organizationId =>
       if String.eqb organizationId "org-7"
       then ConfigService.Answered (Examples.answer austinRow)
       else ConfigService.Answered Examples.noReply;
     ConfigService.insertConfig := fun row =>
       ConfigService.Answered (Examples.answer row);
     ConfigService.updateConfig := fun _ => ConfigService.Thrown |}.

End Samples.

Import JS Auth GroundX Spec.

(** ** Strings *)

Section Strings.

Lemma startsWith_app (p post : string) : startsWith (p +:+ post) p = true.
Proof.
  induction p as [|c p IH]; simpl; [reflexivity|].
  rewrite Ascii.eqb_refl. exact IH.
Qed.

Lemma startsWith_inv (p s : string) :
  startsWith s p = true -> exists post, s = p +:+ post.
Proof.
  revert s. induction p as [|c p IH]; intros s H; simpl in *.
  - exists s. reflexivity.
  - destruct s as [|d s]; [discriminate|].
    apply andb_prop in H as [Hc Hs].
    apply Ascii.eqb_eq in Hc. subst d.
    destruct (IH s Hs) as [post ->].
    exists post. reflexivity.
Qed.

Lemma startsWith_includes (s p : string) :
  startsWith s p = true -> includes s p = true.
Proof. intros H. destruct s; simpl; rewrite H; reflexivity. Qed.

Lemma includes_occurs (s p : string) :
  includes s p = true <-> occursIn p s.
Proof.
  split.
  - induction s as [|c s IH]; simpl; intros H.
    + rewrite orb_false_r in H.
      apply startsWith_inv in H as [post ->]. exists "", post. reflexivity.
    + apply orb_prop in H as [H|H].
      * apply startsWith_inv in H as [post ->]. exists "", post. reflexivity.
      * destruct (IH H) as (pre & post & ->).
        exists (String c pre), post. reflexivity.
  - intros (pre & post & ->).
    induction pre as [|c pre IH]; simpl.
    + apply startsWith_includes. exact (startsWith_app p post).
    + rewrite IH. apply orb_true_r.
Qed.

Lemma includes_empty (s : string) : includes s "" = true.
Proof. destruct s; reflexivity. Qed.

End Strings.

(** ** The authentication middleware *)

Section Middleware.

Lemma isQIG_belongs (email : option string) :
  isQIG email = true <->
  exists e d, email = Some e /\ In d administrativeDomains /\ belongsTo e d.
Proof.
  unfold isQIG, belongsTo. split.
  - destruct email as [e|]; [|discriminate].
    intros H. apply andb_prop in H as [_ H].
    apply orb_prop in H as [H|H]; apply includes_occurs in H.
    + exists e, "qig". simpl. auto.
    + exists e, "qualityimprovementgroup". simpl. auto.
  - intros (e & d & -> & Hd & Hocc).
    assert (He : truthyString e = true).
    { destruct Hocc as (pre & post & ->). destruct pre; reflexivity. }
    rewrite He. simpl in Hd.
    destruct Hd as [<-|[<-|[]]]; apply includes_occurs in Hocc;
      cbv beta iota delta [String.append] in Hocc; rewrite Hocc;
      simpl; auto using orb_true_r.
Qed.

(** What a request that passes the middleware went through. *)
Lemma authenticate_Next supabase now authorization sessions user ctx sessions' :
  authenticateSupabaseUser supabase now authorization sessions
    = (Next user ctx, sessions') ->
  exists sb authHeader identity,
    supabase = Some sb /\ authorization = Some authHeader /\
    getUser sb (substringFrom 7 authHeader)
      = {| data := Some identity; error := false |} /\
    activeOrganization sb now identity (userOrganizationInfo sb identity) sessions
      = (ru_organization user, sessions') /\
    user = {| ru_id := user_id identity;
              ru_email := orEmpty (user_email identity);
              ru_organization := ru_organization user;
              ru_isQIG := isQIG (user_email identity) |} /\
    ctx = organizationContext (isQIG (user_email identity))
            (userOrganizationInfo sb identity) (ru_organization user).
Proof.
  unfold authenticateSupabaseUser. intros H.
  destruct authorization as [authHeader|]; [|discriminate].
  destruct (negb _); [discriminate|].
  destruct supabase as [sb|]; [|discriminate].
  destruct (getUser sb (substringFrom 7 authHeader)) as [d e] eqn:Hu.
  simpl in H. destruct e; [discriminate|]. destruct d as [identity|]; [|discriminate].
  destruct (activeOrganization _ _ _ _ _) as [active s'] eqn:Ha.
  inversion H; subst; clear H. simpl.
  exists sb, authHeader, identity. repeat split; assumption.
Qed.

Lemma isQIG_orEmpty (email : option string) :
  isQIG email = isQIG (Some (orEmpty email)).
Proof. destruct email; reflexivity. Qed.

End Middleware.

Section AdministrativeDomains.

Lemma domainOf_occurs (email d : string) :
  domainOf email = Some d -> exists pre, email = pre +:+ "@" +:+ d.
Proof.
  induction email as [|c rest IH]; simpl; [discriminate|].
  destruct (domainOf rest) as [d'|].
  - intros [= <-]. destruct (IH eq_refl) as [pre ->].
    exists (String c pre). reflexivity.
  - destruct (Ascii.eqb c "@") eqn:Hc; [|discriminate].
    intros [= <-]. apply Ascii.eqb_eq in Hc. subst c.
    exists "". reflexivity.
Qed.

Lemma append_assoc (a b c : string) : (a +:+ b) +:+ c = a +:+ b +:+ c.
Proof.
  induction a as [|x a IH]; [reflexivity|].
  change (String x ((a +:+ b) +:+ c) = String x (a +:+ b +:+ c)).
  rewrite IH. reflexivity.
Qed.

(** An address in an administrative domain carries the marker of that
    domain. *)
Lemma administrative_address_marked (email : string) :
  inAdministrativeDomain email ->
  exists d, In d administrativeDomains /\ belongsTo email d.
Proof.
  intros (domain & Hdom & d & tld & Hd & -> & _).
  apply domainOf_occurs in Hdom as [pre ->].
  exists d. split; [assumption|]. exists pre, tld.
  rewrite !append_assoc. reflexivity.
Qed.

Lemma evil_domain_not_administrative :
  ~ administrativeDomain "qig.evil.example".
Proof.
  intros (d & tld & Hd & He & Ht). simpl in Hd.
  destruct Hd as [<-|[<-|[]]]; cbv beta iota delta [String.append] in He.
  - injection He as <-. vm_compute in Ht. discriminate.
  - discriminate.
Qed.

End AdministrativeDomains.

(** C1, the claim as stated fails: the identity provider verified the
    address [eve@qig.evil.example], whose domain part is
    [qig.evil.example], a domain under [evil.example] and none of the
    administrative ones; the middleware makes its user an administrator
    all the same, because [@qig.] occurs in the address. *)
Lemma privilege_outside_domain_counterexample :
  exists user ctx sessions',
    Samples.outsiderRun = (Next user ctx, sessions')
    /\ ru_email user = "eve@qig.evil.example"
    /\ domainOf (ru_email user) = Some "qig.evil.example"
    /\ ~ administrativeDomain "qig.evil.example"
    /\ isQIGAdmin ctx = true
    /\ ~ (isQIGAdmin ctx = true <-> inAdministrativeDomain (ru_email user)).
Proof.
  exists {| ru_id := "U7"; ru_email := "eve@qig.evil.example";
            ru_organization := Some qigOrganization; ru_isQIG := true |},
         (organizationContext true (Some qigOrganization) (Some qigOrganization)),
         ∅.
  split; [reflexivity|]. split; [reflexivity|]. split; [reflexivity|].
  split; [exact evil_domain_not_administrative|]. split; [reflexivity|].
  intros [H _]. destruct (H eq_refl) as (domain & Hdom & Hadm).
  vm_compute in Hdom. injection Hdom as <-.
  exact (evil_domain_not_administrative Hadm).
Qed.

(** C1 (amended): for every identity the middleware verifies, the
    administrator flag of the organization context (and of [req.user]) is
    true if and only if [@qig.] or [@qualityimprovementgroup.] occurs in
    the email, as a case-sensitive substring and wherever it stands.  So
    every address whose domain part is an administrative name, a dot and a
    top-level label is privileged; an address that has the marker without
    being in such a domain is privileged too.  The flag is a function of
    the email alone: two requests with the same email get the same flag,
    whatever the services, the clock and the session store. *)
Theorem privilege_iff_marker_occurs :
  forall supabase now authorization sessions user ctx sessions',
    authenticateSupabaseUser supabase now authorization sessions
      = (Next user ctx, sessions') ->
    (isQIGAdmin ctx = true <->
       occursIn "@qig." (ru_email user)
       \/ occursIn "@qualityimprovementgroup." (ru_email user))
    /\ (inAdministrativeDomain (ru_email user) -> isQIGAdmin ctx = true)
    /\ ru_isQIG user = isQIGAdmin ctx
    /\ (forall supabase2 now2 authorization2 sessions2 user2 ctx2 sessions2',
          authenticateSupabaseUser supabase2 now2 authorization2 sessions2
            = (Next user2 ctx2, sessions2') ->
          ru_email user2 = ru_email user ->
          isQIGAdmin ctx2 = isQIGAdmin ctx).
Proof.
  intros supabase now authorization sessions user ctx sessions' H.
  apply authenticate_Next in H
    as (sb & hdr & identity & _ & _ & _ & _ & Hu & ->).
  rewrite Hu. simpl. clear Hu.
  assert (Hflag : forall e,
            isQIG (Some e) = true <->
            exists d, In d administrativeDomains /\ belongsTo e d).
  { intros e. rewrite isQIG_belongs. split.
    - intros (e' & d & [= <-] & Hd & Hb). exists d. split; assumption.
    - intros (d & Hd & Hb). exists e, d. repeat split; assumption. }
  split; [|split; [|split]].
  - rewrite isQIG_orEmpty, Hflag. unfold belongsTo. simpl. split.
    + intros (d & [<-|[<-|[]]] & Hb); [left | right]; exact Hb.
    + intros [Hb|Hb]; [exists "qig" | exists "qualityimprovementgroup"];
        split; auto.
  - intros Hin. rewrite isQIG_orEmpty. apply Hflag.
    apply administrative_address_marked. exact Hin.
  - reflexivity.
  - intros supabase2 now2 authorization2 sessions2 user2 ctx2 sessions2' H2 He.
    apply authenticate_Next in H2
      as (sb2 & hdr2 & identity2 & _ & _ & _ & _ & Hu2 & ->).
    rewrite Hu2 in He. simpl in *.
    rewrite (isQIG_orEmpty (user_email identity2)), He.
    symmetry. apply isQIG_orEmpty.
Qed.

Lemma privilege_iff_marker_occurs_witness :
  (true = true <->
     occursIn "@qig." "admin@qig.example"
     \/ occursIn "@qualityimprovementgroup." "admin@qig.example")
  /\ (inAdministrativeDomain "admin@qig.example" -> true = true).
Proof.
  pose proof (privilege_iff_marker_occurs
                (Some Examples.supabase) 1000 (Some "Bearer admin-token") ∅
                Examples.adminUser
                (organizationContext true (Some qigOrganization)
                                     (Some qigOrganization))
                ∅ eq_refl) as H.
  exact (conj (proj1 H) (proj1 (proj2 H))).
Defined.

Section OrganizationContext.

Lemma strictEqualsId_true (orgId : string) (i : option string) :
  strictEqualsId orgId i = true <-> i = Some orgId.
Proof.
  destruct i as [s|]; simpl.
  - rewrite String.eqb_eq. split; [intros ->; reflexivity | intros [= ->]; reflexivity].
  - split; discriminate.
Qed.

Lemma canAccess_organizationContext qig home active orgId :
  canAccessOrganization (organizationContext qig home active) orgId = true <->
  qig = true \/ idOf home = Some orgId.
Proof.
  simpl. rewrite orb_true_iff, strictEqualsId_true. reflexivity.
Qed.

(** A user who is not a QIG administrator acts as the home organization,
    and the session store is neither read nor changed. *)
Lemma activeOrganization_regular sb now identity home sessions :
  isQIG (user_email identity) = false ->
  activeOrganization sb now identity home sessions = (home, sessions).
Proof. unfold activeOrganization. intros ->. reflexivity. Qed.

Lemma userOrganizationInfo_QIG sb identity :
  isQIG (user_email identity) = true ->
  userOrganizationInfo sb identity = Some qigOrganization.
Proof. unfold userOrganizationInfo. intros ->. reflexivity. Qed.

End OrganizationContext.

(** C2, the claim as stated fails: the newcomer has no client
    configuration, so the home organization id of the context is the empty
    string, and still the context denies access to the organization id
    [""]. *)
Lemma canAccess_empty_home_counterexample :
  exists user ctx sessions',
    Examples.newcomerRun = (Next user ctx, sessions')
    /\ userOrganizationId ctx = ""
    /\ ~ (canAccessOrganization ctx "" = true <->
          isQIGAdmin ctx = true \/ "" = userOrganizationId ctx).
Proof.
  exists Examples.newcomerUser, (organizationContext false None None), ∅.
  split; [reflexivity|]. split; [reflexivity|].
  simpl. intros [_ H]. specialize (H (or_intror eq_refl)). discriminate.
Qed.

(** C2 (amended): [canAccess(orgId)] returns true if and only if the
    context is privileged or an organization assignment was found whose
    organization id is [orgId].  So when the home organization id is not
    empty, it returns true exactly when the context is privileged or
    [orgId] equals the home organization id; and when no assignment was
    found it returns false for every [orgId], the empty string included. *)
Theorem canAccess_iff_privileged_or_assigned :
  forall sb now authHeader sessions identity user ctx sessions',
    authenticateSupabaseUser (Some sb) now (Some authHeader) sessions
      = (Next user ctx, sessions') ->
    getUser sb (substringFrom 7 authHeader)
      = {| data := Some identity; error := false |} ->
    let home := userOrganizationInfo sb identity in
    userOrganizationId ctx = orEmpty (idOf home)
    /\ (forall orgId,
          canAccessOrganization ctx orgId = true <->
          isQIGAdmin ctx = true \/ idOf home = Some orgId)
    /\ (userOrganizationId ctx <> "" ->
        forall orgId,
          canAccessOrganization ctx orgId = true <->
          isQIGAdmin ctx = true \/ orgId = userOrganizationId ctx)
    /\ (home = None -> forall orgId, canAccessOrganization ctx orgId = false).
Proof.
  intros sb now authHeader sessions identity user ctx sessions' H Hid home.
  apply authenticate_Next in H
    as (sb' & hdr & identity' & [= <-] & [= <-] & Hid' & _ & _ & ->).
  rewrite Hid in Hid'. injection Hid' as <-. fold home.
  split; [reflexivity|]. split; [|split].
  - intros orgId. apply canAccess_organizationContext.
  - intros Hne orgId. rewrite canAccess_organizationContext. simpl in *.
    destruct (idOf home) as [i|]; simpl in *; [|congruence].
    split; (intros [?|?]; [left; assumption | right; congruence]).
  - intros Hnone orgId.
    destruct (isQIG (user_email identity)) eqn:Hq.
    + apply (userOrganizationInfo_QIG sb) in Hq. fold home in Hq. congruence.
    + simpl. rewrite Hnone. reflexivity.
Qed.

Lemma canAccess_iff_privileged_or_assigned_witness :
  canAccessOrganization
    (organizationContext false (Auth.ru_organization Examples.austinUser)
                         (Auth.ru_organization Examples.austinUser)) "org-7" = true <->
  false = true \/ Some "org-7" = Some "org-7".
Proof.
  exact (proj1 (proj2 (canAccess_iff_privileged_or_assigned
           Examples.supabase 1000 "Bearer austin-token"
           (setOrganizationSession 500 "U2" "org-42" ∅)
           {| user_id := "U2"; user_email := Some "pat@austin.example" |}
           Examples.austinUser
           (organizationContext false (Auth.ru_organization Examples.austinUser)
                                (Auth.ru_organization Examples.austinUser))
           (setOrganizationSession 500 "U2" "org-42" ∅)
           eq_refl eq_refl)) "org-7").
Defined.

(** C9: for every identity that is not privileged, the organization
    context has the active organization equal to the home organization, in
    id and in name.  The session store plays no part: it is left as it was,
    and the same request gives the same user and context at any time and
    with any store, so also when the store holds no session. *)
Theorem regular_user_acts_as_home :
  forall supabase now authorization sessions user ctx sessions',
    authenticateSupabaseUser supabase now authorization sessions
      = (Next user ctx, sessions') ->
    isQIGAdmin ctx = false ->
    activeOrganizationId ctx = userOrganizationId ctx
    /\ activeOrganizationName ctx = userOrganizationName ctx
    /\ sessions' = sessions
    /\ (forall now2 sessions2,
          authenticateSupabaseUser supabase now2 authorization sessions2
            = (Next user ctx, sessions2)).
Proof.
  intros supabase now authorization sessions user ctx sessions' H Hq.
  pose proof H as Hrun.
  apply authenticate_Next in H
    as (sb & hdr & identity & -> & -> & Hid & Hact & Hu & ->).
  simpl in Hq.
  rewrite (activeOrganization_regular _ _ _ _ _ Hq) in Hact.
  injection Hact as Hact <-. rewrite <- Hact.
  repeat split.
  intros now2 sessions2. rewrite Hu, <- Hact.
  revert Hrun. unfold authenticateSupabaseUser.
  destruct (negb _); [discriminate|]. rewrite Hid. simpl.
  rewrite !(activeOrganization_regular _ _ _ _ _ Hq). reflexivity.
Qed.

Lemma regular_user_acts_as_home_witness :
  "org-7" = "org-7" /\ "Austin Industries" = "Austin Industries".
Proof.
  refine (let H := regular_user_acts_as_home
           (Some Examples.supabase) 1000 (Some "Bearer austin-token")
           (setOrganizationSession 500 "U2" "org-42" ∅)
           Examples.austinUser
           (organizationContext false (Auth.ru_organization Examples.austinUser)
                                (Auth.ru_organization Examples.austinUser))
           (setOrganizationSession 500 "U2" "org-42" ∅)
           eq_refl eq_refl in conj (proj1 H) (proj1 (proj2 H))).
Defined.

(** ** The session store *)

Section SessionStore.

Variable now : Z.
Variable userId : string.
Variable sessions : gmap string OrgSession.

Lemma sessionLifetime_is_24h : sessionLifetime = twentyFourHours.
Proof. reflexivity. Qed.

Lemma getOrganizationSession_none :
  sessions !! userId = None ->
  getOrganizationSession now userId sessions = (None, sessions).
Proof. unfold getOrganizationSession. intros ->. reflexivity. Qed.

Lemma getOrganizationSession_fresh session :
  sessions !! userId = Some session ->
  (now - timestamp session < twentyFourHours)%Z ->
  getOrganizationSession now userId sessions = (Some session, sessions).
Proof.
  unfold getOrganizationSession. intros -> Hage.
  rewrite sessionLifetime_is_24h.
  destruct (Z.ltb_spec (now - timestamp session) twentyFourHours);
    [reflexivity | lia].
Qed.

Lemma getOrganizationSession_expired session :
  sessions !! userId = Some session ->
  (now - timestamp session >= twentyFourHours)%Z ->
  getOrganizationSession now userId sessions = (None, delete userId sessions).
Proof.
  unfold getOrganizationSession. intros -> Hage.
  rewrite sessionLifetime_is_24h.
  destruct (Z.ltb_spec (now - timestamp session) twentyFourHours);
    [lia | reflexivity].
Qed.

(** A switch made at [t0] is read back until 24 hours have passed. *)
Lemma get_after_set t0 organizationId :
  getOrganizationSession now userId
    (setOrganizationSession t0 userId organizationId sessions)
  = if (now - t0 <? twentyFourHours)%Z
    then (Some {| sessionOrganizationId := organizationId; timestamp := t0 |},
          setOrganizationSession t0 userId organizationId sessions)
    else (None, delete userId sessions).
Proof.
  unfold getOrganizationSession, setOrganizationSession.
  rewrite lookup_insert_eq. simpl. rewrite sessionLifetime_is_24h.
  destruct (now - t0 <? twentyFourHours)%Z; [reflexivity|].
  rewrite delete_insert_eq. reflexivity.
Qed.

End SessionStore.

(** C8: for every subject with a stored session, [getOrganizationSession]
    returns nothing and deletes the record when [now - createdAt] is at
    least 24 hours (86400000 ms), the exact boundary included, and returns
    the stored record, with its organization id, and leaves the store alone
    when the record is strictly younger. *)
Theorem getOverride_expires_at_24h :
  forall now userId (sessions : gmap string OrgSession) session,
    sessions !! userId = Some session ->
    ((now - timestamp session >= 86400000)%Z ->
       getOrganizationSession now userId sessions = (None, delete userId sessions)
       /\ delete userId sessions !! userId = None)
    /\ ((now - timestamp session < 86400000)%Z ->
          getOrganizationSession now userId sessions = (Some session, sessions)
          /\ (sessionOrganizationId <$> (getOrganizationSession now userId sessions).1)
             = Some (sessionOrganizationId session))
    /\ ((now - timestamp session = 86400000)%Z ->
          (getOrganizationSession now userId sessions).1 = None).
Proof.
  intros now userId sessions session Hs. split; [|split].
  - intros Hage. split.
    + apply getOrganizationSession_expired with session; assumption.
    + apply lookup_delete_eq.
  - intros Hage.
    rewrite (getOrganizationSession_fresh now userId sessions session Hs Hage).
    split; reflexivity.
  - intros Hage.
    rewrite (getOrganizationSession_expired now userId sessions session Hs);
      [reflexivity | unfold twentyFourHours; lia].
Qed.

Lemma getOverride_expires_at_24h_witness :
  getOrganizationSession 86401000 "U1" Examples.switched
    = (None, delete "U1" Examples.switched)
  /\ getOrganizationSession 86400999 "U1" Examples.switched
    = (Some {| sessionOrganizationId := "org-42"; timestamp := 1000 |},
       Examples.switched).
Proof.
  pose (store := Examples.switched).
  pose (session := {| sessionOrganizationId := "org-42"; timestamp := 1000 |}).
  split.
  - refine (proj1 (proj1 (getOverride_expires_at_24h 86401000 "U1" store session
                            _) _)).
    + reflexivity.
    + simpl. lia.
  - refine (proj1 (proj1 (proj2 (getOverride_expires_at_24h 86400999 "U1" store
                                   session _)) _)).
    + reflexivity.
    + simpl. lia.
Defined.

(** ** Score extraction *)

Section ScoreExtraction.

Lemma usableScore_none (v : Value) : ~ numberOtherThanNaN v -> usableScore v = None.
Proof.
  intros H. destruct v as [| |b|n|s]; try reflexivity.
  destruct n; try reflexivity; exfalso; apply H; eexists; split;
    try reflexivity; discriminate.
Qed.

(** The scan returns the first usable field of any list of fields. *)
Lemma firstUsable_first (before after : list (string * Value)) src n :
  n <> NaN ->
  Forall (fun f => ~ numberOtherThanNaN f.2) before ->
  firstUsable (before ++ (src, Num n) :: after)
    = Some {| bestScore := n; source := src |}.
Proof.
  intros Hn. induction 1 as [|[src' v] before Hv _ IH]; simpl.
  - destruct n; reflexivity || congruence.
  - rewrite (usableScore_none v Hv). exact IH.
Qed.

Lemma firstUsable_none (fields : list (string * Value)) :
  Forall (fun f => ~ numberOtherThanNaN f.2) fields ->
  firstUsable fields = None.
Proof.
  induction 1 as [|[src v] fields Hv _ IH]; simpl; [reflexivity|].
  rewrite (usableScore_none v Hv). exact IH.
Qed.

(** Where no candidate is infinite, the scan is the one the
    specification words. *)
Lemma firstUsable_firstFinite (fields : list (string * Value)) :
  Forall (fun f => f.2 <> Num PosInfinity /\ f.2 <> Num NegInfinity) fields ->
  firstUsable fields = firstFinite fields.
Proof.
  induction 1 as [|[src v] fields [Hp Hm] _ IH]; simpl; [reflexivity|].
  destruct v as [| |b|n|s]; simpl; try exact IH.
  destruct n; simpl in *; congruence.
Qed.

End ScoreExtraction.

(** C10, the claim as stated fails: a record whose primary score is
    infinite and whose relevance score is 0.5 yields the infinite score
    with provenance ["primaryScore"], where the first finite candidate is
    the relevance score. *)
Lemma extractBestScore_infinite_counterexample :
  extractBestScore Examples.infiniteScore
    = {| bestScore := PosInfinity; source := "primaryScore" |}
  /\ isFinite (bestScore (extractBestScore Examples.infiniteScore)) = false
  /\ extractFirstFinite Examples.infiniteScore
    = {| bestScore := Finite (1 # 2); source := "relevanceScore" |}
  /\ extractBestScore Examples.infiniteScore
     <> extractFirstFinite Examples.infiniteScore.
Proof. repeat split. discriminate. Qed.

(** C10 (amended): score extraction scans the candidate fields in the
    fixed order primary score, relevance score, ranking score, nested
    metadata score, nested search-annotation score, and returns the first
    that is a number other than NaN (an infinite value qualifies) together
    with a provenance tag naming that field; if none qualifies it returns
    score 0 with provenance ["default"].  A record with primary score 0.2
    and [metadata.score] 0.9 yields 0.2 with provenance ["primaryScore"]. *)
Theorem extractBestScore_first_number :
  forall result : SearchResultItem,
    map fst (scoreFields result)
      = ["primaryScore"; "relevanceScore"; "rankingScore"; "metadataScore";
         "searchDataScore"]
    /\ map snd (scoreFields result)
      = [score result; relevanceScore result; rankingScore result;
         optionalProperty (metadata result) "score";
         optionalProperty (searchData result) "score"]
    /\ (forall before src n after,
          scoreFields result = (before ++ (src, Num n) :: after)%list ->
          n <> NaN ->
          Forall (fun f => ~ numberOtherThanNaN f.2) before ->
          extractBestScore result = {| bestScore := n; source := src |})
    /\ (Forall (fun f => ~ numberOtherThanNaN f.2) (scoreFields result) ->
        extractBestScore result = {| bestScore := Finite 0; source := "default" |})
    /\ (score result = Num (Finite (2 # 10)) ->
        optionalProperty (metadata result) "score" = Num (Finite (9 # 10)) ->
        extractBestScore result
          = {| bestScore := Finite (2 # 10); source := "primaryScore" |}).
Proof.
  intros result. split; [reflexivity|]. split; [reflexivity|].
  split; [|split].
  - intros before src n after Hfields Hn Hbefore.
    unfold extractBestScore. rewrite Hfields.
    rewrite (firstUsable_first before after src n Hn Hbefore). reflexivity.
  - intros Hall. unfold extractBestScore.
    rewrite (firstUsable_none _ Hall). reflexivity.
  - intros Hs _. unfold extractBestScore, scoreFields. rewrite Hs. reflexivity.
Qed.

Lemma extractBestScore_first_number_witness :
  extractBestScore Examples.twoScores
    = {| bestScore := Finite (2 # 10); source := "primaryScore" |}
  /\ extractBestScore Examples.infiniteScore
    = {| bestScore := PosInfinity; source := "primaryScore" |}
  /\ extractBestScore Examples.plainResult
    = {| bestScore := Finite 0; source := "default" |}.
Proof.
  split; [|split].
  - apply (proj2 (proj2 (proj2 (proj2
             (extractBestScore_first_number Examples.twoScores)))));
      reflexivity.
  - apply (proj1 (proj2 (proj2
             (extractBestScore_first_number Examples.infiniteScore)))
             [] "primaryScore" PosInfinity
             (tail (scoreFields Examples.infiniteScore)));
      [reflexivity | discriminate | constructor].
  - apply (proj1 (proj2 (proj2 (proj2
             (extractBestScore_first_number Examples.plainResult))))).
    repeat constructor; intros (n & H & _); discriminate.
Defined.

(** Where no candidate field is infinite, the extraction is the one the
    specification words. *)
Lemma extractBestScore_finite_agrees (result : SearchResultItem) :
  Forall (fun f => f.2 <> Num PosInfinity /\ f.2 <> Num NegInfinity)
         (scoreFields result) ->
  extractBestScore result = extractFirstFinite result.
Proof.
  intros H. unfold extractBestScore, extractFirstFinite.
  rewrite (firstUsable_firstFinite _ H). reflexivity.
Qed.

(** ** The bucket filter *)

Section BucketFilter.

Lemma keepBucket_occurs (patterns : list string) (b : Bucket) :
  keepBucket patterns b = true <->
  exists p, In p patterns /\ occursInIgnoringCase p (bucketDisplayName b).
Proof.
  unfold keepBucket, matchesPattern, occursInIgnoringCase.
  rewrite existsb_exists.
  split; intros (p & Hin & H); exists p; split; try assumption;
    apply includes_occurs; assumption.
Qed.

Lemma inherited_name_dec (n : string) :
  existsb (String.eqb n) objectPrototypeNames = true <-> In n objectPrototypeNames.
Proof.
  rewrite existsb_exists. split.
  - intros (x & Hin & Heq). apply String.eqb_eq in Heq. subst. assumption.
  - intros Hin. exists n. split; [assumption | apply String.eqb_refl].
Qed.

(** No entry of the table has a name inherited from [Object.prototype]. *)
Lemma table_names_not_inherited (n : string) :
  In n objectPrototypeNames -> orgToBucketMapping !! n = None.
Proof.
  simpl. intros H.
  repeat (destruct H as [<-|H]; [reflexivity|]). destruct H.
Qed.

Lemma bucketPatterns_own (n : string) :
  ~ In n objectPrototypeNames ->
  bucketPatterns n = PatternArray (patternsFor n).
Proof.
  intros Hn. unfold bucketPatterns, patternsFor.
  destruct (orgToBucketMapping !! n); [reflexivity|].
  destruct (existsb _ _) eqn:E; [|reflexivity].
  apply inherited_name_dec in E. contradiction.
Qed.

Lemma bucketPatterns_inherited (n : string) :
  In n objectPrototypeNames -> bucketPatterns n = NotAnArray.
Proof.
  intros Hn. unfold bucketPatterns.
  rewrite (table_names_not_inherited n Hn).
  apply inherited_name_dec in Hn. rewrite Hn. reflexivity.
Qed.

Lemma filterBuckets_QIG organizationName buckets calls :
  filterBuckets true organizationName buckets calls = (Continue buckets, calls).
Proof. reflexivity. Qed.

Lemma filterBuckets_no_organization isQIG organizationName buckets calls :
  organizationName = None \/ organizationName = Some "" ->
  filterBuckets isQIG organizationName buckets calls = (Continue buckets, calls).
Proof.
  intros [-> | ->]; unfold filterBuckets; simpl;
    rewrite andb_false_r; reflexivity.
Qed.

(** The empty pattern occurs in every name: filtering by it keeps all. *)
Lemma filter_empty_pattern (buckets : list Bucket) :
  List.filter (keepBucket (patternsFor "")) buckets = buckets.
Proof.
  assert (Hkeep : forall b, keepBucket (patternsFor "") b = true).
  { intros b. apply keepBucket_occurs. exists "". split; [left; reflexivity|].
    exists "", (toLowerCase (bucketDisplayName b)). reflexivity. }
  induction buckets as [|b buckets IH]; simpl; [reflexivity|].
  rewrite Hkeep, IH. reflexivity.
Qed.

(** The filter of a regular user whose organization name is not a name
    inherited from [Object.prototype]: the buckets whose display name
    contains one of the organization's patterns, letter case ignored, in
    their original order. *)
Lemma filterBuckets_named (n : string) buckets calls :
  ~ In n objectPrototypeNames ->
  exists kept,
    filterBuckets false (Some n) buckets calls = (Continue kept, calls)
    /\ kept = List.filter (keepBucket (patternsFor n)) buckets
    /\ (forall b, In b kept <->
          In b buckets /\
          exists p, In p (patternsFor n)
                    /\ occursInIgnoringCase p (bucketDisplayName b)).
Proof.
  intros Hn. exists (List.filter (keepBucket (patternsFor n)) buckets).
  split; [|split; [reflexivity|]].
  - unfold filterBuckets. simpl.
    destruct n as [|c n].
    + rewrite filter_empty_pattern. reflexivity.
    + simpl. rewrite (bucketPatterns_own _ Hn). reflexivity.
  - intros b. rewrite filter_In, keepBucket_occurs. reflexivity.
Qed.

End BucketFilter.

(** C3, on an input where the code departs from the claim: a regular user
    whose organization is named [constructor], and a listing of the one
    bucket [Constructor Docs].  The organization has no entry in the table,
    so by the claim its own name is the sole pattern and the bucket is
    kept; the handler finds the inherited [constructor] property instead of
    the fallback, fails inside the filter and answers 500. *)
Theorem bucket_filter_inherited_name_throws :
  runHandler (bucketsHandler
                (Examples.listing [Examples.bucketNamed "Constructor Docs"])
                (Some Examples.constructorUser))
    = ({| status := 500; body := Failure "bucketPatterns.some is not a function" |},
       [ListBuckets])
  /\ orgToBucketMapping !! "constructor" = None
  /\ patternsFor "constructor" = ["constructor"]
  /\ occursInIgnoringCase "constructor"
       (bucketDisplayName (Examples.bucketNamed "Constructor Docs")).
Proof.
  split; [reflexivity|]. split; [reflexivity|]. split; [reflexivity|].
  exists "", " docs". reflexivity.
Qed.

(** The bucket filter on every other input: a privileged user gets all the
    buckets unchanged; a regular user whose organization name is not
    inherited from [Object.prototype] gets, in the original order, the
    buckets whose display name contains one of the organization's patterns
    with letter case ignored; and the Austin Industries scenario keeps the
    one bucket. *)
Lemma filterBuckets_spec (n : string) buckets calls :
  filterBuckets true (Some n) buckets calls = (Continue buckets, calls)
  /\ (~ In n objectPrototypeNames ->
      exists kept,
        filterBuckets false (Some n) buckets calls = (Continue kept, calls)
        /\ kept = List.filter (keepBucket (patternsFor n)) buckets
        /\ forall b, In b kept <->
             In b buckets /\
             exists p, In p (patternsFor n)
                       /\ occursInIgnoringCase p (bucketDisplayName b))
  /\ filterBuckets false (Some "Austin Industries") Examples.threeBuckets calls
     = (Continue [Examples.bucketNamed "Austin Industries Contracts"], calls).
Proof.
  split; [reflexivity|]. split; [|reflexivity].
  apply filterBuckets_named.
Qed.

(** C4: a regular authenticated user with no organization (the active
    organization name absent or the empty string) gets every bucket of the
    listing: the filter returns its input, and the answer carries the same
    buckets as the answer to a privileged administrator. *)
Theorem no_organization_lists_every_bucket :
  forall (s : Services) client buckets (user admin : RequestUser),
    groundx s = Some client ->
    bucketsList client = Resolved (Some {| responseBuckets := Some buckets |}) ->
    ru_isQIG user = false ->
    nameOf (ru_organization user) = None \/ nameOf (ru_organization user) = Some "" ->
    ru_isQIG admin = true ->
    filterBuckets false (nameOf (ru_organization user)) buckets [ListBuckets]
      = (Continue buckets, [ListBuckets])
    /\ runHandler (bucketsHandler s (Some user))
       = ({| status := 200;
             body := BucketList (map processBucket buckets)
                                (nameOf (ru_organization user)) |},
          [ListBuckets])
    /\ runHandler (bucketsHandler s (Some admin))
       = ({| status := 200;
             body := BucketList (map processBucket buckets)
                                (nameOf (ru_organization admin)) |},
          [ListBuckets]).
Proof.
  intros s client buckets user admin Hg Hl Hq Hname Hadmin.
  pose proof (filterBuckets_no_organization false _ buckets [ListBuckets] Hname)
    as Hfilter.
  split; [exact Hfilter|].
  unfold runHandler, bucketsHandler, bind, getGroundXClient, await, pure.
  rewrite Hg, Hl. simpl. rewrite Hq, Hadmin, Hfilter.
  split; reflexivity.
Qed.

Lemma no_organization_lists_every_bucket_witness :
  runHandler (bucketsHandler (Examples.listing Examples.threeBuckets)
                             (Some Examples.newcomerUser))
  = ({| status := 200;
        body := BucketList (map processBucket Examples.threeBuckets) None |},
     [ListBuckets]).
Proof.
  refine (proj1 (proj2 (no_organization_lists_every_bucket
            (Examples.listing Examples.threeBuckets) _ Examples.threeBuckets
            Examples.newcomerUser Examples.adminUser eq_refl eq_refl eq_refl _ eq_refl))).
  left. reflexivity.
Defined.

(** ** The search and RAG handlers *)

Section SearchRoutes.

Variable s : Services.
Variable b : RequestBody.

Local Abbreviation collection := (parseInt (bucketId b)).
Local Abbreviation n := (withDefault (limit b) (Num (Finite 10))).
Local Abbreviation theSearch := (ContentSearch collection (query b) n).

(** Both handlers answer 400, with no call made, when [query] or
    [bucketId] is falsy. *)
Lemma search_rejects_falsy :
  truthy (query b) = false \/ truthy (bucketId b) = false ->
  runHandler (searchHandler s (Some b))
    = ({| status := 400; body := Failure "Query and bucketId are required" |}, []).
Proof.
  intros H. unfold runHandler, searchHandler, bind, replyIf.
  destruct H as [-> | ->]; simpl; rewrite ?orb_true_r; reflexivity.
Qed.

Lemma rag_rejects_falsy clock (u : RequestUser) :
  messages b <> NullMessages ->
  truthy (query b) = false \/ truthy (bucketId b) = false ->
  runHandler (ragHandler s clock (Some u) (Some b))
    = ({| status := 400; body := Failure "Query and bucketId are required" |}, []).
Proof.
  intros Hm H. unfold runHandler, ragHandler, bind, replyIf. simpl.
  destruct (messages b); try contradiction;
    destruct H as [-> | ->]; simpl; rewrite ?orb_true_r; reflexivity.
Qed.

(** With [query] and [bucketId] truthy and the client configured, the
    RAG handler runs up to the search call and goes on as the call
    settles. *)
Lemma rag_after_search clock (u : RequestUser) client :
  messages b <> NullMessages ->
  truthy (query b) = true -> truthy (bucketId b) = true ->
  groundx s = Some client ->
  runHandler (ragHandler s clock (Some u) (Some b))
  = match searchContent client collection (query b) n with
    | Rejected m =>
        ({| status := 500; body := Failure (messageOrUnknown m) |}, [theSearch])
    | Resolved response =>
        match resultsOf response with
        | None =>
            ({| status := 500; body := Failure "No search results from GroundX" |},
             [theSearch])
        | Some found =>
            let sources := map toSource found in
            let request := completionRequest sources b (messageList b) in
            match openai s with
            | None =>
                ({| status := 500;
                    body := Failure "OPENAI_API_KEY environment variable is required" |},
                 [theSearch])
            | Some oc =>
                match createCompletion oc request with
                | Rejected m =>
                    ({| status := 500; body := Failure (messageOrUnknown m) |},
                     [theSearch; CreateCompletion request])
                | Resolved None =>
                    ({| status := 500;
                        body := Failure
                          "Cannot read properties of undefined (reading 'choices')" |},
                     [theSearch; CreateCompletion request])
                | Resolved (Some choices) =>
                    ({| status := 200;
                        body := RagAnswer (ragResponse clock b sources
                                             (aiResponseOf choices)) |},
                     [theSearch; CreateCompletion request])
                end
            end
        end
    end.
Proof.
  intros Hm Hq Hb Hg.
  unfold runHandler, ragHandler, bind, replyIf, getGroundXClient,
    getOpenAIClient, await, pure, throw. simpl.
  rewrite Hq, Hb, Hg. simpl.
  destruct (messages b) eqn:Em; try contradiction;
    (destruct (searchContent client collection (query b) n) as [response|m];
     [|reflexivity]);
    (destruct (resultsOf response) as [found|]; [|reflexivity]);
    (destruct (openai s) as [oc|]; [|reflexivity]);
    (destruct (createCompletion oc _) as [[choices|]|m]; reflexivity).
Qed.

End SearchRoutes.

Section SearchAnswers.

Variable s : Services.
Variable b : RequestBody.

Lemma search_after_call client :
  truthy (query b) = true -> truthy (bucketId b) = true ->
  groundx s = Some client ->
  runHandler (searchHandler s (Some b))
  = let theSearch :=
      ContentSearch (parseInt (bucketId b)) (query b)
                    (withDefault (limit b) (Num (Finite 10))) in
    match searchContent client (parseInt (bucketId b)) (query b)
                        (withDefault (limit b) (Num (Finite 10))) with
    | Rejected m =>
        ({| status := 500; body := Failure (messageOrUnknown m) |}, [theSearch])
    | Resolved response =>
        match resultsOf response with
        | None => ({| status := 200; body := SearchResults [] 0 |}, [theSearch])
        | Some rs =>
            ({| status := 200;
                body := SearchResults (map toHit rs) (length (map toHit rs)) |},
             [theSearch])
        end
    end.
Proof.
  intros Hq Hb Hg.
  unfold runHandler, searchHandler, bind, replyIf, getGroundXClient, await,
    pure, throw. simpl.
  rewrite Hq, Hb, Hg. simpl.
  destruct (searchContent client _ _ _) as [response|m]; [|reflexivity].
  destruct (resultsOf response); reflexivity.
Qed.

(** No handler makes a call before [query] and [bucketId] passed the
    truthiness test. *)
Lemma rag_calls_need_truthy clock user reqBody :
  snd (runHandler (ragHandler s clock user reqBody)) <> [] ->
  exists b', reqBody = Some b'
             /\ truthy (query b') = true /\ truthy (bucketId b') = true.
Proof.
  unfold runHandler, ragHandler, bind, replyIf, reply. intros H.
  destruct user as [u|]; [|exfalso; apply H; reflexivity].
  destruct reqBody as [b'|]; [|exfalso; apply H; reflexivity].
  exists b'. split; [reflexivity|]. simpl in H.
  destruct (truthy (query b')), (truthy (bucketId b')); try (split; reflexivity);
    exfalso; apply H; destruct (messages b'); reflexivity.
Qed.

End SearchAnswers.




(** C6: in the RAG handler, once the request reaches the search call, a
    response with an empty results array passes the retrieval check: the
    completion call is made, and when it returns a completion the answer
    is a success with no sources and count 0.  A response whose envelope
    lacks the results array fails the request: status 500 with the error
    [No search results from GroundX], and no completion call. *)
Theorem rag_empty_results_succeed_missing_fail :
  forall (s : Services) clock (u : RequestUser) (b : RequestBody) client response,
    messages b <> NullMessages ->
    truthy (query b) = true -> truthy (bucketId b) = true ->
    groundx s = Some client ->
    searchContent client (parseInt (bucketId b)) (query b)
                  (withDefault (limit b) (Num (Finite 10))) = Resolved response ->
    let theSearch := ContentSearch (parseInt (bucketId b)) (query b)
                       (withDefault (limit b) (Num (Finite 10))) in
    let request := completionRequest [] b (messageList b) in
    let run := runHandler (ragHandler s clock (Some u) (Some b)) in
    (resultsOf response = Some [] ->
     forall oc, openai s = Some oc ->
       snd run = [theSearch; CreateCompletion request])
    /\ (resultsOf response = Some [] ->
        forall oc choices, openai s = Some oc ->
          createCompletion oc request = Resolved (Some choices) ->
          run = ({| status := 200;
                    body := RagAnswer (ragResponse clock b [] (aiResponseOf choices)) |},
                 [theSearch; CreateCompletion request])
          /\ success (fst run) = true
          /\ rag_sources (ragResponse clock b [] (aiResponseOf choices)) = []
          /\ rag_count (ragResponse clock b [] (aiResponseOf choices)) = 0%nat)
    /\ (resultsOf response = None ->
        run = ({| status := 500; body := Failure "No search results from GroundX" |},
               [theSearch])
        /\ success (fst run) = false).
Proof.
  intros s clock u b client response Hm Hq Hb Hg Hs theSearch request run.
  unfold run. rewrite (rag_after_search s b clock u client Hm Hq Hb Hg), Hs.
  split; [|split].
  - intros -> oc ->. simpl. fold request.
    destruct (createCompletion oc request) as [[choices|]|m]; reflexivity.
  - intros -> oc choices -> Hc. simpl. fold request. rewrite Hc.
    repeat split.
  - intros ->. split; reflexivity.
Qed.

Lemma rag_empty_results_succeed_missing_fail_witness :
  runHandler (ragHandler (Examples.searching Examples.emptyResults)
                Examples.clock (Some Examples.austinUser)
                (Some (Examples.body (Str "net 30") (Str "123"))))
  = ({| status := 200;
        body := RagAnswer (ragResponse Examples.clock
                             (Examples.body (Str "net 30") (Str "123")) []
                             "The contract is net 30.") |},
     [ContentSearch (Finite 123) (Str "net 30") (Num (Finite 10));
      CreateCompletion
        (completionRequest [] (Examples.body (Str "net 30") (Str "123")) [])])
  /\ runHandler (ragHandler (Examples.searching Examples.noResults)
                            Examples.clock (Some Examples.austinUser)
                            (Some (Examples.body (Str "net 30") (Str "123"))))
     = ({| status := 500; body := Failure "No search results from GroundX" |},
        [ContentSearch (Finite 123) (Str "net 30") (Num (Finite 10))]).
Proof.
  pose (b := Examples.body (Str "net 30") (Str "123")).
  split.
  - refine (proj1 (proj1 (proj2 (rag_empty_results_succeed_missing_fail
              (Examples.searching Examples.emptyResults)
              Examples.clock Examples.austinUser b _ _ _ eq_refl eq_refl eq_refl eq_refl))
              eq_refl _ [Some "The contract is net 30."] eq_refl eq_refl)).
    discriminate.
  - refine (proj1 (proj2 (proj2 (rag_empty_results_succeed_missing_fail
              (Examples.searching Examples.noResults)
              Examples.clock Examples.austinUser b _ _ _ eq_refl eq_refl eq_refl eq_refl))
              eq_refl)).
    discriminate.
Defined.

(** C7, the claim as stated fails: with a non-empty query and the bucketId
    ["abc"], which does not parse to an integer, the RAG handler does not
    answer 400: it calls the search service, with NaN as the collection. *)
Lemma rag_unparsable_bucket_counterexample :
  parseInt (Str "abc") = NaN
  /\ head (snd Examples.unparsableRun)
     = Some (ContentSearch NaN (Str "net 30") (Num (Finite 10)))
  /\ status (fst Examples.unparsableRun) <> 400%nat.
Proof. repeat split. discriminate. Qed.

(** C7 (amended): whenever the query or the bucketId is falsy (absent,
    null, the empty string, zero), the RAG handler makes no network call
    and the request fails; for an authenticated request whose [messages]
    field is absent or an array the failure is the answer 400, "Query and
    bucketId are required".  A network call is made only when both are
    truthy.  When both are truthy, for such a request and with the search
    client configured, the first call is the content search on
    [parseInt(bucketId)], whatever that is: a bucketId that does not parse
    to an integer is not rejected. *)
Theorem rag_rejects_falsy_before_any_call :
  forall (s : Services) clock (user : option RequestUser) (b : RequestBody),
    let run := runHandler (ragHandler s clock user (Some b)) in
    (truthy (query b) = false \/ truthy (bucketId b) = false ->
       snd run = []
       /\ success (fst run) = false
       /\ status (fst run) <> 200%nat
       /\ (is_Some user -> messages b <> NullMessages ->
           fst run
           = {| status := 400; body := Failure "Query and bucketId are required" |}))
    /\ (truthy (query b) = true -> truthy (bucketId b) = true ->
        is_Some user -> messages b <> NullMessages ->
        forall client, groundx s = Some client ->
          head (snd run)
          = Some (ContentSearch (parseInt (bucketId b)) (query b)
                                (withDefault (limit b) (Num (Finite 10)))))
    /\ (forall user' reqBody,
          snd (runHandler (ragHandler s clock user' reqBody)) <> [] ->
          exists b', reqBody = Some b'
                     /\ truthy (query b') = true /\ truthy (bucketId b') = true).
Proof.
  intros s clock user b run. split; [|split].
  - intros H. unfold run. destruct user as [u|].
    + destruct (messages b) eqn:Hm;
        try (rewrite rag_rejects_falsy by (congruence || assumption);
             repeat split; discriminate).
      assert (Hrun : runHandler (ragHandler s clock (Some u) (Some b))
                     = ({| status := 500;
                           body := Failure
                             "Cannot read properties of null (reading 'length')" |},
                        [])).
      { unfold runHandler, ragHandler, bind, replyIf. simpl. rewrite Hm.
        reflexivity. }
      rewrite Hrun. repeat split; try discriminate. intros _ Hn. congruence.
    + repeat split; try discriminate. intros [u Hu]. discriminate.
  - intros Hq Hb [u ->] Hm client Hg. unfold run.
    rewrite (rag_after_search s b clock u client Hm Hq Hb Hg).
    destruct (searchContent client _ _ _) as [response|m]; [|reflexivity].
    destruct (resultsOf response) as [found|]; [|reflexivity]. simpl.
    destruct (openai s) as [oc|]; [|reflexivity].
    destruct (createCompletion oc _) as [[choices|]|m]; reflexivity.
  - intros user' reqBody. apply rag_calls_need_truthy.
Qed.

Lemma rag_rejects_falsy_before_any_call_witness :
  fst (runHandler (ragHandler (Examples.searching None) Examples.clock
                              (Some Examples.austinUser)
                              (Some (Examples.body (Str "") (Str "123")))))
  = {| status := 400; body := Failure "Query and bucketId are required" |}
  /\ head (snd (runHandler (ragHandler (Examples.searching None) Examples.clock
                                       (Some Examples.austinUser)
                                       (Some (Examples.body (Str "net 30") (Str "12abc"))))))
     = Some (ContentSearch (Finite 12) (Str "net 30") (Num (Finite 10))).
Proof.
  split.
  - refine (proj2 (proj2 (proj2 (proj1 (rag_rejects_falsy_before_any_call
              (Examples.searching None) Examples.clock (Some Examples.austinUser)
              (Examples.body (Str "") (Str "123"))) _))) _ _).
    + left. reflexivity.
    + eexists. reflexivity.
    + discriminate.
  - refine (proj1 (proj2 (rag_rejects_falsy_before_any_call
              (Examples.searching None) Examples.clock (Some Examples.austinUser)
              (Examples.body (Str "net 30") (Str "12abc"))))
              eq_refl eq_refl _ _ _ eq_refl).
    + eexists. reflexivity.
    + discriminate.
Defined.

(** ** Scenarios *)

(** The administrator [U1] switched to [org-42] at time 1000.  A request
    made within 24 hours acts as [org-42] under its display name, the home
    organization unchanged; a request made 24 hours later, or after the
    session is cleared, acts as the home organization, and the expired
    session is removed. *)
Lemma switch_scenario :
  (exists user ctx,
     Examples.adminRun 5000 = (Next user ctx, Examples.switched)
     /\ activeOrganizationId ctx = "org-42"
     /\ activeOrganizationName ctx = "Spinakr"
     /\ userOrganizationId ctx = "qig-org"
     /\ userOrganizationName ctx = "QIG")
  /\ (exists user ctx,
        Examples.adminRun 86401000 = (Next user ctx, ∅)
        /\ activeOrganizationId ctx = "qig-org")
  /\ (exists user ctx,
        authenticateSupabaseUser (Some Examples.supabase) 5000
          (Some "Bearer admin-token")
          (clearOrganizationSession "U1" Examples.switched)
        = (Next user ctx, ∅)
        /\ activeOrganizationId ctx = "qig-org").
Proof.
  split; [|split].
  - eexists _, _. split; [reflexivity|]. repeat split.
  - eexists _, _. split; [reflexivity|]. reflexivity.
  - eexists _, _. split; [reflexivity|]. reflexivity.
Qed.

(** ** More on the session store *)

(** X1: how the session helpers compose.  A session set at [t0] is read
    back, unchanged, at any time less than 24 hours after [t0], and from
    then on reading it returns nothing and removes it; a second switch
    replaces the first; clearing removes what was set, and clearing twice
    is clearing once. *)
Theorem session_helpers_compose :
  forall now t0 t1 userId org0 org1 (sessions : gmap string OrgSession),
    getOrganizationSession now userId
      (setOrganizationSession t0 userId org0 sessions)
    = (if (now - t0 <? 86400000)%Z
       then (Some {| sessionOrganizationId := org0; timestamp := t0 |},
             setOrganizationSession t0 userId org0 sessions)
       else (None, clearOrganizationSession userId sessions))
    /\ setOrganizationSession t1 userId org1
         (setOrganizationSession t0 userId org0 sessions)
       = setOrganizationSession t1 userId org1 sessions
    /\ getOrganizationSession now userId
         (clearOrganizationSession userId
            (setOrganizationSession t0 userId org0 sessions))
       = (None, clearOrganizationSession userId sessions)
    /\ clearOrganizationSession userId (clearOrganizationSession userId sessions)
       = clearOrganizationSession userId sessions.
Proof.
  intros now t0 t1 userId org0 org1 sessions.
  unfold getOrganizationSession, setOrganizationSession, clearOrganizationSession.
  split; [|split; [|split]].
  - rewrite lookup_insert_eq. simpl.
    change sessionLifetime with 86400000%Z.
    destruct (now - t0 <? 86400000)%Z; [reflexivity|].
    rewrite delete_insert_eq. reflexivity.
  - apply insert_insert_eq.
  - rewrite delete_insert_eq, lookup_delete_eq. reflexivity.
  - apply map_eq. intros k. destruct (decide (userId = k)) as [->|Hne].
    + rewrite !lookup_delete_eq. reflexivity.
    + rewrite !lookup_delete_ne by assumption. reflexivity.
Qed.

(** X2: the session helpers touch the entry of their own user only.
    Setting, clearing or reading the session of one user leaves the entry
    of every other user as it was, and reading the other user's session
    gives the same answer before and after. *)
Theorem session_helpers_keep_other_users :
  forall now t0 userId other organizationId (sessions : gmap string OrgSession),
    userId <> other ->
    setOrganizationSession t0 userId organizationId sessions !! other
      = sessions !! other
    /\ clearOrganizationSession userId sessions !! other = sessions !! other
    /\ (getOrganizationSession now userId sessions).2 !! other = sessions !! other
    /\ (getOrganizationSession now other
          (setOrganizationSession t0 userId organizationId sessions)).1
       = (getOrganizationSession now other sessions).1.
Proof.
  intros now t0 userId other organizationId sessions Hne.
  unfold getOrganizationSession, setOrganizationSession, clearOrganizationSession.
  split; [|split; [|split]].
  - apply lookup_insert_ne. assumption.
  - apply lookup_delete_ne. assumption.
  - destruct (sessions !! userId) as [session|]; [|reflexivity].
    destruct (now - timestamp session <? sessionLifetime)%Z; [reflexivity|].
    simpl. apply lookup_delete_ne. assumption.
  - rewrite lookup_insert_ne by assumption.
    destruct (sessions !! other) as [session|]; [|reflexivity].
    destruct (now - timestamp session <? sessionLifetime)%Z; reflexivity.
Qed.

Lemma session_helpers_keep_other_users_witness :
  setOrganizationSession 2000 "U9" "org-7" Examples.switched !! "U1"
  = Examples.switched !! "U1".
Proof.
  refine (proj1 (session_helpers_keep_other_users
                   0 2000 "U9" "U1" "org-7" Examples.switched _)).
  discriminate.
Defined.

(** ** More on the authentication middleware *)

Section MiddlewareOutcomes.

Lemma bearer_token (authHeader : string) :
  startsWith authHeader "Bearer " = true ->
  authHeader = "Bearer " +:+ substringFrom 7 authHeader.
Proof.
  intros H. apply startsWith_inv in H as [post ->]. reflexivity.
Qed.

Lemma bearer_header (token : string) :
  negb (truthyString ("Bearer " +:+ token)
        && startsWith ("Bearer " +:+ token) "Bearer ") = false.
Proof.
  rewrite (startsWith_app "Bearer " token). reflexivity.
Qed.

(** The run of the middleware on a well-formed header, once the identity
    provider has answered with a user. *)
Lemma authenticate_verified sb now token identity sessions :
  getUser sb token = {| data := Some identity; error := false |} ->
  authenticateSupabaseUser (Some sb) now (Some ("Bearer " +:+ token)) sessions
  = (let home := userOrganizationInfo sb identity in
     let r := activeOrganization sb now identity home sessions in
     (Next {| ru_id := user_id identity;
              ru_email := orEmpty (user_email identity);
              ru_organization := r.1;
              ru_isQIG := isQIG (user_email identity) |}
           (organizationContext (isQIG (user_email identity)) home r.1),
      r.2)).
Proof.
  intros Hu. unfold authenticateSupabaseUser.
  rewrite bearer_header.
  change (substringFrom 7 ("Bearer " +:+ token)) with token.
  rewrite Hu. simpl.
  destruct (activeOrganization _ _ _ _ _). reflexivity.
Qed.

(** A request the middleware answers itself leaves the store alone. *)
Lemma authenticate_Respond supabase now authorization sessions st message sessions' :
  authenticateSupabaseUser supabase now authorization sessions
    = (Respond st message, sessions') ->
  (st = 401%nat \/ st = 500%nat) /\ sessions' = sessions.
Proof.
  unfold authenticateSupabaseUser.
  destruct authorization as [hdr|]; [|intros [= <- _ <-]; auto].
  destruct (negb _); [intros [= <- _ <-]; auto|].
  destruct supabase as [sb|]; [|intros [= <- _ <-]; auto].
  destruct (getUser sb _) as [d e]. simpl.
  destruct e; [intros [= <- _ <-]; auto|].
  destruct d as [identity|]; [|intros [= <- _ <-]; auto].
  destruct (activeOrganization _ _ _ _ _). discriminate.
Qed.

End MiddlewareOutcomes.

(** X3: the middleware hands a request on exactly when the Supabase
    client is configured, the [Authorization] header is [Bearer] followed
    by a token, and the identity provider answers that token with a user
    and no error.  Every other request is answered 401 or 500, and the
    session store is left as it was. *)
Theorem middleware_hands_on_iff :
  forall supabase now authorization (sessions : gmap string OrgSession),
    ((exists user ctx,
        (authenticateSupabaseUser supabase now authorization sessions).1
          = Next user ctx)
     <-> (exists sb token identity,
            supabase = Some sb
            /\ authorization = Some ("Bearer " +:+ token)
            /\ getUser sb token = {| data := Some identity; error := false |}))
    /\ (forall st message,
          (authenticateSupabaseUser supabase now authorization sessions).1
            = Respond st message ->
          (st = 401%nat \/ st = 500%nat)
          /\ (authenticateSupabaseUser supabase now authorization sessions).2
             = sessions).
Proof.
  intros supabase now authorization sessions. split; [split|].
  - intros (user & ctx & H).
    destruct (authenticateSupabaseUser supabase now authorization sessions)
      as [o sessions'] eqn:E. simpl in H. subst o.
    pose proof E as E'.
    apply authenticate_Next in E
      as (sb & hdr & identity & -> & -> & Hu & _).
    exists sb, (substringFrom 7 hdr), identity.
    split; [reflexivity|]. split; [|exact Hu].
    f_equal. apply bearer_token.
    unfold authenticateSupabaseUser in E'.
    destruct (startsWith hdr "Bearer "); [reflexivity|].
    rewrite andb_false_r in E'. discriminate.
  - intros (sb & token & identity & -> & -> & Hu).
    rewrite (authenticate_verified sb now token identity sessions Hu).
    eexists _, _. reflexivity.
  - intros st message H.
    destruct (authenticateSupabaseUser supabase now authorization sessions)
      as [o sessions'] eqn:E. simpl in *. subst o.
    exact (authenticate_Respond _ _ _ _ _ _ _ E).
Qed.

(** X4: the middleware never adds a session and never touches the session
    of another user.  The store after a request is the store before it,
    except that an expired session of the caller, when the caller is a QIG
    administrator, is removed. *)
Theorem middleware_store_discipline :
  forall supabase now authorization (sessions : gmap string OrgSession),
    let run := authenticateSupabaseUser supabase now authorization sessions in
    run.2 = sessions
    \/ (exists user ctx session,
          run.1 = Next user ctx
          /\ isQIGAdmin ctx = true
          /\ sessions !! ru_id user = Some session
          /\ (now - timestamp session >= 86400000)%Z
          /\ run.2 = delete (ru_id user) sessions).
Proof.
  intros supabase now authorization sessions run. unfold run.
  destruct (authenticateSupabaseUser supabase now authorization sessions)
    as [o sessions'] eqn:E.
  destruct o as [st message | user ctx].
  - left. exact (proj2 (authenticate_Respond _ _ _ _ _ _ _ E)).
  - apply authenticate_Next in E
      as (sb & hdr & identity & -> & -> & Hu & Hact & Huser & ->).
    simpl. unfold activeOrganization in Hact.
    destruct (isQIG (user_email identity)) eqn:Hq;
      [|injection Hact as _ <-; left; reflexivity].
    destruct (userOrganizationInfo sb identity) as [home|];
      [|injection Hact as _ <-; left; reflexivity].
    rewrite Huser. simpl.
    destruct (sessions !! user_id identity) as [session|] eqn:Hs;
      [|injection Hact as _ <-; left; reflexivity].
    destruct (Z.ltb_spec (now - timestamp session) sessionLifetime) as [Hlt|Hge].
    + left. destruct (configOfOrganization sb _) as [d e]; simpl in Hact.
      destruct d, e; injection Hact as _ <-; reflexivity.
    + right. injection Hact as _ <-.
      exists user, (organizationContext true (Some home) (ru_organization user)), session.
      rewrite Huser. simpl. repeat split; try assumption.
      change sessionLifetime with 86400000%Z in Hge. lia.
Qed.

Lemma middleware_hands_on_iff_witness :
  (401%nat = 401%nat \/ 401%nat = 500%nat)
  /\ (authenticateSupabaseUser (Some Examples.supabase) 1000
        (Some "Basic admin-token") Examples.switched).2 = Examples.switched.
Proof.
  exact (proj2 (middleware_hands_on_iff (Some Examples.supabase) 1000
                  (Some "Basic admin-token") Examples.switched)
               401%nat "Missing or invalid authorization header" eq_refl).
Defined.

(** X5: how the middleware resolves the organization a QIG administrator
    acts as.  The home organization is always the fixed QIG organization.
    With a session younger than 24 hours, the active organization is the
    row that the lookup of the session's organization id returns; when that
    lookup fails or finds nothing, the administrator acts as the home
    organization and the session stays in the store.  With a session of 24
    hours or more, the administrator acts as the home organization and the
    session is removed. *)
Theorem administrator_active_organization :
  forall sb now token identity session (sessions : gmap string OrgSession),
    getUser sb token = {| data := Some identity; error := false |} ->
    isQIG (user_email identity) = true ->
    sessions !! user_id identity = Some session ->
    let run :=
      authenticateSupabaseUser (Some sb) now (Some ("Bearer " +:+ token)) sessions in
    let lookup := configOfOrganization sb (sessionOrganizationId session) in
    exists user ctx,
      run.1 = Next user ctx
      /\ userOrganizationId ctx = "qig-org"
      /\ userOrganizationName ctx = "QIG"
      /\ ((now - timestamp session < 86400000)%Z ->
          run.2 = sessions
          /\ (forall row,
                lookup = {| data := Some row; error := false |} ->
                ru_organization user = Some (orgOfConfig row)
                /\ activeOrganizationId ctx = orEmpty (organization_id row)
                /\ activeOrganizationName ctx = orEmpty (client_name row))
          /\ (error lookup = true \/ data lookup = None ->
              ru_organization user = Some qigOrganization
              /\ activeOrganizationId ctx = "qig-org"
              /\ activeOrganizationName ctx = "QIG"))
      /\ ((now - timestamp session >= 86400000)%Z ->
          run.2 = delete (user_id identity) sessions
          /\ ru_organization user = Some qigOrganization
          /\ activeOrganizationId ctx = "qig-org"
          /\ activeOrganizationName ctx = "QIG").
Proof.
  intros sb now token identity session sessions Hu Hq Hs run lookup.
  unfold run. rewrite (authenticate_verified sb now token identity sessions Hu).
  rewrite (userOrganizationInfo_QIG sb identity Hq).
  unfold activeOrganization. rewrite Hq, Hs. fold lookup.
  change sessionLifetime with 86400000%Z.
  eexists _, _. split; [reflexivity|]. split; [reflexivity|]. split; [reflexivity|].
  destruct (Z.ltb_spec (now - timestamp session) 86400000) as [Hlt|Hge].
  - split; [|intros; lia]. intros _.
    destruct lookup as [d e]. simpl.
    split; [destruct d, e; reflexivity|]. split.
    + intros row [= Hd He]. subst d e. simpl. repeat split.
    + intros [He | Hd]; simpl in *; subst; [destruct d|]; simpl; repeat split.
  - split; [intros; lia|]. intros _. simpl. repeat split.
Qed.

Lemma administrator_active_organization_witness :
  exists user ctx,
    (authenticateSupabaseUser (Some Examples.supabase) 5000
       (Some ("Bearer " +:+ "admin-token")) Examples.switched).1 = Next user ctx
    /\ userOrganizationId ctx = "qig-org"
    /\ activeOrganizationName ctx = "Spinakr".
Proof.
  destruct (administrator_active_organization
              Examples.supabase 5000 "admin-token"
              {| user_id := "U1"; user_email := Some "admin@qig.example" |}
              {| sessionOrganizationId := "org-42"; timestamp := 1000 |}
              Examples.switched eq_refl eq_refl eq_refl)
    as (user & ctx & Hrun & Hhome & _ & Hfresh & _).
  exists user, ctx. split; [exact Hrun|]. split; [exact Hhome|].
  assert (Hage : (5000 - 1000 < 86400000)%Z) by lia.
  destruct (Hfresh Hage) as (_ & Hrow & _).
  exact (proj2 (proj2 (Hrow _ eq_refl))).
Defined.

(** X6: [optionalSupabaseAuth] lets a request through without a user
    exactly when it carries no [Bearer] header.  A request that does carry
    one is treated as by the mandatory middleware: when the identity
    provider rejects the token the request is answered 401, it is not let
    through as anonymous. *)
Theorem optional_auth_rejects_bad_token :
  forall supabase now authorization (sessions : gmap string OrgSession),
    ((optionalSupabaseAuth supabase now authorization sessions).1 = Anonymous
     <-> (authorization = None
          \/ exists h, authorization = Some h /\ startsWith h "Bearer " = false))
    /\ (forall sb token,
          supabase = Some sb ->
          authorization = Some ("Bearer " +:+ token) ->
          error (getUser sb token) = true \/ data (getUser sb token) = None ->
          optionalSupabaseAuth supabase now authorization sessions
          = (Checked (Respond 401 "Invalid or expired token"), sessions))
    /\ (forall h,
          authorization = Some h -> startsWith h "Bearer " = true ->
          optionalSupabaseAuth supabase now authorization sessions
          = (Checked (authenticateSupabaseUser supabase now authorization sessions).1,
             (authenticateSupabaseUser supabase now authorization sessions).2)).
Proof.
  intros supabase now authorization sessions.
  assert (Hbearer : forall h, startsWith h "Bearer " = true ->
            optionalSupabaseAuth supabase now (Some h) sessions
            = (Checked (authenticateSupabaseUser supabase now (Some h) sessions).1,
               (authenticateSupabaseUser supabase now (Some h) sessions).2)).
  { intros h Hh. unfold optionalSupabaseAuth.
    rewrite (bearer_token h Hh), bearer_header.
    destruct (authenticateSupabaseUser _ _ _ _). reflexivity. }
  split; [split|split].
  - destruct authorization as [h|]; [|auto].
    intros H. right. exists h. split; [reflexivity|].
    destruct (startsWith h "Bearer ") eqn:Hh; [|reflexivity].
    rewrite (Hbearer h Hh) in H. discriminate.
  - intros [-> | (h & -> & Hh)]; [reflexivity|].
    unfold optionalSupabaseAuth. rewrite Hh, andb_false_r. reflexivity.
  - intros sb token -> -> Hbad.
    rewrite (Hbearer _ (startsWith_app "Bearer " token)).
    unfold authenticateSupabaseUser. rewrite bearer_header.
    change (substringFrom 7 ("Bearer " +:+ token)) with token.
    destruct (getUser sb token) as [d e]. simpl in *.
    destruct Hbad as [-> | ->]; [reflexivity|]. destruct e; reflexivity.
  - intros h -> Hh. exact (Hbearer h Hh).
Qed.

Lemma optional_auth_rejects_bad_token_witness :
  optionalSupabaseAuth (Some Examples.supabase) 1000
    (Some ("Bearer " +:+ "stale-token")) Examples.switched
  = (Checked (Respond 401 "Invalid or expired token"), Examples.switched).
Proof.
  refine (proj1 (proj2 (optional_auth_rejects_bad_token
            (Some Examples.supabase) 1000 (Some ("Bearer " +:+ "stale-token"))
            Examples.switched)) Examples.supabase "stale-token" eq_refl eq_refl _).
  left. reflexivity.
Defined.

(** X7: behind the authentication middleware, [requireQIGUser] lets a
    request through exactly when the verified email belongs to an
    administrative domain, and answers 403 otherwise; with no user on the
    request it answers 401. *)
Theorem requireQIGUser_after_authentication :
  forall supabase now authorization (sessions : gmap string OrgSession) user ctx sessions',
    authenticateSupabaseUser supabase now authorization sessions
      = (Next user ctx, sessions') ->
    (requireQIGUser (Some user) = None <->
       exists d, In d administrativeDomains /\ belongsTo (ru_email user) d)
    /\ (requireQIGUser (Some user) = None
        \/ requireQIGUser (Some user) = Some (403%nat, "QIG access required"))
    /\ requireQIGUser None = Some (401%nat, "Authentication required").
Proof.
  intros supabase now authorization sessions user ctx sessions' H.
  apply authenticate_Next in H
    as (sb & hdr & identity & _ & _ & _ & _ & Hu & _).
  rewrite Hu. unfold requireQIGUser. simpl. clear Hu.
  split; [|split; [destruct (isQIG _); auto | reflexivity]].
  rewrite isQIG_orEmpty.
  destruct (isQIG (Some (orEmpty (user_email identity)))) eqn:Hq.
  - split; [intros _ | reflexivity].
    apply isQIG_belongs in Hq as (e & d & [= <-] & Hd & Hb).
    exists d. split; assumption.
  - split; [discriminate|]. intros (d & Hd & Hb).
    assert (isQIG (Some (orEmpty (user_email identity))) = true) as Ht.
    { apply isQIG_belongs. exists (orEmpty (user_email identity)), d.
      repeat split; assumption. }
    congruence.
Qed.

Lemma requireQIGUser_after_authentication_witness :
  requireQIGUser (Some Examples.austinUser) = None
  \/ requireQIGUser (Some Examples.austinUser) = Some (403%nat, "QIG access required").
Proof.
  exact (proj1 (proj2 (requireQIGUser_after_authentication
           (Some Examples.supabase) 1000 (Some "Bearer austin-token") ∅
           Examples.austinUser
           (organizationContext false (Auth.ru_organization Examples.austinUser)
                                (Auth.ru_organization Examples.austinUser))
           ∅ eq_refl))).
Defined.

(** X8: the legacy override header changes nothing a handler reads.  For
    a user who is not a QIG administrator the request is left as it is,
    whatever the header; for every user the answers of the bucket listing
    and of the RAG handler, and the organization filter pattern, are the
    same with and without the header. *)
Theorem organization_override_is_inert :
  forall (header : option string) (user : option RequestUser),
    (isQIGOf user = false -> handleOrganizationOverride header user = (user, None))
    /\ (forall s,
          runHandler (bucketsHandler s (handleOrganizationOverride header user).1)
          = runHandler (bucketsHandler s user))
    /\ (forall s clock reqBody,
          runHandler (ragHandler s clock (handleOrganizationOverride header user).1
                                 reqBody)
          = runHandler (ragHandler s clock user reqBody))
    /\ getOrganizationFilterPattern (handleOrganizationOverride header user).1
       = getOrganizationFilterPattern user.
Proof.
  intros header user. unfold handleOrganizationOverride.
  destruct header as [h|], user as [u|]; try (repeat split; reflexivity).
  destruct (truthyString h); simpl; try (repeat split; reflexivity).
  destruct u as [uid email org qig]. simpl.
  destruct qig; simpl; [|repeat split; reflexivity].
  split; [discriminate|].
  destruct org as [o|]; repeat split; try reflexivity.
Qed.

Lemma organization_override_is_inert_witness :
  handleOrganizationOverride (Some "org-42") (Some Examples.austinUser)
  = (Some Examples.austinUser, None).
Proof.
  exact (proj1 (organization_override_is_inert (Some "org-42")
                  (Some Examples.austinUser)) eq_refl).
Defined.

(** ** The organization routes *)

Section OrganizationRoutes.

Import Organizations.

(** The request the middleware hands on carries the user and the context
    it built. *)
Lemma requestOf_verified sb now token identity sessions body :
  getUser sb token = {| data := Some identity; error := false |} ->
  let run :=
    authenticateSupabaseUser (Some sb) now (Some ("Bearer " +:+ token)) sessions in
  exists user ctx,
    run.1 = Next user ctx
    /\ requestOf run.1 body
       = {| req_user := Some user; req_context := Some ctx; req_body := body |}
    /\ ru_id user = user_id identity
    /\ isQIGAdmin ctx = isQIG (user_email identity)
    /\ userOrganizationId ctx = orEmpty (idOf (userOrganizationInfo sb identity))
    /\ userOrganizationName ctx = orEmpty (nameOf (userOrganizationInfo sb identity)).
Proof.
  intros Hu run. unfold run.
  rewrite (authenticate_verified sb now token identity sessions Hu). simpl.
  eexists _, _. repeat split.
Qed.

(** The middleware on a store where the administrator has no session. *)
Lemma authenticate_without_session sb now token identity sessions :
  getUser sb token = {| data := Some identity; error := false |} ->
  sessions !! user_id identity = None ->
  let home := userOrganizationInfo sb identity in
  authenticateSupabaseUser (Some sb) now (Some ("Bearer " +:+ token)) sessions
  = (Next {| ru_id := user_id identity;
             ru_email := orEmpty (user_email identity);
             ru_organization := home;
             ru_isQIG := isQIG (user_email identity) |}
          (organizationContext (isQIG (user_email identity)) home home),
     sessions).
Proof.
  intros Hu Hs home.
  rewrite (authenticate_verified sb now token identity sessions Hu). fold home.
  unfold activeOrganization. rewrite Hs.
  destruct (isQIG (user_email identity)), home; reflexivity.
Qed.

End OrganizationRoutes.



(** X10: a switch takes effect on the administrator's later requests.
    After [POST /organizations/switch] has answered with the switched
    organization, every request of the same administrator made less than
    24 hours after the switch keeps the QIG home organization, leaves the
    store alone, and acts as the row the middleware finds for the switched
    id; when the middleware's lookup of that id fails, the request acts as
    the home organization. *)
Theorem switch_then_request :
  forall sb directory t0 t1 now token identity organizationId
         (sessions sessions1 : gmap string OrgSession) target home,
    getUser sb token = {| data := Some identity; error := false |} ->
    let first :=
      authenticateSupabaseUser (Some sb) t0 (Some ("Bearer " +:+ token)) sessions in
    Organizations.switchHandler directory t1
      (Organizations.requestOf first.1 (Some (Some organizationId))) first.2
      = (Organizations.Switched target home, sessions1) ->
    (now - t1 < 86400000)%Z ->
    let second :=
      authenticateSupabaseUser (Some sb) now (Some ("Bearer " +:+ token)) sessions1 in
    let lookup := configOfOrganization sb organizationId in
    second.2 = sessions1
    /\ exists user ctx,
         second.1 = Next user ctx
         /\ isQIGAdmin ctx = true
         /\ userOrganizationId ctx = "qig-org"
         /\ (forall row,
               lookup = {| data := Some row; error := false |} ->
               activeOrganizationId ctx = orEmpty (organization_id row)
               /\ activeOrganizationName ctx = orEmpty (client_name row))
         /\ (error lookup = true \/ data lookup = None ->
             activeOrganizationId ctx = "qig-org").
Proof.
  intros sb directory t0 t1 now token identity organizationId sessions sessions1
         target home Hu first Hswitch Hage second lookup.
  destruct (requestOf_verified sb t0 token identity sessions
              (Some (Some organizationId)) Hu)
    as (user & ctx & _ & Hreq & Hid & Hadmin & _).
  fold first in Hreq. rewrite Hreq in Hswitch.
  unfold Organizations.switchHandler in Hswitch. simpl in Hswitch.
  destruct (isQIGAdmin ctx) eqn:Hq; [|discriminate]. simpl in Hswitch.
  destruct organizationId as [|c r]; [discriminate|]. simpl in Hswitch.
  destruct directory as [d|]; [|discriminate].
  destruct (Organizations.findOrganization d (String c r)) as [dt e].
  simpl in Hswitch. destruct e; [discriminate|].
  destruct dt as [row0|]; [|discriminate].
  injection Hswitch as _ _ Hstore.
  assert (Hs : sessions1 !! user_id identity
               = Some {| sessionOrganizationId := String c r; timestamp := t1 |}).
  { rewrite <- Hstore, Hid. unfold setOrganizationSession.
    apply lookup_insert_eq. }
  symmetry in Hadmin.
  unfold second.
  rewrite (authenticate_verified sb now token identity sessions1 Hu).
  rewrite (userOrganizationInfo_QIG sb identity Hadmin).
  unfold activeOrganization. rewrite Hadmin, Hs. simpl.
  change sessionLifetime with 86400000%Z.
  destruct (Z.ltb_spec (now - t1) 86400000) as [_|Hge]; [|lia].
  fold lookup. destruct lookup as [dl el]. simpl.
  split; [destruct dl, el; reflexivity|].
  eexists _, _. split; [reflexivity|]. split; [reflexivity|].
  split; [destruct dl, el; reflexivity|]. split.
  - intros row [= Hd He]. subst dl el. simpl. split; reflexivity.
  - intros [He | Hd]; simpl in *; subst; [destruct dl|]; reflexivity.
Qed.

Lemma switch_then_request_witness :
  exists user ctx,
    (authenticateSupabaseUser (Some Examples.supabase) 5000
       (Some ("Bearer " +:+ "admin-token"))
       (setOrganizationSession 2000 "U1" "org-42" ∅)).1 = Next user ctx
    /\ activeOrganizationName ctx = "Spinakr".
Proof.
  assert (Hage : (5000 - 2000 < 86400000)%Z) by lia.
  assert (Hswitch :
    Organizations.switchHandler (Some Samples.directory) 2000
      (Organizations.requestOf
         (authenticateSupabaseUser (Some Examples.supabase) 1000
            (Some ("Bearer " +:+ "admin-token")) ∅).1 (Some (Some "org-42")))
      (authenticateSupabaseUser (Some Examples.supabase) 1000
         (Some ("Bearer " +:+ "admin-token")) ∅).2
    = (Organizations.Switched
         {| id := Some "org-42"; name := Some "Spinakr"; type := Some "default" |}
         ("qig-org", "QIG"),
       setOrganizationSession 2000 "U1" "org-42" ∅)) by (vm_compute; reflexivity).
  destruct (switch_then_request Examples.supabase (Some Samples.directory)
              1000 2000 5000 "admin-token" Samples.adminIdentity "org-42" ∅
              (setOrganizationSession 2000 "U1" "org-42" ∅)
              {| id := Some "org-42"; name := Some "Spinakr"; type := Some "default" |}
              ("qig-org", "QIG") eq_refl Hswitch Hage)
    as (_ & user & ctx & Hrun & _ & _ & Hrow & _).
  exists user, ctx. split; [exact Hrun|].
  exact (proj2 (Hrow _ eq_refl)).
Defined.

(** X11: a reset takes effect on the administrator's later requests.
    After [POST /organizations/reset] has answered, whatever session the
    store held for the administrator, the administrator has no session:
    every later request acts as the home organization and leaves the store
    alone; and the answer of the reset names the QIG home organization.
    A reset by anyone else is answered 403 and leaves the store as it
    was. *)
Theorem reset_then_request :
  forall sb t0 now token identity body (sessions : gmap string OrgSession),
    getUser sb token = {| data := Some identity; error := false |} ->
    let first :=
      authenticateSupabaseUser (Some sb) t0 (Some ("Bearer " +:+ token)) sessions in
    let reset :=
      Organizations.resetHandler (Organizations.requestOf first.1 body) first.2 in
    (isQIG (user_email identity) = false ->
     reset = (Organizations.Failed 403
                "Only QIG administrators can reset organizations", first.2))
    /\ (isQIG (user_email identity) = true ->
        reset.1 = Organizations.ResetTo ("qig-org", "QIG")
        /\ reset.2 !! user_id identity = None
        /\ let second :=
             authenticateSupabaseUser (Some sb) now (Some ("Bearer " +:+ token))
                                      reset.2 in
           second.2 = reset.2
           /\ exists user ctx,
                second.1 = Next user ctx
                /\ activeOrganizationId ctx = "qig-org"
                /\ activeOrganizationName ctx = "QIG"
                /\ ru_organization user = Some qigOrganization).
Proof.
  intros sb t0 now token identity body sessions Hu first reset.
  destruct (requestOf_verified sb t0 token identity sessions body Hu)
    as (user & ctx & _ & Hreq & Hid & Hadmin & Hhome & Hname).
  fold first in Hreq. split.
  - intros Hq. unfold reset. rewrite Hreq.
    unfold Organizations.resetHandler.
    cbn [Organizations.req_context Organizations.req_user].
    rewrite Hadmin, Hq. reflexivity.
  - intros Hq.
    assert (Hreset :
      reset = (Organizations.ResetTo ("qig-org", "QIG"),
               clearOrganizationSession (user_id identity) first.2)).
    { unfold reset. rewrite Hreq. unfold Organizations.resetHandler.
      cbn [Organizations.req_context Organizations.req_user].
      rewrite Hadmin, Hq, Hhome, Hname, Hid,
        (userOrganizationInfo_QIG sb identity Hq).
      reflexivity. }
    rewrite Hreset. cbn [fst snd].
    assert (Hnone : clearOrganizationSession (user_id identity) first.2
                    !! user_id identity = None) by apply lookup_delete_eq.
    split; [reflexivity|]. split; [exact Hnone|].
    rewrite (authenticate_without_session sb now token identity _ Hu Hnone).
    rewrite (userOrganizationInfo_QIG sb identity Hq), Hq.
    split; [reflexivity|]. eexists _, _. repeat split.
Qed.

Lemma reset_then_request_witness :
  (Organizations.resetHandler
     (Organizations.requestOf
        (authenticateSupabaseUser (Some Examples.supabase) 3000
           (Some ("Bearer " +:+ "admin-token")) Examples.switched).1 None)
     (authenticateSupabaseUser (Some Examples.supabase) 3000
        (Some ("Bearer " +:+ "admin-token")) Examples.switched).2).1
  = Organizations.ResetTo ("qig-org", "QIG").
Proof.
  exact (proj1 (proj2 (reset_then_request Examples.supabase 3000 4000
                  "admin-token" Samples.adminIdentity None Examples.switched
                  eq_refl) eq_refl)).
Defined.

(** X12: [GET /organizations/current] reports [isActingAsOtherOrg] only
    for an impersonating administrator.  For a request that passed the
    middleware, the flag is true only if the caller is a QIG administrator
    whose session in the store was younger than 24 hours when the request
    was authenticated; for every other caller it is false. *)
Theorem acting_as_other_needs_session :
  forall sb now token identity body (sessions : gmap string OrgSession),
    getUser sb token = {| data := Some identity; error := false |} ->
    let run :=
      authenticateSupabaseUser (Some sb) now (Some ("Bearer " +:+ token)) sessions in
    exists view acting,
      Organizations.currentHandler (Organizations.requestOf run.1 body)
        = Organizations.Current view acting
      /\ (acting = true ->
          isQIG (user_email identity) = true
          /\ exists session,
               sessions !! user_id identity = Some session
               /\ (now - timestamp session < 86400000)%Z
               /\ run.2 = sessions).
Proof.
  intros sb now token identity body sessions Hu run. unfold run.
  rewrite (authenticate_verified sb now token identity sessions Hu).
  unfold Organizations.currentHandler. simpl.
  eexists _, _. split; [reflexivity|].
  unfold activeOrganization.
  destruct (isQIG (user_email identity)) eqn:Hq.
  - rewrite (userOrganizationInfo_QIG sb identity Hq).
    destruct (sessions !! user_id identity) as [session|]; [|discriminate].
    change sessionLifetime with 86400000%Z.
    destruct (Z.ltb_spec (now - timestamp session) 86400000) as [Hlt|Hge];
      [|discriminate].
    intros _. split; [reflexivity|]. exists session.
    split; [reflexivity|]. split; [assumption|].
    destruct (configOfOrganization sb _) as [d e]. destruct d, e; reflexivity.
  - cbn [fst snd]. rewrite String.eqb_refl. discriminate.
Qed.

Lemma acting_as_other_needs_session_witness :
  exists view acting,
    Organizations.currentHandler
      (Organizations.requestOf
         (authenticateSupabaseUser (Some Examples.supabase) 5000
            (Some ("Bearer " +:+ "admin-token")) Examples.switched).1 None)
    = Organizations.Current view acting.
Proof.
  destruct (acting_as_other_needs_session Examples.supabase 5000 "admin-token"
              Samples.adminIdentity None Examples.switched eq_refl)
    as (view & acting & H & _).
  exists view, acting. exact H.
Defined.

(** ** More on score extraction and the search routes *)

Section Scores.

Lemma firstUsable_some (fields : list (string * Value)) (b : BestScore) :
  firstUsable fields = Some b ->
  In (source b, Num (bestScore b)) fields /\ isNaN (bestScore b) = false.
Proof.
  induction fields as [|[src v] fields IH]; simpl; [discriminate|].
  destruct v as [| |x|n|x]; simpl; try (intros H; destruct (IH H); auto).
  destruct (isNaN n) eqn:Hn.
  - intros H. destruct (IH H). auto.
  - intros [= <-]. simpl. auto.
Qed.

Lemma extractBestScore_never_NaN_aux (result : SearchResultItem) :
  isNaN (bestScore (extractBestScore result)) = false
  /\ (In (source (extractBestScore result),
           Num (bestScore (extractBestScore result))) (scoreFields result)
      \/ extractBestScore result
         = {| bestScore := Finite 0; source := "default" |}).
Proof.
  unfold extractBestScore.
  destruct (firstUsable (scoreFields result)) as [b|] eqn:E; simpl.
  - destruct (firstUsable_some _ _ E). auto.
  - auto.
Qed.

End Scores.


Section BucketListing.

Lemma filter_sublist {A} (f : A -> bool) (l : list A) :
  sublist (List.filter f l) l.
Proof.
  induction l as [|x l IH]; simpl; [constructor|].
  destruct (f x); constructor; assumption.
Qed.

(** The filter never answers the request itself, never makes a call, and
    what it keeps is a sublist of what it is given. *)
Lemma filterBuckets_outcome isQIG organizationName buckets calls :
  (exists kept,
     filterBuckets isQIG organizationName buckets calls = (Continue kept, calls)
     /\ sublist kept buckets
     /\ (negb isQIG && truthyString (orEmpty organizationName) = true ->
         kept = List.filter
                  (keepBucket (patternsFor (orEmpty organizationName))) buckets))
  \/ (filterBuckets isQIG organizationName buckets calls
        = (Throw "bucketPatterns.some is not a function", calls)
      /\ isQIG = false
      /\ In (orEmpty organizationName) objectPrototypeNames).
Proof.
  unfold filterBuckets.
  destruct (negb isQIG && truthyString (orEmpty organizationName)) eqn:Hc.
  - destruct (bucketPatterns (orEmpty organizationName)) as [patterns|] eqn:Hp.
    + left. eexists. split; [reflexivity|]. split; [apply filter_sublist|].
      intros _. f_equal. f_equal. unfold bucketPatterns, patternsFor in *.
      destruct (orgToBucketMapping !! _); simpl; [congruence|].
      destruct (existsb _ _); [discriminate | congruence].
    + destruct buckets as [|b buckets].
      * left. exists []. split; [reflexivity|]. split; [constructor|].
        reflexivity.
      * right. split; [reflexivity|]. split.
        -- destruct isQIG; [discriminate | reflexivity].
        -- unfold bucketPatterns in Hp.
           destruct (orgToBucketMapping !! _); [discriminate|].
           destruct (existsb _ _) eqn:He; [|discriminate].
           apply inherited_name_dec. assumption.
  - left. exists buckets. split; [reflexivity|]. split; [reflexivity|].
    discriminate.
Qed.

End BucketListing.

(** X14: [GET /buckets] never shows a bucket the listing did not return,
    and never reorders.  Every run makes at most the one listing call;
    it answers either with status 500, or with status 200 and the processed
    form of a sublist of the listed buckets, in their original order,
    together with the caller's organization name. *)
Theorem buckets_answer_is_sublist :
  forall (s : Services) (user : option RequestUser),
    let run := runHandler (bucketsHandler s user) in
    (run.2 = [] \/ run.2 = [ListBuckets])
    /\ ((status run.1 = 500%nat /\ success run.1 = false)
        \/ exists client buckets kept,
             groundx s = Some client
             /\ bucketsList client
                = Resolved (Some {| responseBuckets := Some buckets |})
             /\ sublist kept buckets
             /\ run = ({| status := 200;
                          body := BucketList (map processBucket kept)
                                             (organizationNameOf user) |},
                       [ListBuckets])).
Proof.
  intros s user run. unfold run.
  unfold runHandler, bucketsHandler, bind, getGroundXClient, await, pure, throw, reply.
  destruct (groundx s) as [client|] eqn:Hg; [|simpl; auto].
  destruct (bucketsList client) as [response|m] eqn:Hl; [|simpl; auto].
  destruct response as [[[buckets|]]|]; try (simpl; auto; fail).
  cbn [app].
  destruct (filterBuckets_outcome (isQIGOf user) (organizationNameOf user)
              buckets [ListBuckets])
    as [(kept & -> & Hsub & _) | (-> & _)].
  - split; [right; reflexivity|]. right.
    exists client, buckets, kept. repeat split; assumption.
  - simpl. auto.
Qed.

(** X15: a regular user is only shown buckets that match the user's
    organization.  When the caller is not a QIG administrator and has a
    non-empty organization name, every bucket of a 200 answer carries a
    name, that name is the display name the filter looked at, and one of
    the organization's patterns occurs in it, letter case ignored. *)
Theorem listed_buckets_match_organization :
  forall (s : Services) (user : RequestUser) organizationName shown organization,
    ru_isQIG user = false ->
    nameOf (ru_organization user) = Some organizationName ->
    organizationName <> "" ->
    (runHandler (bucketsHandler s (Some user))).1
      = {| status := 200; body := BucketList shown organization |} ->
    Forall (fun pb =>
              exists n p,
                pb_name pb = Named n
                /\ In p (patternsFor organizationName)
                /\ occursInIgnoringCase p n) shown.
Proof.
  intros s user organizationName shown organization Hq Hname Hne.
  unfold runHandler, bucketsHandler, bind, getGroundXClient, await, pure, throw, reply.
  destruct (groundx s) as [client|]; [|discriminate].
  destruct (bucketsList client) as [response|m]; [|discriminate].
  destruct response as [[[buckets|]]|]; try discriminate.
  cbn [app]. unfold isQIGOf, organizationNameOf. rewrite Hq, Hname.
  destruct (filterBuckets_outcome false (Some organizationName) buckets [ListBuckets])
    as [(kept & -> & _ & Hkept) | (-> & _)]; [|discriminate].
  intros [= <- _]. simpl in Hkept.
  destruct organizationName as [|c r]; [congruence|].
  rewrite (Hkept eq_refl).
  assert (Hnonempty : forall p, In p (patternsFor (String c r)) -> p <> "").
  { intros p Hin ->. unfold patternsFor in Hin.
    destruct (orgToBucketMapping !! String c r) as [ps|] eqn:Hl; simpl in Hin.
    - revert Hl Hin. unfold orgToBucketMapping.
      rewrite !lookup_insert. repeat case_decide; intros [= <-] Hin;
        simpl in Hin; try intuition discriminate.
    - destruct Hin as [[=]|[]]. }
  apply List.Forall_forall. intros pb Hin.
  apply in_map_iff in Hin as (b & <- & Hin).
  apply filter_In in Hin as [_ Hkeep].
  apply keepBucket_occurs in Hkeep as (p & Hp' & Hocc).
  assert (Hd : bucketDisplayName b <> "").
  { intros Hd. rewrite Hd in Hocc. destruct Hocc as (pre & post & Hocc).
    apply (Hnonempty p Hp'). destruct p; [reflexivity|].
    destruct pre; discriminate. }
  exists (bucketDisplayName b), p. split; [|split; assumption].
  unfold processBucket, bucketDisplayName in *. simpl.
  destruct (orElse (orElse (b_name b) (b_title b)) (b_bucketName b)) as [[|c' r']|];
    simpl in *; congruence.
Qed.

Lemma listed_buckets_match_organization_witness :
  Forall (fun pb =>
            exists n p,
              pb_name pb = Named n
              /\ In p (patternsFor "Austin Industries")
              /\ occursInIgnoringCase p n)
         (map processBucket
              [Examples.bucketNamed "Austin Industries Contracts"]).
Proof.
  refine (listed_buckets_match_organization
            (Examples.listing Examples.threeBuckets) Examples.austinUser
            "Austin Industries" _ (Some "Austin Industries")
            eq_refl eq_refl _ eq_refl).
  discriminate.
Defined.

(** X16: the answer of [POST /search] mirrors the records of the search
    service.  Once [query] and [bucketId] are truthy and the call resolves
    with a results array, the answer is a 200 whose [count] is the number
    of records, whose i-th hit is built from the i-th record, with the
    record's file name and its extracted score; and the only call made is
    the one content search. *)
Theorem search_answer_mirrors_records :
  forall (s : Services) (b : RequestBody) client response records,
    truthy (query b) = true -> truthy (bucketId b) = true ->
    groundx s = Some client ->
    searchContent client (parseInt (bucketId b)) (query b)
                  (withDefault (limit b) (Num (Finite 10))) = Resolved response ->
    resultsOf response = Some records ->
    exists hits,
      runHandler (searchHandler s (Some b))
      = ({| status := 200; body := SearchResults hits (length records) |},
         [ContentSearch (parseInt (bucketId b)) (query b)
                        (withDefault (limit b) (Num (Finite 10)))])
      /\ length hits = length records
      /\ (forall i record,
            records !! i = Some record ->
            exists hit,
              hits !! i = Some hit
              /\ hit_fileName hit = fileName record
              /\ hit_documentId hit = documentId record
              /\ hit_score hit = bestScore (extractBestScore record)).
Proof.
  intros s b client response records Hq Hb Hg Hs Hr.
  exists (map toHit records).
  rewrite (search_after_call s b client Hq Hb Hg). cbv zeta. rewrite Hs, Hr.
  rewrite length_map. split; [reflexivity|]. split; [reflexivity|].
  intros i record Hi. exists (toHit record).
  rewrite list_lookup_fmap, Hi. repeat split.
Qed.

Lemma search_answer_mirrors_records_witness :
  exists hits,
    runHandler (searchHandler
                  (Examples.searching
                     (Some {| search := Some {| results := Some [Examples.twoScores] |} |}))
                  (Some (Examples.body (Str "net 30") (Str "123"))))
    = ({| status := 200; body := SearchResults hits 1 |},
       [ContentSearch (Finite 123) (Str "net 30") (Num (Finite 10))])
    /\ length hits = 1%nat.
Proof.
  destruct (search_answer_mirrors_records
              (Examples.searching
                 (Some {| search := Some {| results := Some [Examples.twoScores] |} |}))
              (Examples.body (Str "net 30") (Str "123")) _ _ [Examples.twoScores]
              eq_refl eq_refl eq_refl eq_refl eq_refl)
    as (hits & Hrun & Hlen & _).
  exists hits. split; [exact Hrun | exact Hlen].
Defined.

Section RagTrace.

(** The calls of a RAG request, with the completion request as the
    handler builds it. *)
Lemma rag_trace (s : Services) clock (user : option RequestUser)
    (reqBody : option RequestBody) :
  let calls := (runHandler (ragHandler s clock user reqBody)).2 in
  calls = []
  \/ exists b client,
       reqBody = Some b /\ groundx s = Some client
       /\ messages b <> NullMessages
       /\ truthy (query b) = true /\ truthy (bucketId b) = true
       /\ let theSearch :=
            ContentSearch (parseInt (bucketId b)) (query b)
                          (withDefault (limit b) (Num (Finite 10))) in
          (calls = [theSearch]
           \/ exists response found,
                searchContent client (parseInt (bucketId b)) (query b)
                              (withDefault (limit b) (Num (Finite 10)))
                  = Resolved response
                /\ resultsOf response = Some found
                /\ calls = [theSearch;
                            CreateCompletion
                              (completionRequest (map toSource found) b
                                                 (messageList b))]).
Proof.
  intros calls. unfold calls.
  destruct user as [u|]; [|left; reflexivity].
  destruct reqBody as [b|]; [|left; reflexivity].
  destruct (messages b) eqn:Hm;
    try (left; unfold runHandler, ragHandler, bind, replyIf; simpl;
         rewrite Hm; reflexivity);
    (destruct (truthy (query b)) eqn:Hq;
     [|left; rewrite rag_rejects_falsy; [reflexivity | congruence | auto]]);
    (destruct (truthy (bucketId b)) eqn:Hb;
     [|left; rewrite rag_rejects_falsy; [reflexivity | congruence | auto]]);
    (destruct (groundx s) as [client|] eqn:Hg;
     [|left; unfold runHandler, ragHandler, bind, replyIf, getGroundXClient;
       simpl; rewrite Hm, Hq, Hb, Hg; reflexivity]);
    (right; exists b, client;
     repeat (split; [reflexivity || assumption || congruence|]);
     cbv zeta;
     rewrite (rag_after_search s b clock u client) by (congruence || assumption);
     destruct (searchContent client _ _ _) as [response|m]; [|left; reflexivity];
     destruct (resultsOf response) as [found|] eqn:Hr; [|left; reflexivity];
     cbv zeta;
     destruct (openai s) as [oc|]; [|left; reflexivity];
     right; exists response, found;
     split; [reflexivity|]; split; [assumption|];
     destruct (createCompletion oc _) as [[choices|]|m]; reflexivity).
Qed.

End RagTrace.

(** X17: the calls a RAG request makes.  Whatever the request and the
    services, the handler makes no call, or the content search alone, or
    the content search followed by one completion request.  The completion
    is requested only after the search resolved with a results array; the
    request sent names the model [gpt-4-turbo] with at most 1500 tokens and
    the temperature of the body (0.3 when it gives none), and its first
    message is the system prompt whose context lists the file name and the
    text (or else the suggested text) of each record found, in retrieval
    order. *)
Theorem rag_call_discipline :
  forall (s : Services) clock (user : option RequestUser)
         (reqBody : option RequestBody),
    let calls := (runHandler (ragHandler s clock user reqBody)).2 in
    calls = []
    \/ exists b client,
         reqBody = Some b /\ groundx s = Some client
         /\ truthy (query b) = true /\ truthy (bucketId b) = true
         /\ let theSearch :=
              ContentSearch (parseInt (bucketId b)) (query b)
                            (withDefault (limit b) (Num (Finite 10))) in
            (calls = [theSearch]
             \/ exists response found request,
                  searchContent client (parseInt (bucketId b)) (query b)
                                (withDefault (limit b) (Num (Finite 10)))
                    = Resolved response
                  /\ resultsOf response = Some found
                  /\ calls = [theSearch; CreateCompletion request]
                  /\ model request = "gpt-4-turbo"
                  /\ max_tokens request = 1500%nat
                  /\ chatTemperature request
                     = withDefault (temperature b) (Num (Finite (3 # 10)))
                  /\ exists turns,
                       chatMessages request
                       = SystemPrompt
                           (map (fun record =>
                                   (fileName record,
                                    orElse (text record) (suggestedText record)))
                                found)
                         :: turns).
Proof.
  intros s clock user reqBody calls.
  destruct (rag_trace s clock user reqBody)
    as [Hnone | (b & client & Hbody & Hg & _ & Hq & Hb & Hcalls)];
    [left; exact Hnone|].
  right. exists b, client. repeat (split; [assumption|]).
  cbv zeta in *. destruct Hcalls as [Hone | (response & found & Hs & Hr & Htwo)];
    [left; exact Hone|].
  right.
  exists response, found, (completionRequest (map toSource found) b (messageList b)).
  repeat (split; [assumption || reflexivity|]).
  eexists. unfold completionRequest, openaiMessages. cbn [chatMessages].
  rewrite map_map. reflexivity.
Qed.

Section Prompt.

Lemma withDefault_false_truthy (v : Value) :
  truthy (withDefault v (Bool false)) = truthy v.
Proof. destruct v; reflexivity. Qed.

Lemma removelast_sublist {A} (l : list A) : sublist (removelast l) l.
Proof.
  induction l as [|x [|y l] IH]; simpl; [constructor | repeat constructor |].
  constructor. exact IH.
Qed.

(** The turns [openaiMessages] builds from a history. *)
Lemma openaiMessages_turns (sources : list Source) (b : RequestBody)
    (history : list Message) :
  exists earlier,
    openaiMessages sources b history
    = (SystemPrompt (map (fun src => (src_fileName src, src_text src)) sources)
         :: map (fun m => Turn (role m) (Str (content m))) earlier
         ++ [Turn "user" (query b)])%list
    /\ sublist earlier (removelast history)
    /\ sublist earlier history
    /\ Forall (fun m => role m = "user" \/ role m = "assistant") earlier
    /\ (truthy (conversationContext b) = false \/ (length history <= 1)%nat ->
        earlier = [])
    /\ (truthy (conversationContext b) = true -> (1 < length history)%nat ->
        earlier = List.filter isUserOrAssistant (removelast history)).
Proof.
  unfold openaiMessages.
  rewrite withDefault_false_truthy.
  destruct (truthy (conversationContext b) && (1 <? length history)%nat) eqn:Hc.
  - exists (List.filter isUserOrAssistant (removelast history)).
    apply andb_prop in Hc as [Ht Hl]. apply Nat.ltb_lt in Hl.
    split; [reflexivity|]. split; [apply filter_sublist|].
    split; [etransitivity; [apply filter_sublist | apply removelast_sublist]|].
    split; [|split].
    + apply List.Forall_forall. intros m Hin.
      apply filter_In in Hin as [_ Hr]. unfold isUserOrAssistant in Hr.
      apply orb_prop in Hr as [Hr|Hr]; apply String.eqb_eq in Hr; auto.
    + intros [Hf | Hle]; [congruence | lia].
    + reflexivity.
  - exists []. split; [reflexivity|]. split; [apply sublist_nil_l|].
    split; [apply sublist_nil_l|]. split; [constructor|]. split; [reflexivity|].
    intros Ht Hl. apply Nat.ltb_lt in Hl. rewrite Ht, Hl in Hc. discriminate.
Qed.

End Prompt.

(** X18: the turns POST /rag sends to the completion service.  Whenever
    a run of the handler requests a completion, the messages of that
    request are one system prompt first and the query as a user turn last.
    Between them come messages of the request's history and nothing else:
    in their original order, never the last message of the history, and
    only messages whose role is [user] or [assistant], so a client message
    with any other role never reaches the model.  Without the
    conversation-context flag, or with a history of at most one message
    (or none), there are exactly the two turns. *)
Theorem prompt_turns :
  forall (s : Services) clock (user : option RequestUser)
         (reqBody : option RequestBody) (request : ChatRequest),
    In (CreateCompletion request)
       (runHandler (ragHandler s clock user reqBody)).2 ->
    exists b history context earlier,
      reqBody = Some b
      /\ (messages b = MessageArray history
          \/ messages b = NoMessages /\ history = [])
      /\ chatMessages request
         = (SystemPrompt context
              :: map (fun m => Turn (role m) (Str (content m))) earlier
              ++ [Turn "user" (query b)])%list
      /\ sublist earlier (removelast history)
      /\ sublist earlier history
      /\ Forall (fun m => role m = "user" \/ role m = "assistant") earlier
      /\ (truthy (conversationContext b) = false \/ (length history <= 1)%nat ->
          earlier = [])
      /\ (truthy (conversationContext b) = true -> (1 < length history)%nat ->
          earlier
          = List.filter
              (fun m => String.eqb (role m) "user"
                        || String.eqb (role m) "assistant")
              (removelast history)).
Proof.
  intros s clock user reqBody request Hin.
  destruct (rag_trace s clock user reqBody)
    as [Hnone | (b & client & -> & _ & Hm & _ & _ & Hcalls)].
  { rewrite Hnone in Hin. destruct Hin. }
  cbv zeta in Hcalls.
  destruct Hcalls as [Hone | (response & found & _ & _ & Htwo)].
  { rewrite Hone in Hin. destruct Hin as [Hin|[]]. discriminate. }
  rewrite Htwo in Hin. destruct Hin as [Hin|[Hin|[]]]; [discriminate|].
  injection Hin as <-.
  destruct (openaiMessages_turns (map toSource found) b (messageList b))
    as (earlier & Hturns & H1 & H2 & H3 & H4 & H5).
  exists b, (messageList b),
         (map (fun src => (src_fileName src, src_text src)) (map toSource found)),
         earlier.
  split; [reflexivity|]. split.
  { unfold messageList. destruct (messages b); [right; auto | contradiction | left; reflexivity]. }
  split; [exact Hturns|]. repeat (split; [assumption|]). exact H5.
Qed.

Lemma prompt_turns_witness :
  exists b history context earlier,
    Some Samples.chatBody = Some b
    /\ (messages b = MessageArray history
        \/ messages b = NoMessages /\ history = [])
    /\ [SystemPrompt []; Turn "user" (Str "what is due?");
        Turn "assistant" (Str "the invoice"); Turn "user" (Str "net 30")]
       = (SystemPrompt context
            :: map (fun m => Turn (role m) (Str (content m))) earlier
            ++ [Turn "user" (query b)])%list
    /\ sublist earlier (removelast history)
    /\ sublist earlier history
    /\ Forall (fun m => role m = "user" \/ role m = "assistant") earlier
    /\ (truthy (conversationContext b) = false \/ (length history <= 1)%nat ->
        earlier = [])
    /\ (truthy (conversationContext b) = true -> (1 < length history)%nat ->
        earlier
        = List.filter
            (fun m => String.eqb (role m) "user"
                      || String.eqb (role m) "assistant")
            (removelast history)).
Proof.
  exact (prompt_turns (Examples.searching Examples.emptyResults) Examples.clock
           (Some Examples.austinUser) (Some Samples.chatBody)
           Samples.chatRequest
           (or_intror (or_introl eq_refl))).
Defined.

Section RagAnswers.

(** A RAG answer comes from the last step of the handler only. *)
Lemma rag_success_inv s clock user reqBody st r :
  (runHandler (ragHandler s clock user reqBody)).1
    = {| status := st; body := RagAnswer r |} ->
  exists b found choices,
    reqBody = Some b /\ st = 200%nat
    /\ r = ragResponse clock b (map toSource found) (aiResponseOf choices).
Proof.
  destruct user as [u|]; [|discriminate].
  destruct reqBody as [b|]; [|discriminate].
  destruct (messages b) eqn:Hm;
    try (unfold runHandler, ragHandler, bind, replyIf; simpl; rewrite Hm;
         discriminate);
    (destruct (truthy (query b)) eqn:Hq;
     [|rewrite rag_rejects_falsy; [discriminate | congruence | auto]]);
    (destruct (truthy (bucketId b)) eqn:Hb;
     [|rewrite rag_rejects_falsy; [discriminate | congruence | auto]]);
    (destruct (groundx s) as [client|] eqn:Hg;
     [|unfold runHandler, ragHandler, bind, replyIf, getGroundXClient;
       simpl; rewrite Hm, Hq, Hb, Hg; discriminate]);
    (rewrite (rag_after_search s b clock u client) by (congruence || assumption);
     destruct (searchContent client _ _ _) as [response|m]; [|discriminate];
     destruct (resultsOf response) as [found|]; [|discriminate];
     cbv zeta;
     destruct (openai s) as [oc|]; [|discriminate];
     destruct (createCompletion oc _) as [[choices|]|m]; try discriminate;
     intros [= <- <-]; exists b, found, choices; repeat split).
Qed.

Lemma aiResponseOf_nonempty (choices : list (option string)) :
  aiResponseOf choices <> "".
Proof. destruct choices as [|[[|c r]|] rest]; discriminate. Qed.

End RagAnswers.

(** X19: what every successful RAG answer satisfies.  Its status is 200;
    [count] is the number of sources; no source has a NaN score; the answer
    text is never empty; [thoughts] is present exactly when the request
    asked for it, and then reports as many documents as there are sources;
    and when the five clock readings do not decrease, the search and
    completion times are non-negative and together at most the total. *)
Theorem rag_answer_invariants :
  forall (s : Services) clock (user : option RequestUser)
         (reqBody : option RequestBody) st r,
    (runHandler (ragHandler s clock user reqBody)).1
      = {| status := st; body := RagAnswer r |} ->
    st = 200%nat
    /\ rag_count r = length (rag_sources r)
    /\ Forall (fun src => isNaN (src_score src) = false
                          /\ src_rawScore src = src_score src) (rag_sources r)
    /\ rag_response r <> ""
    /\ (exists b,
          reqBody = Some b /\ rag_query r = query b
          /\ (is_Some (rag_thoughts r) <-> truthy (includeThoughts b) = true))
    /\ (forall t, rag_thoughts r = Some t -> searchedThrough t = rag_count r)
    /\ ((startTime clock <= searchStartTime clock)%Z ->
        (searchStartTime clock <= searchEndTime clock)%Z ->
        (searchEndTime clock <= llmStartTime clock)%Z ->
        (llmStartTime clock <= llmEndTime clock)%Z ->
        (0 <= searchMs (rag_executionTime r))%Z
        /\ (0 <= llmMs (rag_executionTime r))%Z
        /\ (searchMs (rag_executionTime r) + llmMs (rag_executionTime r)
            <= totalMs (rag_executionTime r))%Z).
Proof.
  intros s clock user reqBody st r H.
  apply rag_success_inv in H as (b & found & choices & -> & -> & ->).
  unfold ragResponse. simpl. rewrite withDefault_false_truthy.
  split; [reflexivity|]. split; [reflexivity|]. split; [|split; [|split; [|split]]].
  - apply List.Forall_forall. intros src Hin.
    apply in_map_iff in Hin as (record & <- & _).
    split; [|reflexivity].
    exact (proj1 (extractBestScore_never_NaN_aux record)).
  - apply aiResponseOf_nonempty.
  - exists b. split; [reflexivity|]. split; [reflexivity|].
    destruct (truthy (includeThoughts b)); split; eauto; try discriminate.
    intros [t Ht]. discriminate.
  - intros t. destruct (truthy (includeThoughts b)); [|discriminate].
    intros [= <-]. reflexivity.
  - intros. lia.
Qed.

Lemma rag_answer_invariants_witness :
  rag_count (ragResponse Examples.clock (Examples.body (Str "net 30") (Str "123"))
                         [] "The contract is net 30.")
  = length (rag_sources
              (ragResponse Examples.clock (Examples.body (Str "net 30") (Str "123"))
                           [] "The contract is net 30.")).
Proof.
  exact (proj1 (proj2 (rag_answer_invariants
           (Examples.searching Examples.emptyResults) Examples.clock
           (Some Examples.austinUser)
           (Some (Examples.body (Str "net 30") (Str "123"))) 200%nat
           (ragResponse Examples.clock (Examples.body (Str "net 30") (Str "123"))
                        [] "The contract is net 30.")
           eq_refl))).
Defined.

(** X20: the order in which the RAG handler turns a request down, each
    time before any call is made.  A request with no user is answered 401
    whatever its body; with a user and no body, 400; with a body whose
    [messages] is [null], 500, even when the query or the bucketId is
    missing; and a missing GroundX API key is reported, as a 500, only for
    a request that passed all of these checks and has a truthy query and
    bucketId. *)
Theorem rag_rejections_in_order :
  forall (s : Services) clock (u : RequestUser) (b : RequestBody) reqBody,
    runHandler (ragHandler s clock None reqBody)
      = ({| status := 401; body := Failure "Authentication required" |}, [])
    /\ runHandler (ragHandler s clock (Some u) None)
       = ({| status := 400; body := Failure "Request body is missing or empty" |}, [])
    /\ (messages b = NullMessages ->
        runHandler (ragHandler s clock (Some u) (Some b))
        = ({| status := 500;
              body := Failure "Cannot read properties of null (reading 'length')" |},
           []))
    /\ (messages b <> NullMessages ->
        truthy (query b) = true -> truthy (bucketId b) = true ->
        groundx s = None ->
        runHandler (ragHandler s clock (Some u) (Some b))
        = ({| status := 500;
              body := Failure "GROUNDX_API_KEY environment variable is required" |},
           []))
    /\ (messages b <> NullMessages ->
        truthy (query b) = false \/ truthy (bucketId b) = false ->
        runHandler (ragHandler s clock (Some u) (Some b))
        = ({| status := 400; body := Failure "Query and bucketId are required" |},
           [])).
Proof.
  intros s clock u b reqBody.
  split; [reflexivity|]. split; [reflexivity|]. split; [|split].
  - intros Hm. unfold runHandler, ragHandler, bind, replyIf. simpl.
    rewrite Hm. reflexivity.
  - intros Hm Hq Hb Hg.
    unfold runHandler, ragHandler, bind, replyIf, getGroundXClient. simpl.
    rewrite Hq, Hb, Hg. destruct (messages b); try contradiction; reflexivity.
  - intros Hm H. apply rag_rejects_falsy; assumption.
Qed.

Lemma rag_rejections_in_order_witness :
  runHandler (ragHandler (Examples.searching None) Examples.clock
                (Some Examples.austinUser)
                (Some {| query := Str ""; bucketId := Undefined;
                         messages := NullMessages; limit := Undefined;
                         includeThoughts := Undefined; temperature := Undefined;
                         conversationContext := Undefined |}))
  = ({| status := 500;
        body := Failure "Cannot read properties of null (reading 'length')" |}, []).
Proof.
  exact (proj1 (proj2 (proj2 (rag_rejections_in_order
           (Examples.searching None) Examples.clock Examples.austinUser
           {| query := Str ""; bucketId := Undefined;
              messages := NullMessages; limit := Undefined;
              includeThoughts := Undefined; temperature := Undefined;
              conversationContext := Undefined |} None))) eq_refl).
Defined.

(** ** The client configuration service *)

Section ConfigurationCache.

Import ConfigService Vocabulary.

Lemma clearCache_setCache t k cfg c :
  clearCache k (setCache t k cfg c) = clearCache k c.
Proof.
  unfold clearCache, setCache. simpl. rewrite !delete_insert_eq. reflexivity.
Qed.

Lemma getFromCache_absent now k c :
  configCache c !! k = None -> (getFromCache now k c).1 = None.
Proof.
  intros H. unfold getFromCache. destruct (expired _ _); [reflexivity|].
  simpl. exact H.
Qed.

(** A read that finds nothing leaves no configuration under the key. *)
Lemma getFromCache_miss now k c :
  (getFromCache now k c).1 = None ->
  configCache (getFromCache now k c).2 !! k = None.
Proof.
  unfold getFromCache. destruct (expired _ _); simpl.
  - intros _. apply lookup_delete_eq.
  - intros H. exact H.
Qed.

Lemma getFromCache_fresh now t k cfg c :
  (0 <= t)%Z -> (now <= t + 300000)%Z ->
  getFromCache now k (setCache t k cfg c) = (Some cfg, setCache t k cfg c).
Proof.
  intros Ht Hnow. unfold getFromCache, setCache, expired. simpl.
  rewrite !lookup_insert_eq. change CACHE_TTL with 300000%Z.
  destruct (Z.eqb_spec (t + 300000) 0); [lia|].
  destruct (Z.ltb_spec (t + 300000) now); [lia|]. reflexivity.
Qed.

(** With no configuration under the key, [getClientConfig] asks the
    database. *)
Lemma getClientConfig_requeries decode db now fetchedAt k c :
  configCache c !! k = None ->
  (getClientConfig decode db now fetchedAt k c).2 = [k].
Proof.
  intros Hmiss. unfold getClientConfig.
  pose proof (getFromCache_absent now k c Hmiss) as H.
  destruct (getFromCache now k c) as [[x|] c']; [discriminate|].
  destruct (selectConfig db k) as [r|]; [|reflexivity].
  destruct (Auth.error r); [reflexivity|].
  destruct (Auth.data r); reflexivity.
Qed.

End ConfigurationCache.

(** X21: the configuration cache keeps an entry for five minutes.  An
    entry stored at time [t] is served at every time up to and including
    [t] + 300000 ms, and the cache is left as it is; at any later time the
    read returns nothing and removes the entry.  Storing an entry for one
    organization does not change what is served for another. *)
Theorem cache_entry_lives_five_minutes :
  forall t now k other cfg (c : ConfigService.Cache),
    (0 <= t)%Z ->
    ConfigService.getFromCache now k (ConfigService.setCache t k cfg c)
    = (if (now <=? t + 300000)%Z
       then (Some cfg, ConfigService.setCache t k cfg c)
       else (None, ConfigService.clearCache k c))
    /\ (other <> k ->
        (ConfigService.getFromCache now other (ConfigService.setCache t k cfg c)).1
        = (ConfigService.getFromCache now other c).1).
Proof.
  intros t now k other cfg c Ht. split.
  - destruct (Z.leb_spec now (t + 300000)) as [Hle|Hgt].
    + apply getFromCache_fresh; assumption.
    + unfold ConfigService.getFromCache, ConfigService.expired.
      unfold ConfigService.setCache at 1. simpl. rewrite lookup_insert_eq.
      change ConfigService.CACHE_TTL with 300000%Z.
      destruct (Z.eqb_spec (t + 300000) 0); [lia|].
      destruct (Z.ltb_spec (t + 300000) now); [|lia]. simpl.
      rewrite clearCache_setCache. reflexivity.
  - intros Hne. unfold ConfigService.getFromCache, ConfigService.setCache. simpl.
    rewrite !lookup_insert_ne by congruence.
    destruct (ConfigService.expired now _); reflexivity.
Qed.

Lemma cache_entry_lives_five_minutes_witness :
  ConfigService.getFromCache 301000 "org-7"
    (ConfigService.setCache 1000 "org-7" Samples.austinRow ConfigService.emptyCache)
  = (Some Samples.austinRow,
     ConfigService.setCache 1000 "org-7" Samples.austinRow ConfigService.emptyCache).
Proof.
  refine (proj1 (cache_entry_lives_five_minutes 1000 301000 "org-7" "org-42"
                   Samples.austinRow ConfigService.emptyCache _)).
  lia.
Defined.

(** X22: the cache never serves an entry past its expiry.  The empty
    cache is timed (every cached configuration has a positive expiry time);
    storing at a time that is not negative, clearing and reading keep the
    cache timed; and from a timed cache a read that returns a configuration
    returns one whose expiry time has not passed, and leaves the cache
    unchanged. *)
Theorem cache_never_serves_stale :
  Vocabulary.timed ConfigService.emptyCache
  /\ (forall c t k cfg,
        Vocabulary.timed c -> (0 <= t)%Z ->
        Vocabulary.timed (ConfigService.setCache t k cfg c))
  /\ (forall c k,
        Vocabulary.timed c -> Vocabulary.timed (ConfigService.clearCache k c))
  /\ (forall c now k,
        Vocabulary.timed c ->
        Vocabulary.timed (ConfigService.getFromCache now k c).2)
  /\ (forall c now k cfg,
        Vocabulary.timed c ->
        (ConfigService.getFromCache now k c).1 = Some cfg ->
        (ConfigService.getFromCache now k c).2 = c
        /\ exists e,
             ConfigService.cacheExpiry c !! k = Some e /\ (now <= e)%Z).
Proof.
  assert (Hclear : forall c k,
            Vocabulary.timed c -> Vocabulary.timed (ConfigService.clearCache k c)).
  { intros c k Hc k' cfg. unfold ConfigService.clearCache. simpl.
    destruct (decide (k = k')) as [->|Hne].
    - rewrite lookup_delete_eq. discriminate.
    - rewrite !lookup_delete_ne by assumption. apply Hc. }
  split; [|split; [|split; [|split]]].
  - intros k cfg. simpl. rewrite lookup_empty. discriminate.
  - intros c t k cfg Hc Ht k' cfg'. unfold ConfigService.setCache. simpl.
    destruct (decide (k = k')) as [->|Hne].
    + rewrite !lookup_insert_eq. intros _. eexists. split; [reflexivity|].
      change ConfigService.CACHE_TTL with 300000%Z. lia.
    + rewrite !lookup_insert_ne by assumption. apply Hc.
  - exact Hclear.
  - intros c now k Hc. unfold ConfigService.getFromCache.
    destruct (ConfigService.expired _ _); simpl; [apply Hclear|]; assumption.
  - intros c now k cfg Hc. unfold ConfigService.getFromCache.
    destruct (ConfigService.expired now (ConfigService.cacheExpiry c !! k)) eqn:He;
      simpl; [discriminate|].
    intros Hcfg. split; [reflexivity|].
    destruct (Hc k cfg Hcfg) as (e & Hexp & Hpos). exists e. split; [assumption|].
    rewrite Hexp in He. simpl in He.
    destruct (Z.eqb_spec e 0); [lia|]. simpl in He.
    apply Z.ltb_ge in He. assumption.
Qed.

Lemma cache_never_serves_stale_witness :
  Vocabulary.timed
    (ConfigService.setCache 1000 "org-7" Samples.austinRow ConfigService.emptyCache).
Proof.
  refine (proj1 (proj2 cache_never_serves_stale) ConfigService.emptyCache 1000%Z
                "org-7" Samples.austinRow (proj1 cache_never_serves_stale) _).
  lia.
Defined.

(** X23: [getClientConfig] caches what it fetched, and only that.  When
    a call had to query the database and got a configuration, a second
    call for the same organization made no later than five minutes after
    the answer was stored returns the same configuration without a query
    and without changing the cache.  When a call returns nothing (the
    query threw, reported an error or found no row), nothing is cached:
    the next call queries the database again. *)
Theorem getClientConfig_caches_what_it_fetched :
  forall decode db now fetchedAt now2 fetchedAt2 k (c : ConfigService.Cache),
    (0 <= fetchedAt)%Z ->
    let first := ConfigService.getClientConfig decode db now fetchedAt k c in
    let second :=
      ConfigService.getClientConfig decode db now2 fetchedAt2 k first.1.2 in
    (forall cfg,
       first.1.1 = Some cfg -> first.2 = [k] ->
       (now2 <= fetchedAt + 300000)%Z ->
       second = (Some cfg, first.1.2, []))
    /\ (first.1.1 = None -> first.2 = [k] /\ second.2 = [k])
    /\ (first.2 = [] \/ first.2 = [k]).
Proof.
  intros decode db now fetchedAt now2 fetchedAt2 k c Hf first second.
  unfold second, first. clear second first.
  destruct (ConfigService.getClientConfig decode db now fetchedAt k c)
    as [[cfg1 c1] q1] eqn:E.
  cbn [fst snd]. unfold ConfigService.getClientConfig in E.
  destruct (ConfigService.getFromCache now k c) as [[cached|] c'] eqn:Hget.
  - injection E as <- <- <-.
    split; [discriminate|]. split; [discriminate | auto].
  - assert (Hmiss : ConfigService.configCache c' !! k = None).
    { pose proof (getFromCache_miss now k c) as H. rewrite Hget in H.
      apply H. reflexivity. }
    pose proof (getClientConfig_requeries decode db now2 fetchedAt2 k c' Hmiss)
      as Hagain.
    assert (Hnone :
      (forall cfg : ConfigService.ClientConfiguration,
         None = Some cfg -> [k] = [k] -> (now2 <= fetchedAt + 300000)%Z ->
         ConfigService.getClientConfig decode db now2 fetchedAt2 k c'
         = (Some cfg, c', []))
      /\ (@None ConfigService.ClientConfiguration = None ->
          [k] = [k]
          /\ (ConfigService.getClientConfig decode db now2 fetchedAt2 k c').2 = [k])
      /\ ([k] = [] \/ [k] = [k])).
    { split; [discriminate|]. split; [intros _; split; [reflexivity | assumption]|].
      right. reflexivity. }
    destruct (ConfigService.selectConfig db k) as [r|];
      [|injection E as <- <- <-; exact Hnone].
    destruct (Auth.error r); [injection E as <- <- <-; exact Hnone|].
    destruct (Auth.data r) as [row|]; [|injection E as <- <- <-; exact Hnone].
    injection E as <- <- <-.
    split; [|split; [discriminate | auto]].
    intros cfg [= <-] _ Hnow.
    unfold ConfigService.getClientConfig.
    rewrite (getFromCache_fresh now2 fetchedAt k _ c' Hf Hnow). reflexivity.
Qed.

Lemma getClientConfig_caches_what_it_fetched_witness :
  ConfigService.getClientConfig Samples.decode Samples.database 2000 2100 "org-7"
    (ConfigService.getClientConfig Samples.decode Samples.database 1000 1100
       "org-7" ConfigService.emptyCache).1.2
  = (Some (ConfigService.processConfigWithSecrets Samples.decode Samples.austinRow),
     (ConfigService.getClientConfig Samples.decode Samples.database 1000 1100
        "org-7" ConfigService.emptyCache).1.2,
     []).
Proof.
  refine (proj1 (getClientConfig_caches_what_it_fetched
                   Samples.decode Samples.database 1000 1100 2000 2100 "org-7"
                   ConfigService.emptyCache _) _ eq_refl eq_refl _); lia.
Defined.

(** X24: a write invalidates the cached configuration only when it
    succeeds.  When the insert of [createClientConfig] or the update of
    [updateClientConfig] settles without an error, the entry of that
    organization is removed, so the next read of the cache finds nothing
    for it, and the entries of other organizations stay; when the query
    throws or reports an error, the call returns nothing and the cache,
    with whatever entry it held, is unchanged. *)
Theorem writes_invalidate_on_success :
  forall db env k clientName clientType customConfig now other
         (c : ConfigService.Cache),
    let created :=
      ConfigService.createClientConfig db env k clientName clientType customConfig c in
    let updated := ConfigService.updateClientConfig db k c in
    let inserted :=
      ConfigService.insertConfig db
        (ConfigService.newConfig env k clientName clientType customConfig) in
    (forall r,
       inserted = ConfigService.Answered r -> Auth.error r = false ->
       created = (Auth.data r, ConfigService.clearCache k c)
       /\ ConfigService.getFromCache now k created.2 = (None, created.2)
       /\ (other <> k ->
           ConfigService.configCache created.2 !! other
           = ConfigService.configCache c !! other))
    /\ (forall r,
          ConfigService.updateConfig db k = ConfigService.Answered r ->
          Auth.error r = false ->
          updated = (Auth.data r, ConfigService.clearCache k c)
          /\ ConfigService.getFromCache now k updated.2 = (None, updated.2))
    /\ (inserted = ConfigService.Thrown
        \/ (exists r, inserted = ConfigService.Answered r /\ Auth.error r = true) ->
        created = (None, c))
    /\ (ConfigService.updateConfig db k = ConfigService.Thrown
        \/ (exists r, ConfigService.updateConfig db k = ConfigService.Answered r
                      /\ Auth.error r = true) ->
        updated = (None, c)).
Proof.
  intros db env k clientName clientType customConfig now other c
         created updated inserted.
  assert (Hread : ConfigService.getFromCache now k (ConfigService.clearCache k c)
                  = (None, ConfigService.clearCache k c)).
  { unfold ConfigService.getFromCache, ConfigService.clearCache. simpl.
    rewrite !lookup_delete_eq. reflexivity. }
  unfold created, updated, ConfigService.createClientConfig,
    ConfigService.updateClientConfig, ConfigService.afterWrite.
  fold inserted.
  split; [|split; [|split]].
  - intros r -> ->. split; [reflexivity|]. split; [exact Hread|].
    intros Hne. simpl. apply lookup_delete_ne. congruence.
  - intros r -> ->. split; [reflexivity | exact Hread].
  - intros [-> | (r & -> & ->)]; reflexivity.
  - intros [-> | (r & -> & ->)]; reflexivity.
Qed.

Lemma writes_invalidate_on_success_witness :
  ConfigService.updateClientConfig Samples.database "org-7"
    (ConfigService.setCache 1000 "org-7" Samples.austinRow ConfigService.emptyCache)
  = (None,
     ConfigService.setCache 1000 "org-7" Samples.austinRow ConfigService.emptyCache).
Proof.
  refine (proj2 (proj2 (proj2 (writes_invalidate_on_success
            Samples.database None "org-7" "Austin Industries"
            ConfigService.TPremium None 0 "org-42"
            (ConfigService.setCache 1000 "org-7" Samples.austinRow
                                    ConfigService.emptyCache)))) _).
  left. reflexivity.
Defined.

Section Validation.

Import ConfigService Vocabulary.

Lemma missing_false (field : option string) :
  missing field = false <-> exists v, field = Some v /\ v <> "".
Proof.
  unfold missing. destruct field as [[|c r]|]; simpl; split;
    try discriminate; try (intros (v & [= <-] & H); congruence);
    try (intros (v & [=] & _)).
  intros _. eexists. split; [reflexivity | discriminate].
Qed.

(** The last secret named [client_secret] is the one that counts. *)
Lemma decodedClientSecret_last decode secrets found v :
  decodedClientSecret decode secrets found = Some v ->
  (exists before encrypted after,
     secrets = (before ++ ("client_secret", encrypted) :: after)%list
     /\ Forall (fun entry => entry.1 <> "client_secret") after
     /\ v = decode encrypted)
  \/ (Forall (fun entry => entry.1 <> "client_secret") secrets /\ found = Some v).
Proof.
  revert found. induction secrets as [|[n e] secrets IH]; intros found H; simpl in H.
  - right. split; [constructor | assumption].
  - destruct (IH _ H) as [(before & enc & after & -> & Hafter & ->) | [Hall Hf]].
    + left. exists ((n, e) :: before), enc, after. auto.
    + destruct (String.eqb_spec n "client_secret") as [->|Hne].
      * left. exists [], e, secrets. injection Hf as <-. auto.
      * right. split; [constructor; assumption | assumption].
Qed.

End Validation.

(** X25: [validateConfig] reports exactly the missing fields.  The
    errors are the messages of those of the five required fields
    (organization id, client name, backend API URL, Azure tenant id, Azure
    client id) that are absent or empty, in that order, and the
    configuration is valid exactly when all five are present and not
    empty. *)
Theorem validateConfig_reports_missing_fields :
  forall config : ConfigService.ClientConfiguration,
    let present field := exists v : string, field = Some v /\ v <> "" in
    let checks :=
      [ (ConfigService.organization_id config, "Organization ID is required");
        (ConfigService.client_name config, "Client name is required");
        (ConfigService.apiUrlOf config, "Backend API URL is required");
        (ConfigService.tenantIdOf config, "Azure tenant ID is required");
        (ConfigService.clientIdOf config, "Azure client ID is required") ] in
    (ConfigService.validateConfig config).2
      = map snd (List.filter (fun check => ConfigService.missing check.1) checks)
    /\ ((ConfigService.validateConfig config).1 = true
        <-> (ConfigService.validateConfig config).2 = [])
    /\ ((ConfigService.validateConfig config).1 = true
        <-> Forall (fun check => present check.1) checks).
Proof.
  intros config present checks. unfold checks, ConfigService.validateConfig.
  cbn [fst snd List.filter map].
  assert (Hp : forall f, ConfigService.missing f = false <-> present f)
    by (intro; apply missing_false).
  destruct (ConfigService.missing (ConfigService.organization_id config)) eqn:H1,
           (ConfigService.missing (ConfigService.client_name config)) eqn:H2,
           (ConfigService.missing (ConfigService.apiUrlOf config)) eqn:H3,
           (ConfigService.missing (ConfigService.tenantIdOf config)) eqn:H4,
           (ConfigService.missing (ConfigService.clientIdOf config)) eqn:H5;
    cbn; (split; [reflexivity|]); (split; [split; congruence|]);
    split; try discriminate;
    try (intros _; repeat constructor; apply Hp; assumption);
    intros Hall;
    repeat match goal with
           | H : Forall _ (_ :: _) |- _ => inversion H; subst; clear H
           end;
    cbn [fst] in *;
    repeat match goal with
           | H : present _ |- _ => apply Hp in H
           end;
    congruence.
Qed.

(** X26: what [createClientConfig] inserts.  Each feature flag and limit
    of the row is the one the custom configuration gives when it has that
    property, whatever its value, and else the default of the client type;
    so a flag or limit is unset exactly when the custom configuration has
    the property with the value [undefined], and all four limits and all
    five flags are set when it has no such property.  The client type
    [custom] gets the features and limits of the type [default]; the
    creator is the organization id; and a row built without a custom Azure
    configuration does not pass [validateConfig]: with a non-empty
    organization id and client name and no custom configuration, its
    errors are the two Azure ones. *)
Theorem created_configuration :
  forall env organizationId clientName clientType customConfig,
    let row :=
      ConfigService.newConfig env organizationId clientName clientType customConfig in
    let limits := ConfigService.limits row in
    let features := ConfigService.features row in
    Vocabulary.allOverridden (Vocabulary.givenFlags customConfig)
                  (Vocabulary.flagsOf (ConfigService.defaultConfig clientType).1)
                  (Vocabulary.flagsOf features)
    /\ Vocabulary.allOverridden (Vocabulary.givenLimits customConfig)
                     (Vocabulary.limitsOf (ConfigService.defaultConfig clientType).2)
                     (Vocabulary.limitsOf limits)
    /\ ((forall p, In p (Vocabulary.givenLimits customConfig) ->
                   p <> ConfigService.Present None) ->
        is_Some (ConfigService.requests_per_minute limits)
        /\ is_Some (ConfigService.requests_per_day limits)
        /\ is_Some (ConfigService.max_file_size_mb limits)
        /\ is_Some (ConfigService.max_concurrent_sessions limits))
    /\ ((forall p, In p (Vocabulary.givenFlags customConfig) ->
                   p <> ConfigService.Present None) ->
        is_Some (ConfigService.hands_free_chat features)
        /\ is_Some (ConfigService.document_analysis features)
        /\ is_Some (ConfigService.contract_search features)
        /\ is_Some (ConfigService.custom_branding features)
        /\ is_Some (ConfigService.advanced_analytics features))
    /\ (clientType = ConfigService.TCustom ->
        limits
        = ConfigService.limits
            (ConfigService.newConfig env organizationId clientName
                                     ConfigService.TDefault customConfig)
        /\ features
          = ConfigService.features
              (ConfigService.newConfig env organizationId clientName
                                       ConfigService.TDefault customConfig))
    /\ ConfigService.created_by row = Some organizationId
    /\ ((forall c, customConfig = Some c ->
                   ConfigService.custom_azure_config c = None) ->
        (ConfigService.validateConfig row).1 = false
        /\ In "Azure tenant ID is required" (ConfigService.validateConfig row).2
        /\ In "Azure client ID is required" (ConfigService.validateConfig row).2)
    /\ (customConfig = None -> organizationId <> "" -> clientName <> "" ->
        ConfigService.validateConfig row
        = (false, ["Azure tenant ID is required"; "Azure client ID is required"])).
Proof.
  intros env organizationId clientName clientType customConfig row limits features.
  assert (Hone : forall A (p : ConfigService.Property A) (d : option A),
             is_Some d -> Vocabulary.overridden p d (ConfigService.spread d p)).
  { intros A p d Hd. unfold Vocabulary.overridden. destruct p as [|v]; simpl.
    - split; [discriminate|]. split; [auto|].
      split; [|discriminate]. intros ->. destruct Hd; discriminate.
    - split; [intros v' [= <-]; reflexivity|]. split; [discriminate|].
      split; [intros ->; reflexivity | intros [= ->]; reflexivity]. }
  assert (Hset : forall A (p : ConfigService.Property A) (d r : option A),
             Vocabulary.overridden p d r -> p <> ConfigService.Present None -> is_Some r).
  { intros A p d r (_ & _ & Hnone) Hp. destruct r as [v|]; [eexists; reflexivity|].
    exfalso. apply Hp, Hnone. reflexivity. }
  assert (Hflags : Vocabulary.allOverridden (Vocabulary.givenFlags customConfig)
                     (Vocabulary.flagsOf (ConfigService.defaultConfig clientType).1)
                     (Vocabulary.flagsOf features)).
  { unfold features, row, ConfigService.newConfig, Vocabulary.givenFlags,
      Vocabulary.flagsOf.
    destruct clientType, customConfig as [[cb ca [f|] cl]|]; simpl;
      repeat (split; [apply Hone; eexists; reflexivity|]); exact I. }
  assert (Hlimits : Vocabulary.allOverridden (Vocabulary.givenLimits customConfig)
                      (Vocabulary.limitsOf (ConfigService.defaultConfig clientType).2)
                      (Vocabulary.limitsOf limits)).
  { unfold limits, row, ConfigService.newConfig, Vocabulary.givenLimits,
      Vocabulary.limitsOf.
    destruct clientType, customConfig as [[cb ca cf [l|]]|]; simpl;
      repeat (split; [apply Hone; eexists; reflexivity|]); exact I. }
  split; [exact Hflags|]. split; [exact Hlimits|].
  split; [|split; [|split; [|split; [|split]]]].
  - intros Hdef.
    destruct (Vocabulary.givenLimits customConfig) as [|p1 [|p2 [|p3 [|p4 [|]]]]];
      simpl in Hlimits; try contradiction; try tauto.
    destruct Hlimits as (H1 & H2 & H3 & H4 & _).
    repeat split;
      [apply (Hset _ _ _ _ H1) | apply (Hset _ _ _ _ H2)
       | apply (Hset _ _ _ _ H3) | apply (Hset _ _ _ _ H4)];
      apply Hdef; simpl; auto.
  - intros Hdef.
    destruct (Vocabulary.givenFlags customConfig) as [|p1 [|p2 [|p3 [|p4 [|p5 [|]]]]]];
      simpl in Hflags; try contradiction; try tauto.
    destruct Hflags as (H1 & H2 & H3 & H4 & H5 & _).
    repeat split;
      [apply (Hset _ _ _ _ H1) | apply (Hset _ _ _ _ H2)
       | apply (Hset _ _ _ _ H3) | apply (Hset _ _ _ _ H4)
       | apply (Hset _ _ _ _ H5)];
      apply Hdef; simpl; auto 10.
  - intros Ht. unfold limits, features, row. rewrite Ht. split; reflexivity.
  - unfold row, ConfigService.newConfig. destruct clientType; reflexivity.
  - intros Hazure.
    assert (Ht : ConfigService.tenantIdOf row = Some ""
                 /\ ConfigService.clientIdOf row = Some "").
    { unfold row, ConfigService.newConfig, ConfigService.tenantIdOf,
        ConfigService.clientIdOf.
      destruct clientType, customConfig as [c|]; simpl;
        try rewrite (Hazure c eq_refl); split; reflexivity. }
    destruct Ht as [Ht Hc].
    unfold ConfigService.validateConfig. rewrite Ht, Hc.
    cbn [ConfigService.missing orEmpty truthyString negb ConfigService.pushIf fst snd].
    split; [|split].
    + rewrite !length_app. simpl. rewrite Nat.add_comm. reflexivity.
    + apply in_or_app. left. apply in_or_app. right. left. reflexivity.
    + apply in_or_app. right. left. reflexivity.
  - intros -> Ho Hn. unfold row, ConfigService.newConfig, ConfigService.validateConfig.
    destruct organizationId; [congruence|]. destruct clientName; [congruence|].
    unfold ConfigService.backendUrl.
    destruct clientType, env as [[|c r]|]; reflexivity.
Qed.

Lemma created_configuration_witness :
  Vocabulary.allOverridden
    [ ConfigService.Present None; ConfigService.Absent; ConfigService.Absent;
      ConfigService.Present (Some true); ConfigService.Absent ]
    [ Some false; Some true; Some true; Some false; Some false ]
    [ None; Some true; Some true; Some true; Some false ]
  /\ ConfigService.validateConfig
       (ConfigService.newConfig None "org-9" "Builders" ConfigService.TCustom None)
     = (false, ["Azure tenant ID is required"; "Azure client ID is required"]).
Proof.
  split.
  - exact (proj1 (created_configuration None "org-9" "Builders"
                    ConfigService.TCustom (Some Samples.partialCustom))).
  - refine (proj2 (proj2 (proj2 (proj2 (proj2 (proj2 (proj2 (created_configuration
              None "org-9" "Builders" ConfigService.TCustom None)))))))
              eq_refl _ _); discriminate.
Defined.

(** X27: [processConfigWithSecrets] touches the client secret only.
    The processed row has the fields of the stored row, the Azure tenant
    and client ids included, so it passes [validateConfig] exactly when the
    stored row does; a secret is written only when the stored row has
    secrets named [client_secret], and it is then the decoding of the last
    of them; and processing a processed row changes nothing. *)
Theorem processing_touches_the_secret_only :
  forall (decode : string -> string) (row : ConfigService.ClientConfiguration),
    let processed := ConfigService.processConfigWithSecrets decode row in
    Vocabulary.sameButSecret processed row
    /\ ConfigService.validateConfig processed = ConfigService.validateConfig row
    /\ ConfigService.processConfigWithSecrets decode processed = processed
    /\ (processed = row
        \/ exists secrets before encrypted after,
             ConfigService.client_secrets row = Some secrets
             /\ secrets = (before ++ ("client_secret", encrypted) :: after)%list
             /\ Forall (fun entry => entry.1 <> "client_secret") after
             /\ decode encrypted <> ""
             /\ Vocabulary.secretOf processed = Some (decode encrypted)).
Proof.
  intros decode row processed. unfold processed.
  unfold ConfigService.processConfigWithSecrets.
  destruct (ConfigService.client_secrets row) as [secrets|] eqn:Hs.
  - destruct (ConfigService.decodedClientSecret decode secrets None)
      as [[|c r]|] eqn:Hd.
    + rewrite Hs, Hd. repeat split; auto.
    + split; [|split; [|split]].
      * unfold Vocabulary.sameButSecret, ConfigService.tenantIdOf,
          ConfigService.clientIdOf. simpl.
        destruct (ConfigService.azure_config row); repeat split; auto.
      * unfold ConfigService.validateConfig, ConfigService.tenantIdOf,
          ConfigService.clientIdOf, ConfigService.apiUrlOf. simpl.
        destruct (ConfigService.azure_config row); reflexivity.
      * simpl. rewrite ?Hs, Hd. reflexivity.
      * right.
        destruct (decodedClientSecret_last decode secrets None _ Hd)
          as [(before & enc & after & -> & Hafter & Hv) | [_ [=]]].
        exists (before ++ ("client_secret", enc) :: after)%list, before, enc, after.
        rewrite <- Hv. repeat split; auto; discriminate.
    + rewrite Hs, Hd. repeat split; auto.
  - rewrite Hs. repeat split; auto.
Qed.

(** ** The organization filter pattern *)

(** X28: [getOrganizationFilterPattern] never returns the empty pattern,
    and decides by the organization's identifier: its id, or its name when
    the id is absent or empty.  Without an organization or an identifier
    the pattern is [unknown-org].  An identifier that mentions [austin], in
    any letter case, gives [Austin Industries] even when it also mentions
    [qig]; otherwise one that mentions [qig] or [quality improvement] gives
    the wildcard; and an identifier that mentions none of the known words
    gives the organization's name, or the identifier when there is no
    name, whatever the name mentions. *)
Theorem filter_pattern_decides_by_identifier :
  forall user : option RequestUser,
    getOrganizationFilterPattern user <> ""
    /\ (organizationNameOf user = None ->
        idOf (match user with Some u => ru_organization u | None => None end) = None ->
        getOrganizationFilterPattern user = "unknown-org")
    /\ (forall u organization identifier,
          user = Some u -> ru_organization u = Some organization ->
          orElse (id organization) (name organization) = Some identifier ->
          identifier <> "" ->
          let lower := toLowerCase identifier in
          let austin := occursIn "austin" lower \/ lower = "ai" in
          let qig := occursIn "qig" lower \/ occursIn "quality improvement" lower in
          let spinakr :=
            occursIn "spinakr" lower \/ occursIn "spinaker" lower \/ lower = "spnkr" in
          (austin -> getOrganizationFilterPattern user = "Austin Industries")
          /\ (~ austin -> qig -> getOrganizationFilterPattern user = "*")
          /\ (~ austin -> ~ qig -> spinakr ->
              getOrganizationFilterPattern user = "Spinakr")
          /\ (~ austin -> ~ qig -> ~ spinakr ->
              getOrganizationFilterPattern user
              = orEmpty (orElse (name organization) (Some identifier)))).
Proof.
  intros user. split; [|split].
  - unfold getOrganizationFilterPattern.
    destruct user as [[uid email [org|] qig]|]; try discriminate.
    destruct (orElse (id org) (name org)) as [[|c r]|] eqn:Hi; try discriminate.
    repeat (match goal with |- context [if ?b then _ else _] => destruct b end;
            try discriminate).
    unfold orElse. destruct (name org) as [[|c' r']|]; discriminate.
  - unfold getOrganizationFilterPattern, organizationNameOf.
    destruct user as [[uid email [org|] qig]|]; try reflexivity. simpl.
    intros -> ->. reflexivity.
  - intros u org identifier -> Horg Hi Hne lower austin qig spinakr.
    unfold getOrganizationFilterPattern. destruct u as [uid email o q].
    simpl in Horg. subst o. rewrite Hi.
    destruct identifier as [|c r]; [congruence|]. fold lower.
    assert (Ha : includes lower "austin" || String.eqb lower "ai" = true <-> austin).
    { unfold austin. rewrite orb_true_iff, includes_occurs, String.eqb_eq.
      reflexivity. }
    assert (Hq : includes lower "qig" || includes lower "quality improvement" = true
                 <-> qig).
    { unfold qig. rewrite orb_true_iff, !includes_occurs. reflexivity. }
    assert (Hsp : includes lower "spinakr" || includes lower "spinaker"
                  || String.eqb lower "spnkr" = true <-> spinakr).
    { unfold spinakr. rewrite !orb_true_iff, !includes_occurs, String.eqb_eq.
      tauto. }
    destruct (includes lower "austin" || String.eqb lower "ai") eqn:Ea.
    { repeat split; try reflexivity; intros Hn; exfalso; apply Hn, Ha; reflexivity. }
    assert (Hna : ~ austin) by (intros H; apply Ha in H; discriminate).
    destruct (includes lower "qig" || includes lower "quality improvement") eqn:Eq.
    { repeat split; try reflexivity; try contradiction.
      all: intros _ Hn; exfalso; apply Hn, Hq; reflexivity. }
    assert (Hnq : ~ qig) by (intros H; apply Hq in H; discriminate).
    destruct (includes lower "spinakr" || includes lower "spinaker"
              || String.eqb lower "spnkr") eqn:Es.
    { repeat split; try reflexivity; try contradiction.
      intros _ _ Hn. exfalso. apply Hn, Hsp. reflexivity. }
    assert (Hns : ~ spinakr) by (intros H; apply Hsp in H; discriminate).
    repeat split; try reflexivity; contradiction.
Qed.

Lemma filter_pattern_decides_by_identifier_witness :
  getOrganizationFilterPattern (Some Examples.adminUser) = "*".
Proof.
  refine (proj1 (proj2 (proj2 (proj2 (filter_pattern_decides_by_identifier
            (Some Examples.adminUser)))
            Examples.adminUser qigOrganization "qig-org"
            eq_refl eq_refl eq_refl _)) _ _).
  - discriminate.
  - intros [H | H]; [|discriminate].
    apply includes_occurs in H. discriminate.
  - left. exists "", "-org". reflexivity.
Defined.

(** ** Requests that did not pass the middleware *)

(** X29: the organization routes do nothing for a request that carries
    no organization context, which is every request when the router is
    mounted without the authentication middleware.  Listing, switching and
    resetting are answered 403 (switching with no body at all, 500), the
    current context is answered 401, and the session store is left as it
    was, whatever the request carries besides. *)
Theorem organization_routes_need_context :
  forall directory now user body (sessions : gmap string OrgSession),
    let req :=
      {| Organizations.req_user := user;
         Organizations.req_context := None;
         Organizations.req_body := body |} in
    Organizations.listHandler directory req
      = Organizations.Failed 403 "Only QIG administrators can list organizations"
    /\ (Organizations.switchHandler directory now req sessions).2 = sessions
    /\ (body <> None ->
        Organizations.switchHandler directory now req sessions
        = (Organizations.Failed 403
             "Only QIG administrators can switch organizations", sessions))
    /\ (body = None ->
        Organizations.switchHandler directory now req sessions
        = (Organizations.Failed 500 "Internal server error", sessions))
    /\ Organizations.resetHandler req sessions
       = (Organizations.Failed 403
            "Only QIG administrators can reset organizations", sessions)
    /\ Organizations.currentHandler req
       = Organizations.Failed 401 "Authentication required".
Proof.
  intros directory now user body sessions req. unfold req.
  unfold Organizations.switchHandler. simpl.
  destruct body; repeat split; try reflexivity; congruence.
Qed.

Lemma organization_routes_need_context_witness :
  Organizations.switchHandler (Some Samples.directory) 2000
    {| Organizations.req_user := None;
       Organizations.req_context := None;
       Organizations.req_body := Some (Some "org-42") |} Examples.switched
  = (Organizations.Failed 403 "Only QIG administrators can switch organizations",
     Examples.switched).
Proof.
  refine (proj1 (proj2 (proj2 (organization_routes_need_context
            (Some Samples.directory) 2000 None (Some (Some "org-42"))
            Examples.switched))) _).
  discriminate.
Defined.
